(** * ADS1x15: register access engine (wireUtil) and ADC device profile

    A shallow embedding of [utility/wireUtil.h], [ADS1x15.h] and
    [ADS1x15.cpp].  The Arduino [Wire] object, the millisecond clock and the
    busy-wait primitive are external to the library: they are an interface
    ([TwoWire]) over an abstract platform state.  Machine integers are [Z]
    with their wrap-around written out; C [float] is IEEE binary32, taken
    from the standard library's [SpecFloat] at precision 24. *)

From Stdlib Require Import ZArith Lia Bool.
From Stdlib Require Import Floats.SpecFloat.
From stdpp Require Import base option list.

Open Scope Z_scope.

(** ** Fixed-width integers *)

Definition wrap (bits x : Z) : Z := x mod 2 ^ bits.

Definition u8 (x : Z) : Z := wrap 8 x.
Definition u16 (x : Z) : Z := wrap 16 x.
Definition u32 (x : Z) : Z := wrap 32 x.

(** Conversion to [int16_t]: two's complement, as gcc does it. *)
Definition i16 (x : Z) : Z :=
  let u := u16 x in if u <? 2 ^ 15 then u else u - 2 ^ 16.

(** [unsigned long] is 32 bits wide on every Arduino core. *)
Definition ulong (x : Z) : Z := wrap 32 x.

(** The template parameter [DATATYPE].  The header documents [uint8_t],
    [uint16_t] and [uint32_t]; a wider type reaches the [default] branches
    of [writeAsBytes] and [readAsBytes]. *)
Inductive DATATYPE : Type := uint8_t | uint16_t | uint32_t | uint64_t.

Definition sizeof (ty : DATATYPE) : Z :=
  match ty with
  | uint8_t => 1
  | uint16_t => 2
  | uint32_t => 4
  | uint64_t => 8
  end.

Definition cast (ty : DATATYPE) (x : Z) : Z := wrap (8 * sizeof ty) x.

(** ** The platform: bus transport, clock and busy-wait *)

(** What leaves the driver: bus calls that start, fill, close or request a
    transaction, and the calls of the two user handlers.  [endTransmission]
    is recorded with the status it returned. *)
Inductive Event : Type :=
| beginBus
| beginTransmission (addr : Z)
| write (b : Z)
| endTransmission (stop : bool) (status : Z)
| requestFrom (addr n : Z)
| timeOutHandlerCall
| errorHandlerCall (status : Z).

Definition is_handler_call (e : Event) : bool :=
  match e with
  | timeOutHandlerCall | errorHandlerCall _ => true
  | _ => false
  end.

Definition is_timeout_call (e : Event) : bool :=
  match e with timeOutHandlerCall => true | _ => false end.

Definition is_error_call (e : Event) : bool :=
  match e with errorHandlerCall _ => true | _ => false end.

Definition is_bus_call (e : Event) : bool := negb (is_handler_call e).

(** The bytes put on the bus by a sequence of events. *)
Fixpoint emitted (l : list Event) : list Z :=
  match l with
  | [] => []
  | write b :: l' => b :: emitted l'
  | _ :: l' => emitted l'
  end.

(** The primitives the driver consumes.  Each one may change the platform
    state [W]; queries return their C result as an integer.  [size_t_bits]
    is the width of [size_t] on the target (16 on AVR, 32 on ESP8266). *)
Class TwoWire (W : Type) : Type := {
  Wire_begin : W -> W;
  Wire_beginTransmission : Z -> W -> W;
  Wire_write : Z -> W -> W;
  Wire_endTransmission : bool -> W -> Z * W;
  Wire_requestFrom : Z -> Z -> W -> W;
  Wire_available : W -> Z * W;
  Wire_read : W -> Z * W;
  millis : W -> Z * W;
  delayMicroseconds : Z -> W -> W;
  size_t_bits : Z
}.

Definition size_t `{TwoWire W} (x : Z) : Z := wrap size_t_bits x.

(** ** State and the monad of driver code *)

(** A driver object of type [O], the platform it runs on and the record of
    what it did. *)
Record Machine (O W : Type) : Type := mkMachine {
  self : O;
  wire : W;
  log : list Event
}.
Arguments mkMachine {O W} _ _ _.
Arguments self {O W} _.
Arguments wire {O W} _.
Arguments log {O W} _.

(** State passing; [None] is a polling loop that has not ended within the
    given number of iterations. *)
Definition M (S A : Type) : Type := S -> option (A * S).

#[global] Instance M_ret S : MRet (M S) := fun A a s => Some (a, s).
#[global] Instance M_bind S : MBind (M S) := fun A B f c s =>
  match c s with
  | Some (a, s') => f a s'
  | None => None
  end.

Definition gets {O W A} (f : O -> A) : M (Machine O W) A :=
  fun m => Some (f (self m), m).

Definition modify {O W} (f : O -> O) : M (Machine O W) unit :=
  fun m => Some (tt, mkMachine (f (self m)) (wire m) (log m)).

(** A call that changes the platform and is recorded. *)
Definition call {O W} (e : Event) (f : W -> W) : M (Machine O W) unit :=
  fun m => Some (tt, mkMachine (self m) (f (wire m)) (log m ++ [e])).

(** A query of the platform: not recorded. *)
Definition query {O W} (f : W -> Z * W) : M (Machine O W) Z :=
  fun m => let '(r, w) := f (wire m) in Some (r, mkMachine (self m) w (log m)).

(** ** wireUtil<REGTYPE, DATATYPE> *)

(** The data members.  A handler is a plain C function: it acts on the rest
    of the program, which is part of the platform state, and [NULL] is
    [None]. *)
Record wireUtil (W : Type) : Type := mkWireUtil {
  timeoutTime : Z;
  timeoutFlag : bool;
  address : Z;
  timeOutHandler : option (W -> W);
  errorHandler : option (Z -> W -> W)
}.
Arguments mkWireUtil {W} _ _ _ _ _.
Arguments timeoutTime {W} _.
Arguments timeoutFlag {W} _.
Arguments address {W} _.
Arguments timeOutHandler {W} _.
Arguments errorHandler {W} _.

Definition set_timeoutFlag {W} (b : bool) (o : wireUtil W) : wireUtil W :=
  mkWireUtil (timeoutTime o) b (address o) (timeOutHandler o) (errorHandler o).

Definition attachTimeoutHandler {W} (h : option (W -> W)) (o : wireUtil W)
  : wireUtil W :=
  mkWireUtil (timeoutTime o) (timeoutFlag o) (address o) h (errorHandler o).

Definition attachErrorHandler {W} (h : option (Z -> W -> W)) (o : wireUtil W)
  : wireUtil W :=
  mkWireUtil (timeoutTime o) (timeoutFlag o) (address o) (timeOutHandler o) h.

Definition getTimeoutFlag {W} (o : wireUtil W) : bool := timeoutFlag o.

(** How a polling loop ended. *)
Inductive Polled : Type := Ready | Expired.

Section Engine.
Context {W : Type} `{TW : TwoWire W}.

#[local] Abbreviation Eng := (M (Machine (wireUtil W) W)).

Definition Wire_write_byte (b : Z) : Eng unit :=
  call (write (u8 b)) (Wire_write (u8 b)).

(** [Wire.write(buffer, n)]: the bytes in index order. *)
Fixpoint Wire_write_buf (bs : list Z) : Eng unit :=
  match bs with
  | [] => mret tt
  | b :: bs' => Wire_write_byte b;; Wire_write_buf bs'
  end.

(** [Wire.endTransmission] returns a [uint8_t]. *)
Definition Wire_end (stop : bool) : Eng Z :=
  fun m =>
    let '(r, w) := Wire_endTransmission stop (wire m) in
    Some (u8 r, mkMachine (self m) w (log m ++ [endTransmission stop (u8 r)])).

Definition begin (addr : Z) : Eng unit :=
  modify (fun o => mkWireUtil (timeoutTime o) (timeoutFlag o) (u8 addr)
                     (timeOutHandler o) (errorHandler o));;
  call beginBus Wire_begin.

(** *** writeAsBytes *)
Definition writeAsBytes (ty : DATATYPE) (d : Z) : Eng unit :=
  match sizeof ty with
  | 4 =>
      let b3 := Z.land d 0xFF in
      let d := Z.shiftr d 8 in
      let b2 := Z.land d 0xFF in
      let d := Z.shiftr d 8 in
      let b1 := Z.land d 0xFF in
      let d := Z.shiftr d 8 in
      let b0 := Z.land d 0xFF in
      Wire_write_buf [b0; b1; b2; b3]
  | 2 =>
      let b1 := Z.land d 0xFF in
      let b0 := Z.land (Z.shiftr d 8) 0xFF in
      Wire_write_buf [b0; b1]
  | 1 => Wire_write_buf [d]
  | _ => Wire_write_buf (replicate (Z.to_nat (sizeof ty)) 0)
  end.

(** *** readAsBytes *)
Definition readAsBytes (ty : DATATYPE) : Eng Z :=
  match sizeof ty with
  | 4 =>
      r ← query Wire_read;
      let d := u32 (Z.shiftl (u32 r) 24) in
      r ← query Wire_read;
      let d := Z.lor d (u32 (Z.shiftl (u32 r) 16)) in
      r ← query Wire_read;
      let d := Z.lor d (u32 (Z.shiftl (u32 r) 8)) in
      r ← query Wire_read;
      let d := Z.lor d (u32 r) in
      mret d
  | 2 =>
      r ← query Wire_read;
      let d := u16 (Z.shiftl (u16 r) 8) in
      r ← query Wire_read;
      let d := Z.lor d (u16 r) in
      mret d
  | 1 =>
      r ← query Wire_read;
      mret (u8 r)
  | _ => mret 0
  end.

(** *** writeRegisters *)

(** The body of the [for] loop, from index [i] for [n] more rounds.  A
    [buffer] shorter than the count is read as zero past its end. *)
Fixpoint write_words (ty : DATATYPE) (buffer : list Z) (i n : nat) : Eng unit :=
  match n with
  | O => mret tt
  | S n' =>
      let d := cast ty (nth i buffer 0) in
      (if sizeof ty =? 1 then Wire_write_byte d else writeAsBytes ty d);;
      write_words ty buffer (S i) n'
  end.

Definition writeRegisters (ty : DATATYPE) (reg : Z) (buffer : list Z) (len : nat)
  : Eng bool :=
  a ← gets address;
  call (beginTransmission a) (Wire_beginTransmission a);;
  Wire_write_byte reg;;
  write_words ty buffer 0 len;;
  status ← Wire_end true;
  if status =? 0 then mret true
  else
    h ← gets errorHandler;
    match h with
    | Some f => call (errorHandlerCall status) (f status);; mret false
    | None => mret false
    end.

(** *** writeRegister *)
Definition writeRegister (ty : DATATYPE) (reg : Z) (data : Z) : Eng bool :=
  writeRegisters ty reg [data] 1.

(** *** The polling loops

    Both reads spin on [while (cond(Wire.available())) { if (abortTime <
    millis()) ... }]; [waiting] is the loop condition and each round of the
    loop takes one unit of [fuel]. *)
Fixpoint poll (fuel : nat) (waiting : Z -> bool) (abortTime : Z) (w : W)
  : option (Polled * W) :=
  match fuel with
  | O => None
  | S fuel' =>
      let '(a, w1) := Wire_available w in
      if waiting a then
        let '(t, w2) := millis w1 in
        if abortTime <? ulong t then Some (Expired, w2)
        else poll fuel' waiting abortTime w2
      else Some (Ready, w1)
  end.

Definition polling (fuel : nat) (waiting : Z -> bool) (abortTime : Z)
  : Eng Polled :=
  fun m =>
    match poll fuel waiting abortTime (wire m) with
    | Some (r, w) => Some (r, mkMachine (self m) w (log m))
    | None => None
    end.

(** The body of the timeout branch up to its [return]. *)
Definition timed_out : Eng unit :=
  modify (set_timeoutFlag true);;
  h ← gets timeOutHandler;
  match h with
  | Some f => call timeOutHandlerCall f
  | None => mret tt
  end.

(** *** readRegister *)
Definition readRegister (fuel : nat) (ty : DATATYPE) (reg : Z) : Eng Z :=
  a ← gets address;
  call (beginTransmission a) (Wire_beginTransmission a);;
  Wire_write_byte reg;;
  Wire_end false;;
  call (requestFrom a (u8 (sizeof ty))) (Wire_requestFrom a (u8 (sizeof ty)));;
  modify (set_timeoutFlag false);;
  now ← query millis;
  budget ← gets timeoutTime;
  let abortTime := ulong (ulong now + budget) in
  r ← polling fuel (fun avail => avail =? 0) abortTime;
  match r with
  | Expired => timed_out;; mret 0
  | Ready =>
      if sizeof ty =? 1 then r ← query Wire_read; mret (cast ty r)
      else readAsBytes ty
  end.

(** *** readRegisters *)

(** The final [for] loop: word [i] of the buffer receives the next word
    read.  A slot past the end of [buffer] is not stored. *)
Fixpoint read_words (ty : DATATYPE) (buffer : list Z) (i n : nat)
  : Eng (list Z) :=
  match n with
  | O => mret buffer
  | S n' =>
      d ← (if sizeof ty =? 1 then r ← query Wire_read; mret (cast ty r)
           else readAsBytes ty);
      read_words ty (<[i:=d]> buffer) (S i) n'
  end.

(** [memset(buffer, 0, len * sizeof(DATATYPE))] on an array of words. *)
Definition zero_fill (buffer : list Z) (len : nat) : list Z :=
  replicate (min len (length buffer)) 0 ++ drop len buffer.

(** The caller's array is passed in and its final contents are returned
    next to the result. *)
Definition readRegisters (fuel : nat) (ty : DATATYPE) (reg : Z)
    (buffer : list Z) (len : nat) : Eng (bool * list Z) :=
  a ← gets address;
  call (beginTransmission a) (Wire_beginTransmission a);;
  Wire_write_byte reg;;
  Wire_end false;;
  modify (set_timeoutFlag false);;
  now ← query millis;
  budget ← gets timeoutTime;
  let abortTime := ulong (ulong now + budget) in
  let bufferSize := size_t (Z.of_nat len * sizeof ty) in
  let buffer := zero_fill buffer len in
  call (requestFrom a (u8 bufferSize)) (Wire_requestFrom a (u8 bufferSize));;
  r ← polling fuel (fun avail => size_t avail <? bufferSize) abortTime;
  match r with
  | Expired => timed_out;; mret (false, buffer)
  | Ready =>
      buffer ← read_words ty buffer 0 len;
      mret (true, buffer)
  end.

(** *** setRegisterBit

    [1 << bit] is computed in [int] and converted to [DATATYPE]; the shift
    is taken exactly, which is what C does for a bit index below the width
    of [int] less one. *)
Definition setRegisterBit (fuel : nat) (ty : DATATYPE) (reg : Z) (bit : Z)
    (state : bool) : Eng bool :=
  tempReg ← readRegister fuel ty reg;
  let mask := cast ty (Z.shiftl 1 bit) in
  let tempReg :=
    if state then cast ty (Z.lor tempReg mask)
    else cast ty (Z.land tempReg (Z.lnot mask)) in
  writeRegister ty reg tempReg.

(** *** A platform on which a poll is starved

    [Starved waiting deadline w w']: from platform state [w] on, every
    query of the available count satisfies the loop condition [waiting]
    until a clock reading exceeds [deadline], which leaves the platform in
    [w'].  It speaks of the platform alone. *)
Inductive Starved (waiting : Z -> bool) (deadline : Z) : W -> W -> Prop :=
| starved_expired w a w1 t w2 :
    Wire_available w = (a, w1) ->
    waiting a = true ->
    millis w1 = (t, w2) ->
    deadline < ulong t ->
    Starved waiting deadline w w2
| starved_waiting w a w1 t w2 w3 :
    Wire_available w = (a, w1) ->
    waiting a = true ->
    millis w1 = (t, w2) ->
    ulong t <= deadline ->
    Starved waiting deadline w2 w3 ->
    Starved waiting deadline w w3.

(** [n] consecutive calls of [Wire.read()]. *)
Fixpoint Wire_reads (n : nat) (w : W) : list Z * W :=
  match n with
  | O => ([], w)
  | S n' =>
      let '(r, w1) := Wire_read w in
      let '(rs, w2) := Wire_reads n' w1 in
      (r :: rs, w2)
  end.

End Engine.

(** ** Big-endian byte strings

    The reference reading of "most significant byte first", independent of
    the driver. *)

Fixpoint be_encode (n : nat) (v : Z) : list Z :=
  match n with
  | O => []
  | S n' => (v / 256 ^ Z.of_nat n') mod 256 :: be_encode n' v
  end.

Definition be_decode (bs : list Z) : Z :=
  fold_left (fun acc b => acc * 256 + b) bs 0.

Definition is_byte (b : Z) : Prop := 0 <= b < 256.

(** ** binary32 arithmetic for C [float] *)

Definition float : Type := spec_float.

Definition fmul : float -> float -> float := SFmul 24 128.
Definition fdiv : float -> float -> float := SFdiv 24 128.
Definition fadd : float -> float -> float := SFadd 24 128.
Definition fltb : float -> float -> bool := SFltb.

(** A representation that denotes a binary32 value. *)
Definition is_float (x : float) : bool := valid_binary 24 128 x.

(** Conversion of an integer to [float]. *)
Definition float_of_Z (n : Z) : float := binary_normalize 24 128 n 0 false.

(** binary64, for the [double] literals of the source. *)
Definition double_of_Z (n : Z) : spec_float := binary_normalize 53 1024 n 0 false.
Definition dsub : spec_float -> spec_float -> spec_float := SFsub 53 1024.
Definition ddiv : spec_float -> spec_float -> spec_float := SFdiv 53 1024.

(** Conversion of a [double] to [float], to nearest even. *)
Definition float_of_double (x : spec_float) : float :=
  match x with
  | S754_finite s m e => binary_normalize 24 128 (cond_Zopp s (Zpos m)) e s
  | _ => x
  end.

(** The decimal literal [n / 10^k] ([2.048] is [2048 / 10^3]), as the
    compiler reads it: the nearest [double]. *)
Definition double_lit (n : Z) (k : Z) : spec_float :=
  ddiv (double_of_Z n) (double_of_Z (10 ^ k)).

Definition float_lit (n : Z) (k : Z) : float := float_of_double (double_lit n k).

Definition fzero : float := S754_zero false.
Definition fone : float := float_lit 1 0.

(** ** ADS1x15.h: register map and configuration fields *)

Inductive ADS1x15_Register_t : Type :=
  CONVERSION_REG | CONFIG_REG | LOW_THRESH_REG | HI_THRESH_REG.

Definition reg_code (r : ADS1x15_Register_t) : Z :=
  match r with
  | CONVERSION_REG => 0x00
  | CONFIG_REG => 0x01
  | LOW_THRESH_REG => 0x02
  | HI_THRESH_REG => 0x03
  end.

Definition ADS1x15_OS : Z := Z.shiftl 1 15.

Definition ADS1x15_MUX_MASK : Z := Z.shiftl 0x07 12.

Inductive ADS1x15_MUX_t : Type :=
  DIF01 | DIF03 | DIF13 | DIF23 | SE0 | SE1 | SE2 | SE3.

Definition mux_code (m : ADS1x15_MUX_t) : Z :=
  match m with
  | DIF01 => Z.shiftl 0x0 12
  | DIF03 => Z.shiftl 0x1 12
  | DIF13 => Z.shiftl 0x2 12
  | DIF23 => Z.shiftl 0x3 12
  | SE0 => Z.shiftl 0x4 12
  | SE1 => Z.shiftl 0x5 12
  | SE2 => Z.shiftl 0x6 12
  | SE3 => Z.shiftl 0x7 12
  end.

Definition ADS1x15_GAIN_MASK : Z := Z.shiftl 0x7 9.

Inductive ADS1x15_GAIN_t : Type :=
  GAIN_23 | GAIN_1 | GAIN_2 | GAIN_4 | GAIN_8 | GAIN_16.

Definition gain_code (g : ADS1x15_GAIN_t) : Z :=
  match g with
  | GAIN_23 => Z.shiftl 0x0 9
  | GAIN_1 => Z.shiftl 0x1 9
  | GAIN_2 => Z.shiftl 0x2 9
  | GAIN_4 => Z.shiftl 0x3 9
  | GAIN_8 => Z.shiftl 0x4 9
  | GAIN_16 => Z.shiftl 0x5 9
  end.

Definition ADS1x15_DR_MASK : Z := Z.shiftl 0x7 5.

Inductive ADS1115_DR_t : Type :=
  ADS1115_DR_8 | ADS1115_DR_16 | ADS1115_DR_32 | ADS1115_DR_64
| ADS1115_DR_128 | ADS1115_DR_250 | ADS1115_DR_475 | ADS1115_DR_860.

Definition dr1115_code (r : ADS1115_DR_t) : Z :=
  match r with
  | ADS1115_DR_8 => Z.shiftl 0x0 5
  | ADS1115_DR_16 => Z.shiftl 0x1 5
  | ADS1115_DR_32 => Z.shiftl 0x2 5
  | ADS1115_DR_64 => Z.shiftl 0x3 5
  | ADS1115_DR_128 => Z.shiftl 0x4 5
  | ADS1115_DR_250 => Z.shiftl 0x5 5
  | ADS1115_DR_475 => Z.shiftl 0x6 5
  | ADS1115_DR_860 => Z.shiftl 0x7 5
  end.

Inductive ADS1015_DR_t : Type :=
  ADS1015_DR_128 | ADS1015_DR_250 | ADS1015_DR_490 | ADS1015_DR_920
| ADS1015_DR_1600 | ADS1015_DR_2400 | ADS1015_DR_3300.

Definition dr1015_code (r : ADS1015_DR_t) : Z :=
  match r with
  | ADS1015_DR_128 => Z.shiftl 0x0 5
  | ADS1015_DR_250 => Z.shiftl 0x1 5
  | ADS1015_DR_490 => Z.shiftl 0x2 5
  | ADS1015_DR_920 => Z.shiftl 0x3 5
  | ADS1015_DR_1600 => Z.shiftl 0x4 5
  | ADS1015_DR_2400 => Z.shiftl 0x5 5
  | ADS1015_DR_3300 => Z.shiftl 0x6 5
  end.

Definition ADS1x15_COMP_MODE_MASK : Z := Z.shiftl 1 4.
Inductive ADS1x15_COMP_MODE_t : Type := STANDARD_COMP | WINDOW_COMP.
Definition comp_mode_code (c : ADS1x15_COMP_MODE_t) : Z :=
  match c with STANDARD_COMP => Z.shiftl 0x0 4 | WINDOW_COMP => Z.shiftl 0x1 4 end.

Definition ADS1x15_COMP_POL_MASK : Z := Z.shiftl 1 3.
Inductive ADS1x15_COMP_POL_t : Type := ACTIVE_LOW | ACTIVE_HIGH.
Definition comp_pol_code (c : ADS1x15_COMP_POL_t) : Z :=
  match c with ACTIVE_LOW => Z.shiftl 0x0 3 | ACTIVE_HIGH => Z.shiftl 0x1 3 end.

Definition ADS1x15_COMP_LAT_MASK : Z := Z.shiftl 1 2.
Inductive ADS1x15_COMP_LAT_t : Type := NONLATCHING_COMP | LATCHING_COMP.
Definition comp_lat_code (c : ADS1x15_COMP_LAT_t) : Z :=
  match c with NONLATCHING_COMP => Z.shiftl 0x0 2 | LATCHING_COMP => Z.shiftl 0x1 2 end.

Definition defaultConfig : Z := 0x8583.
Definition defaultAddress : Z := 0x48.

(** ** The device classes *)

(** The two concrete classes; the virtual members dispatch on it. *)
Inductive Chip : Type := ADS1115 | ADS1015.

Definition getADCbits (c : Chip) : Z :=
  match c with ADS1115 => 16 | ADS1015 => 12 end.

Definition getFullScaleBits (c : Chip) : Z :=
  match c with ADS1115 => 0x7FFF | ADS1015 => 0x07FF end.

Definition shiftConversion (c : Chip) (x : Z) : Z :=
  match c with ADS1115 => x | ADS1015 => u16 (Z.shiftr x 4) end.

Record ADS1x15 (W : Type) : Type := mkADS1x15 {
  super : wireUtil W;
  chip : Chip;
  configRegister : Z;
  currentGain : ADS1x15_GAIN_t;
  conversionDelay : Z;
  calibration : float
}.
Arguments mkADS1x15 {W} _ _ _ _ _ _.
Arguments super {W} _.
Arguments chip {W} _.
Arguments configRegister {W} _.
Arguments currentGain {W} _.
Arguments conversionDelay {W} _.
Arguments calibration {W} _.

Definition set_super {W} (o : wireUtil W) (d : ADS1x15 W) : ADS1x15 W :=
  mkADS1x15 o (chip d) (configRegister d) (currentGain d) (conversionDelay d)
    (calibration d).

Definition set_configRegister {W} (c : Z) (d : ADS1x15 W) : ADS1x15 W :=
  mkADS1x15 (super d) (chip d) c (currentGain d) (conversionDelay d)
    (calibration d).

Definition set_currentGain {W} (g : ADS1x15_GAIN_t) (d : ADS1x15 W) : ADS1x15 W :=
  mkADS1x15 (super d) (chip d) (configRegister d) g (conversionDelay d)
    (calibration d).

Definition set_conversionDelay {W} (n : Z) (d : ADS1x15 W) : ADS1x15 W :=
  mkADS1x15 (super d) (chip d) (configRegister d) (currentGain d) n
    (calibration d).

Definition set_calibration {W} (x : float) (d : ADS1x15 W) : ADS1x15 W :=
  mkADS1x15 (super d) (chip d) (configRegister d) (currentGain d)
    (conversionDelay d) x.

(** [field &= ~(uint16_t)mask; field |= (uint16_t)value] on the mirror. *)
Definition set_field (mask value : Z) (cfg : Z) : Z :=
  u16 (Z.lor (u16 (Z.land cfg (Z.lnot (u16 mask)))) (u16 value)).

(** *** Setters of ADS1x15.cpp *)

Definition setCalibration {W} (x : float) (d : ADS1x15 W) : ADS1x15 W :=
  set_calibration x d.

(** [setCalibration(float r1, float r2)].  The comparison is made in
    [double] after an exact promotion, so it is the comparison of [r2]
    with zero. *)
Definition setCalibration2 {W} (r1 r2 : float) (d : ADS1x15 W) : ADS1x15 W :=
  if fltb fzero r2 then set_calibration (fdiv (fadd r1 r2) r2) d else d.

Definition setGain {W} (g : ADS1x15_GAIN_t) (d : ADS1x15 W) : ADS1x15 W :=
  let d := set_currentGain g d in
  set_configRegister (set_field ADS1x15_GAIN_MASK (gain_code g) (configRegister d)) d.

Definition getFullScaleV {W} (d : ADS1x15 W) : float :=
  let value :=
    match currentGain d with
    | GAIN_23 => float_lit 6144 3
    | GAIN_1 => float_lit 4096 3
    | GAIN_2 => float_lit 2048 3
    | GAIN_4 => float_lit 1024 3
    | GAIN_8 => float_lit 512 3
    | GAIN_16 => float_lit 256 3
    end in
  fmul value (calibration d).

Definition getCalibration {W} (d : ADS1x15 W) : float := calibration d.

Definition setComparatorMode {W} (c : ADS1x15_COMP_MODE_t) (d : ADS1x15 W) :=
  set_configRegister
    (set_field ADS1x15_COMP_MODE_MASK (comp_mode_code c) (configRegister d)) d.

Definition setComparatorPolarity {W} (c : ADS1x15_COMP_POL_t) (d : ADS1x15 W) :=
  set_configRegister
    (set_field ADS1x15_COMP_POL_MASK (comp_pol_code c) (configRegister d)) d.

Definition setComparatorLatch {W} (c : ADS1x15_COMP_LAT_t) (d : ADS1x15 W) :=
  set_configRegister
    (set_field ADS1x15_COMP_LAT_MASK (comp_lat_code c) (configRegister d)) d.

Definition setDataRate1115 {W} (r : ADS1115_DR_t) (d : ADS1x15 W) : ADS1x15 W :=
  let d := set_configRegister
             (set_field ADS1x15_DR_MASK (dr1115_code r) (configRegister d)) d in
  set_conversionDelay
    match r with
    | ADS1115_DR_8 => 125400
    | ADS1115_DR_16 => 62900
    | ADS1115_DR_32 => 31650
    | ADS1115_DR_64 => 16025
    | ADS1115_DR_128 => 8213
    | ADS1115_DR_250 => 4400
    | ADS1115_DR_475 => 2505
    | ADS1115_DR_860 => 1563
    end d.

Definition setDataRate1015 {W} (r : ADS1015_DR_t) (d : ADS1x15 W) : ADS1x15 W :=
  let d := set_configRegister
             (set_field ADS1x15_DR_MASK (dr1015_code r) (configRegister d)) d in
  set_conversionDelay
    match r with
    | ADS1015_DR_128 => 8213
    | ADS1015_DR_250 => 4400
    | ADS1015_DR_490 => 2441
    | ADS1015_DR_920 => 1487
    | ADS1015_DR_1600 => 1025
    | ADS1015_DR_2400 => 817
    | ADS1015_DR_3300 => 703
    end d.

(** *** Constructors

    The base constructor assigns five members; [address], the two handler
    pointers and [conversionDelay] keep what the storage held, here the
    arguments. *)
Definition ADS1x15_new {W} (c : Chip) (addr : Z) (th : option (W -> W))
    (eh : option (Z -> W -> W)) (delay : Z) : ADS1x15 W :=
  mkADS1x15 (mkWireUtil 1000 false addr th eh) c defaultConfig GAIN_2 delay
    fone.

Definition ADS1115_new {W} addr th eh delay : ADS1x15 W :=
  setDataRate1115 ADS1115_DR_128 (ADS1x15_new ADS1115 addr th eh delay).

Definition ADS1015_new {W} addr th eh delay : ADS1x15 W :=
  setDataRate1015 ADS1015_DR_1600 (ADS1x15_new ADS1015 addr th eh delay).

Section Device.
Context {W : Type} `{TW : TwoWire W}.

#[local] Abbreviation Dev := (M (Machine (ADS1x15 W) W)).

(** A member function of the base class, run on the derived object. *)
Definition inherited {A} (c : M (Machine (wireUtil W) W) A) : Dev A :=
  fun m =>
    match c (mkMachine (super (self m)) (wire m) (log m)) with
    | Some (a, m') =>
        Some (a, mkMachine (set_super (self m') (self m)) (wire m') (log m'))
    | None => None
    end.

Definition ADS1x15_begin : Dev unit := inherited (begin defaultAddress).

Definition addressIndex (a : Z) : Z := u8 (a + defaultAddress).

(** A busy wait: it passes on the platform and is not a bus call. *)
Definition delay (us : Z) : Dev unit :=
  fun m => Some (tt, mkMachine (self m) (delayMicroseconds us (wire m)) (log m)).

(** *** analogRead(ADS1x15_MUX_t) *)
Definition analogRead (fuel : nat) (mux : ADS1x15_MUX_t) : Dev Z :=
  modify (fun d =>
    set_configRegister
      (set_field ADS1x15_MUX_MASK (mux_code mux) (configRegister d)) d);;
  modify (fun d =>
    set_configRegister (u16 (Z.lor (configRegister d) (u16 ADS1x15_OS))) d);;
  cfg ← gets configRegister;
  inherited (writeRegister uint16_t (reg_code CONFIG_REG) cfg);;
  us ← gets conversionDelay;
  delay us;;
  raw ← inherited (readRegister fuel uint16_t (reg_code CONVERSION_REG));
  c ← gets chip;
  let result := shiftConversion c raw in
  if getFullScaleBits c <? result then mret (i16 (Z.lor result 0x8000))
  else mret (i16 result).

(** *** analogRead(uint8_t): the [int16_t] result becomes [uint16_t] *)
Definition analogRead_ch (fuel : nat) (ch : Z) : Dev Z :=
  if ch =? 0 then r ← analogRead fuel SE0; mret (u16 r)
  else if ch =? 1 then r ← analogRead fuel SE1; mret (u16 r)
  else if ch =? 2 then r ← analogRead fuel SE2; mret (u16 r)
  else if ch =? 3 then r ← analogRead fuel SE3; mret (u16 r)
  else mret 0.

(** *** analogReadVoltage

    The two operands of the product do not interfere: [analogRead] leaves
    the gain and the calibration alone. *)
Definition analogReadVoltage (fuel : nat) (ch : Z) : Dev float :=
  fs ← gets getFullScaleV;
  r ← analogRead_ch fuel ch;
  c ← gets chip;
  mret (fmul fs (fdiv (float_of_Z r) (float_of_Z (getFullScaleBits c)))).

(** *** analogReadCurrent *)
Definition analogReadCurrent (fuel : nat) (ch : Z) (r : float) : Dev float :=
  if fltb fzero r then v ← analogReadVoltage fuel ch; mret (fdiv v r)
  else mret fzero.

(** *** analogRead420: the arithmetic is in [double] *)
Definition analogRead420 (fuel : nat) (ch : Z) (r : float) : Dev float :=
  i ← analogReadCurrent fuel ch r;
  mret (float_of_double (ddiv (dsub i (double_lit 4 0)) (double_lit 16 0))).

End Device.

(** ** A simulated transport

    A test double for the [Wire] object and the clock: one device with a
    register file of [sim_bytes]-byte words behind an address pointer.  A
    write transaction sets the pointer from its first byte and stores the
    following bytes, big-endian, in consecutive registers; a request queues
    the bytes of the registers at the pointer, at most [sim_supply] of them;
    every [endTransmission] reports [sim_status], and a write is stored only
    when that is zero; the clock advances by [sim_tick] milliseconds each
    time it is read. *)
Record Sim : Type := mkSim {
  sim_regs : Z -> Z;
  sim_bytes : nat;
  sim_ptr : Z;
  sim_tx : list Z;
  sim_rx : list Z;
  sim_clock : Z;
  sim_tick : Z;
  sim_status : Z;
  sim_supply : nat
}.

Definition upd (p v : Z) (regs : Z -> Z) : Z -> Z :=
  fun q => if q =? p then v else regs q.

Fixpoint sim_store (bytes n : nat) (p : Z) (data : list Z) (regs : Z -> Z)
  : Z -> Z :=
  match n with
  | O => regs
  | S n' =>
      match data with
      | [] => regs
      | _ => sim_store bytes n' (p + 1) (drop bytes data)
               (upd p (be_decode (take bytes data)) regs)
      end
  end.

Fixpoint sim_fetch (bytes k : nat) (p : Z) (regs : Z -> Z) : list Z :=
  match k with
  | O => []
  | S k' => be_encode bytes (regs p) ++ sim_fetch bytes k' (p + 1) regs
  end.

Definition sim_beginTransmission (a : Z) (s : Sim) : Sim :=
  mkSim (sim_regs s) (sim_bytes s) (sim_ptr s) [] (sim_rx s) (sim_clock s)
    (sim_tick s) (sim_status s) (sim_supply s).

Definition sim_write (b : Z) (s : Sim) : Sim :=
  mkSim (sim_regs s) (sim_bytes s) (sim_ptr s) (sim_tx s ++ [b]) (sim_rx s)
    (sim_clock s) (sim_tick s) (sim_status s) (sim_supply s).

Definition sim_endTransmission (stop : bool) (s : Sim) : Z * Sim :=
  if sim_status s =? 0 then
    match sim_tx s with
    | [] => (0, s)
    | p :: data =>
        (0, mkSim (sim_store (sim_bytes s) (length data) p data (sim_regs s))
              (sim_bytes s) p [] (sim_rx s) (sim_clock s) (sim_tick s)
              (sim_status s) (sim_supply s))
    end
  else
    (sim_status s,
     mkSim (sim_regs s) (sim_bytes s) (sim_ptr s) [] (sim_rx s) (sim_clock s)
       (sim_tick s) (sim_status s) (sim_supply s)).

Definition sim_requestFrom (a n : Z) (s : Sim) : Sim :=
  mkSim (sim_regs s) (sim_bytes s) (sim_ptr s) (sim_tx s)
    (take (min (Z.to_nat n) (sim_supply s))
       (sim_fetch (sim_bytes s) (Z.to_nat n) (sim_ptr s) (sim_regs s)))
    (sim_clock s) (sim_tick s) (sim_status s) (sim_supply s).

Definition sim_available (s : Sim) : Z * Sim :=
  (Z.of_nat (length (sim_rx s)), s).

Definition sim_read (s : Sim) : Z * Sim :=
  match sim_rx s with
  | [] => (-1, s)
  | b :: rest =>
      (b, mkSim (sim_regs s) (sim_bytes s) (sim_ptr s) (sim_tx s) rest
            (sim_clock s) (sim_tick s) (sim_status s) (sim_supply s))
  end.

Definition sim_millis (s : Sim) : Z * Sim :=
  (sim_clock s,
   mkSim (sim_regs s) (sim_bytes s) (sim_ptr s) (sim_tx s) (sim_rx s)
     (ulong (sim_clock s + sim_tick s)) (sim_tick s) (sim_status s)
     (sim_supply s)).

#[global] Instance Sim_TwoWire : TwoWire Sim := {|
  Wire_begin := fun s => s;
  Wire_beginTransmission := sim_beginTransmission;
  Wire_write := sim_write;
  Wire_endTransmission := sim_endTransmission;
  Wire_requestFrom := sim_requestFrom;
  Wire_available := sim_available;
  Wire_read := sim_read;
  millis := sim_millis;
  delayMicroseconds := fun _ s => s;
  size_t_bits := 16
|}.

(** A device of [bytes]-byte registers, all holding [fill] but register
    [p] which holds [v]; it acknowledges, answers with up to 32 bytes (the
    length of the [Wire] buffer) and its clock starts at [t0], one
    millisecond a reading. *)
Definition sim_device (bytes : nat) (fill p v : Z) (t0 : Z) : Sim :=
  mkSim (upd p v (fun _ => fill)) bytes 0 [] [] t0 1 0 32.

(** A bare engine object at the default address, with the default budget. *)
Definition engine0 (th : option (Sim -> Sim)) (eh : option (Z -> Sim -> Sim))
  : wireUtil Sim :=
  mkWireUtil 1000 false defaultAddress th eh.

(** ** Reference notions for the statements *)

(** The bytes of one register word on the bus. *)
Definition word_bytes (ty : DATATYPE) (d : Z) : list Z :=
  match ty with
  | uint64_t => replicate 8 0
  | _ => be_encode (Z.to_nat (sizeof ty)) d
  end.

(** The bytes of [n] words of [buffer] from index [i]. *)
Fixpoint words_bytes (ty : DATATYPE) (buffer : list Z) (i n : nat) : list Z :=
  match n with
  | O => []
  | S n' => word_bytes ty (cast ty (nth i buffer 0)) ++ words_bytes ty buffer (S i) n'
  end.

(** The handler calls a failed write and a timed-out read give rise to, and
    what the handler does to the platform. *)
Definition error_calls {W} (o : wireUtil W) (st : Z) : list Event :=
  if st =? 0 then []
  else match errorHandler o with Some _ => [errorHandlerCall st] | None => [] end.

Definition after_error {W} (o : wireUtil W) (st : Z) (w : W) : W :=
  if st =? 0 then w
  else match errorHandler o with Some f => f st w | None => w end.

Definition timeout_calls {W} (o : wireUtil W) : list Event :=
  match timeOutHandler o with Some _ => [timeOutHandlerCall] | None => [] end.

Definition after_timeout {W} (o : wireUtil W) (w : W) : W :=
  match timeOutHandler o with Some f => f w | None => w end.

Definition supported (ty : DATATYPE) : bool :=
  match ty with uint64_t => false | _ => true end.

Definition width (ty : DATATYPE) : nat := Z.to_nat (sizeof ty).

Section Transactions.
Context {W : Type} `{TW : TwoWire W}.

Definition put_bytes (bs : list Z) (w : W) : W :=
  fold_left (fun w b => Wire_write b w) bs w.

(** The addressing transaction that opens both reads: its status and
    the platform after it. *)
Definition addressed (a reg : Z) (w : W) : Z * W :=
  Wire_endTransmission false (Wire_write (u8 reg) (Wire_beginTransmission a w)).

(** The deadline and the platform state at the moment [readRegister]
    starts to poll. *)
Definition readRegister_start (ty : DATATYPE) (reg : Z)
    (m : Machine (wireUtil W) W) : Z * W :=
  let a := address (self m) in
  let w := Wire_requestFrom a (u8 (sizeof ty)) (snd (addressed a reg (wire m))) in
  let '(now, w) := millis w in
  (ulong (ulong now + timeoutTime (self m)), w).

(** The same for [readRegisters]. *)
Definition readRegisters_start (ty : DATATYPE) (reg : Z) (len : nat)
    (m : Machine (wireUtil W) W) : Z * W :=
  let a := address (self m) in
  let '(now, w) := millis (snd (addressed a reg (wire m))) in
  (ulong (ulong now + timeoutTime (self m)),
   Wire_requestFrom a (u8 (size_t (Z.of_nat len * sizeof ty))) w).

End Transactions.

(** A simulated device that acknowledges and serves whole registers of the
    engine's word type. *)
Definition serves (ty : DATATYPE) (s : Sim) : Prop :=
  supported ty = true /\ sim_status s = 0 /\ sim_bytes s = width ty
  /\ (width ty <= sim_supply s)%nat.

Definition sim_set_rx (rx : list Z) (s : Sim) : Sim :=
  mkSim (sim_regs s) (sim_bytes s) (sim_ptr s) (sim_tx s) rx (sim_clock s)
    (sim_tick s) (sim_status s) (sim_supply s).

(** The simulated device once it has been asked for register [p] and the
    clock has been read. *)
Definition sim_answered (p : Z) (rx : list Z) (s : Sim) : Sim :=
  mkSim (sim_regs s) (sim_bytes s) p [] rx (ulong (sim_clock s + sim_tick s))
    (sim_tick s) (sim_status s) (sim_supply s).

(** The value of a [bits]-bit two's-complement code. *)
Definition twos_complement (bits code : Z) : Z :=
  if code <? 2 ^ (bits - 1) then code else code - 2 ^ bits.

(** The documented full-scale voltage of each gain setting, in volts. *)
Definition full_scale_volts (g : ADS1x15_GAIN_t) : float :=
  match g with
  | GAIN_23 => float_lit 6144 3
  | GAIN_1 => float_lit 4096 3
  | GAIN_2 => float_lit 2048 3
  | GAIN_4 => float_lit 1024 3
  | GAIN_8 => float_lit 512 3
  | GAIN_16 => float_lit 256 3
  end.

(** The single-ended mux selection of a channel. *)
Definition single_ended (ch : Z) : ADS1x15_MUX_t :=
  if ch =? 0 then SE0 else if ch =? 1 then SE1 else if ch =? 2 then SE2 else SE3.

(** A [float] above zero: a positive finite number or plus infinity. *)
Definition strictly_positive (x : float) : bool :=
  match x with
  | S754_finite false _ _ | S754_infinity false => true
  | _ => false
  end.

(** *** Bench set-ups on the simulated transport *)

(** A 16-bit device that hands over one byte per request; its clock runs
    600 ms between two readings. *)
Definition one_byte_device : Sim := mkSim (fun _ => 0x1234) 2 0 [] [] 5 600 0 1.

(** A device that never answers a request. *)
Definition silent_device : Sim := mkSim (fun _ => 0x1234) 2 0 [] [] 5 600 0 0.

(** A device that refuses every write with status 2 (address NACK). *)
Definition nack_device : Sim := mkSim (fun _ => 0) 2 0 [] [] 5 1 2 32.

Definition notify : Sim -> Sim := fun s => s.
Definition report : Z -> Sim -> Sim := fun _ s => s.

Definition bench (s : Sim) : Machine (wireUtil Sim) Sim :=
  mkMachine (engine0 (Some notify) (Some report)) s [].

(** An ADC of either kind in front of a device whose conversion register
    holds [raw]. *)
Definition adc_bench (c : Chip) (raw : Z) : Machine (ADS1x15 Sim) Sim :=
  mkMachine
    (match c with
     | ADS1115 => ADS1115_new defaultAddress None None 0
     | ADS1015 => ADS1015_new defaultAddress None None 0
     end)
    (sim_device 2 0 (reg_code CONVERSION_REG) raw 5) [].

(** ** Further reference notions *)

(** The first [n] groups of [k] bytes of a byte string. *)
Fixpoint chunks (k n : nat) (bs : list Z) : list (list Z) :=
  match n with
  | O => []
  | S n' => take k bs :: chunks k n' (drop k bs)
  end.

(** The words [ws] stored in a buffer from index [i] on. *)
Fixpoint store_from (i : nat) (ws : list Z) (buffer : list Z) : list Z :=
  match ws with
  | [] => buffer
  | w :: ws' => store_from (S i) ws' (<[i:=w]> buffer)
  end.

(** The four bus calls that open a read of [n] bytes. *)
Definition read_request (a reg st n : Z) : list Event :=
  [beginTransmission a; write (u8 reg); endTransmission false st; requestFrom a n].

(** The configuration mirror is a [uint16_t] whose gain field is the code
    of [currentGain]. *)
Definition config_ok {W} (d : ADS1x15 W) : Prop :=
  0 <= configRegister d < 2 ^ 16
  /\ Z.land (configRegister d) ADS1x15_GAIN_MASK = gain_code (currentGain d).

(** The setters of the configuration fields, as one type of requests. *)
Inductive Setting : Type :=
| Gain (g : ADS1x15_GAIN_t)
| ComparatorMode (c : ADS1x15_COMP_MODE_t)
| ComparatorPolarity (c : ADS1x15_COMP_POL_t)
| ComparatorLatch (c : ADS1x15_COMP_LAT_t)
| DataRate1115 (r : ADS1115_DR_t)
| DataRate1015 (r : ADS1015_DR_t).

Definition apply_setting {W} (s : Setting) (d : ADS1x15 W) : ADS1x15 W :=
  match s with
  | Gain g => setGain g d
  | ComparatorMode c => setComparatorMode c d
  | ComparatorPolarity c => setComparatorPolarity c d
  | ComparatorLatch c => setComparatorLatch c d
  | DataRate1115 r => setDataRate1115 r d
  | DataRate1015 r => setDataRate1015 r d
  end.

(** The mask of the field a setter writes, and the code it writes there. *)
Definition setting_mask (s : Setting) : Z :=
  match s with
  | Gain _ => ADS1x15_GAIN_MASK
  | ComparatorMode _ => ADS1x15_COMP_MODE_MASK
  | ComparatorPolarity _ => ADS1x15_COMP_POL_MASK
  | ComparatorLatch _ => ADS1x15_COMP_LAT_MASK
  | DataRate1115 _ | DataRate1015 _ => ADS1x15_DR_MASK
  end.

Definition setting_code (s : Setting) : Z :=
  match s with
  | Gain g => gain_code g
  | ComparatorMode c => comp_mode_code c
  | ComparatorPolarity c => comp_pol_code c
  | ComparatorLatch c => comp_lat_code c
  | DataRate1115 r => dr1115_code r
  | DataRate1015 r => dr1015_code r
  end.

(** The sample rates the data-rate enumerators are named after, in samples
    per second. *)
Definition sps1115 (r : ADS1115_DR_t) : Z :=
  match r with
  | ADS1115_DR_8 => 8
  | ADS1115_DR_16 => 16
  | ADS1115_DR_32 => 32
  | ADS1115_DR_64 => 64
  | ADS1115_DR_128 => 128
  | ADS1115_DR_250 => 250
  | ADS1115_DR_475 => 475
  | ADS1115_DR_860 => 860
  end.

Definition sps1015 (r : ADS1015_DR_t) : Z :=
  match r with
  | ADS1015_DR_128 => 128
  | ADS1015_DR_250 => 250
  | ADS1015_DR_490 => 490
  | ADS1015_DR_920 => 920
  | ADS1015_DR_1600 => 1600
  | ADS1015_DR_2400 => 2400
  | ADS1015_DR_3300 => 3300
  end.

Section ConversionStart.
Context {W : Type} `{TW : TwoWire W}.

(** The configuration word [analogRead] sends for a mux selection. *)
Definition conversion_config (mux : ADS1x15_MUX_t) (cfg : Z) : Z :=
  u16 (Z.lor (set_field ADS1x15_MUX_MASK (mux_code mux) cfg) (u16 ADS1x15_OS)).

(** The engine and the platform at the moment [analogRead] turns to the
    conversion register: the configuration is written and the conversion
    delay has passed. *)
Definition conversion_started (mux : ADS1x15_MUX_t) (m : Machine (ADS1x15 W) W)
  : Machine (wireUtil W) W :=
  match writeRegister uint16_t (reg_code CONFIG_REG)
          (conversion_config mux (configRegister (self m)))
          (mkMachine (super (self m)) (wire m) (log m)) with
  | Some (_, m1) =>
      mkMachine (self m1) (delayMicroseconds (conversionDelay (self m)) (wire m1))
        (log m1)
  | None => mkMachine (super (self m)) (wire m) (log m)
  end.

End ConversionStart.

(** A device that never answers and whose clock stands shortly before the
    32-bit roll-over. *)
Definition late_device : Sim := mkSim (fun _ => 0x1234) 2 0 [] [] 4294967000 1 0 0.

(** A serving 16-bit device whose clock reads [2^32 - 1001]: the default
    budget of 1000 ms puts the deadline at [2^32 - 1]. *)
Definition edge_device : Sim := mkSim (fun _ => 0x1234) 2 0 [] [] 4294966295 1 0 32.

(** The register file after the words [ws] have been stored from [p] on. *)
Fixpoint store_words (n : nat) (p : Z) (ws : list Z) (regs : Z -> Z) : Z -> Z :=
  match ws with
  | [] => regs
  | w :: ws' => store_words n (p + 1) ws' (upd p (w mod 256 ^ Z.of_nat n) regs)
  end.

(** A [float] that is a number (not a NaN) with sign bit [s]. *)
Definition has_sign (s : bool) (x : float) : Prop :=
  match x with
  | S754_nan => False
  | S754_zero s' | S754_infinity s' | S754_finite s' _ _ => s' = s
  end.

(** A device that never answers and whose clock reads [2^32 - 1001]. *)
Definition mute_edge_device : Sim :=
  mkSim (fun _ => 0x1234) 2 0 [] [] 4294966295 1 0 0.

(** * Properties *)

(** Unfolds the monad and the primitive steps of a driver function. *)
Ltac run :=
  unfold mbind, mret, M_bind, M_ret, gets, modify, call, query;
  cbn [self wire log].

(** ** Fixed-width integers *)

(** A value in range is its own wrap-around. *)
Lemma wrap_small bits x : 0 <= x < 2 ^ bits -> wrap bits x = x.
Proof. intros Hx. unfold wrap. apply Z.mod_small. exact Hx. Qed.

Lemma land_255 x : Z.land x 0xFF = x mod 256.
Proof. change 0xFF with (Z.ones 8). rewrite Z.land_ones by lia. reflexivity. Qed.

Lemma shiftr_8 x : Z.shiftr x 8 = x / 256.
Proof. rewrite Z.shiftr_div_pow2 by lia. reflexivity. Qed.

(** Or-ing below a shifted value adds. *)
Lemma lor_shiftl_low a b k :
  0 <= k -> 0 <= b < 2 ^ k -> Z.lor (Z.shiftl a k) b = a * 2 ^ k + b.
Proof.
  intros Hk Hb.
  rewrite <- Z.shiftl_mul_pow2 by lia.
  rewrite <- Z.lxor_lor, <- Z.add_nocarry_lxor; try reflexivity.
  all: apply Z.bits_inj'; intros n Hn; rewrite Z.land_spec, Z.bits_0;
    destruct (Z.lt_ge_cases n k) as [Hlt | Hge];
    [ rewrite Z.shiftl_spec_low by lia; reflexivity
    | rewrite <- (Z.mod_small b (2 ^ k)) by lia;
      rewrite (Z.mod_pow2_bits_high b k n) by lia; apply andb_false_r ].
Qed.

Lemma lor_mul_low c b k :
  0 <= k -> 0 <= b < 2 ^ k -> Z.lor (c * 2 ^ k) b = c * 2 ^ k + b.
Proof.
  intros Hk Hb. rewrite <- (lor_shiftl_low c b k Hk Hb).
  rewrite Z.shiftl_mul_pow2 by lia. reflexivity.
Qed.

Lemma lor_sign_bit c : 0 <= c < 2 ^ 15 -> Z.lor c 0x8000 = c + 2 ^ 15.
Proof.
  intros Hc. rewrite Z.lor_comm. change 0x8000 with (1 * 2 ^ 15).
  rewrite lor_mul_low by lia. lia.
Qed.

Lemma lor_sign_bit_set c : 2 ^ 15 <= c < 2 ^ 16 -> Z.lor c 0x8000 = c.
Proof.
  intros Hc. change 0x8000 with (2 ^ 15).
  apply Z.bits_inj'. intros i Hi. rewrite Z.lor_spec, Z.pow2_bits_eqb by lia.
  destruct (Z.eqb_spec 15 i) as [<- | Hne]; [| apply orb_false_r].
  rewrite orb_true_r. symmetry. apply Z.testbit_true; [lia |].
  replace (c / 2 ^ 15) with 1; [reflexivity |].
  apply Z.div_unique_pos with (r := c - 2 ^ 15); lia.
Qed.

(** Setting and then clearing bit 3 of an [n]-bit word clears bit 3. *)
Lemma toggle_bits n v :
  3 < n ->
  let mask := wrap n (Z.shiftl 1 3) in
  wrap n (Z.land (wrap n (Z.lor (wrap n v) mask)) (Z.lnot mask))
  = Z.clearbit (wrap n v) 3.
Proof.
  intros Hn mask.
  assert (Hmask : mask = 2 ^ 3).
  { unfold mask. rewrite Z.shiftl_1_l. apply wrap_small.
    split; [lia |]. apply Z.pow_lt_mono_r; lia. }
  rewrite Hmask. unfold wrap.
  apply Z.bits_inj'. intros i Hi.
  rewrite Z.clearbit_eqb.
  rewrite !Z.testbit_mod_pow2, Z.land_spec, Z.testbit_mod_pow2, Z.lor_spec,
    Z.testbit_mod_pow2, Z.lnot_spec, Z.pow2_bits_eqb by lia.
  destruct (Z.ltb_spec i n), (Z.eqb_spec 3 i), (Z.testbit v i); reflexivity.
Qed.

Lemma clearbit_same v : 0 <= v -> (Z.clearbit v 3 = v <-> Z.testbit v 3 = false).
Proof.
  intros Hv. split.
  - intros H. rewrite <- H. apply Z.clearbit_eq.
  - intros H. apply Z.bits_inj'. intros i Hi. rewrite Z.clearbit_eqb.
    destruct (Z.eqb_spec 3 i) as [<- | Hne]; [rewrite H; reflexivity |].
    apply andb_true_r.
Qed.

Lemma cast_idem ty v : cast ty (cast ty v) = cast ty v.
Proof. unfold cast, wrap. apply Z.mod_mod. destruct ty; cbn; lia. Qed.

(** ** Big-endian strings *)

Lemma be_decode_from acc n v :
  fold_left (fun a b => a * 256 + b) (be_encode n v) acc
  = acc * 256 ^ Z.of_nat n + v mod 256 ^ Z.of_nat n.
Proof.
  revert acc. induction n as [| n IH]; intros acc.
  - simpl. rewrite Z.mod_1_r. lia.
  - cbn [be_encode fold_left]. rewrite IH.
    rewrite Nat2Z.inj_succ, Z.pow_succ_r by lia.
    rewrite (Z.mul_comm 256 (256 ^ Z.of_nat n)).
    rewrite (Z.rem_mul_r v (256 ^ Z.of_nat n) 256) by lia.
    lia.
Qed.

(** Decoding the [n] big-endian bytes of [v] gives [v] modulo [256^n]. *)
Lemma be_decode_encode n v : be_decode (be_encode n v) = v mod 256 ^ Z.of_nat n.
Proof. unfold be_decode. rewrite be_decode_from. lia. Qed.

Lemma be_encode_1 d : be_encode 1 d = [d mod 256].
Proof. cbn [be_encode]. change (256 ^ Z.of_nat 0) with 1. rewrite Z.div_1_r. reflexivity. Qed.

Lemma be_encode_2 d : be_encode 2 d = [(d / 256) mod 256; d mod 256].
Proof.
  cbn [be_encode]. change (256 ^ Z.of_nat 1) with 256.
  change (256 ^ Z.of_nat 0) with 1. rewrite Z.div_1_r. reflexivity.
Qed.

Lemma be_encode_4 d :
  be_encode 4 d
  = [(d / 256 / 256 / 256) mod 256; (d / 256 / 256) mod 256; (d / 256) mod 256;
     d mod 256].
Proof.
  cbn [be_encode]. change (256 ^ Z.of_nat 3) with (256 * 256 * 256).
  change (256 ^ Z.of_nat 2) with (256 * 256).
  change (256 ^ Z.of_nat 1) with 256. change (256 ^ Z.of_nat 0) with 1.
  rewrite !Z.div_div, Z.div_1_r by lia. reflexivity.
Qed.

Lemma length_be_encode n v : length (be_encode n v) = n.
Proof. induction n; cbn [be_encode length]; congruence. Qed.

Lemma be_encode_bytes n v : Forall is_byte (be_encode n v).
Proof.
  induction n as [| n IH]; cbn [be_encode]; constructor; auto.
  unfold is_byte. apply Z.mod_pos_bound. lia.
Qed.

Lemma width_pos ty : (0 < width ty)%nat.
Proof. destruct ty; unfold width; cbn [sizeof]; lia. Qed.

Lemma cast_mod ty v : cast ty v = v mod 256 ^ Z.of_nat (width ty).
Proof. destruct ty; reflexivity. Qed.

Lemma word_bytes_bytes ty d : Forall is_byte (word_bytes ty d).
Proof.
  assert (Henc : forall n v, Forall is_byte (be_encode n v)).
  { induction n as [| n IH]; intros v; cbn [be_encode]; constructor; auto.
    unfold is_byte. apply Z.mod_pos_bound. lia. }
  destruct ty; cbn; try apply Henc.
  repeat constructor; unfold is_byte; lia.
Qed.

(** ** binary32: multiplication by one, and products are well formed *)

Lemma bounded_spec m e :
  bounded 24 128 m e = true ->
  fexp 24 128 (Zpos (digits2_pos m) + e) = e /\ e <= 104.
Proof.
  unfold bounded, canonical_mantissa. intros H.
  apply andb_prop in H as [H1 H2].
  apply Z.eqb_eq in H1. apply Z.leb_le in H2. split; [exact H1 | lia].
Qed.

(** Multiplication by [1.0f] is exact. *)
Lemma fmul_one x : is_float x = true -> fmul x fone = x.
Proof.
  destruct x as [s | s | | s m e]; intros Hv.
  - destruct s; reflexivity.
  - destruct s; reflexivity.
  - reflexivity.
  - change fone with (S754_finite false 8388608 (-23)).
    unfold is_float, valid_binary in Hv. apply bounded_spec in Hv as [Hc Hb].
    unfold fmul, SFmul. rewrite xorb_false_r.
    rewrite (Pos.mul_comm m 8388608). cbv [Pos.mul].
    unfold binary_round_aux, shr_fexp. cbn [Zdigits2 digits2_pos shr_record_of_loc].
    rewrite !Pos2Z.inj_succ.
    replace (Z.succ (Z.succ (Z.succ (Z.succ (Z.succ (Z.succ (Z.succ (Z.succ (Z.succ
      (Z.succ (Z.succ (Z.succ (Z.succ (Z.succ (Z.succ (Z.succ (Z.succ (Z.succ (Z.succ
      (Z.succ (Z.succ (Z.succ (Z.succ (Z.pos (digits2_pos m)))))))))))))))))))))))) + (e + -23))
      with (Z.pos (digits2_pos m) + e) by lia.
    rewrite Hc. replace (e - (e + -23)) with 23 by lia.
    cbn [shr SpecFloat.iter_pos shr_1 orb shr_m loc_of_shr_record round_nearest_even Zdigits2].
    replace (e + -23 + 23) with e by lia.
    rewrite Hc, Z.sub_diag. cbn [shr shr_m].
    destruct (Z.leb_spec e (128 - 24)); [reflexivity | lia].
Qed.

Lemma digits2_size p : digits2_pos p = Pos.size p.
Proof. induction p as [p IH | p IH |]; cbn [digits2_pos Pos.size]; congruence. Qed.

Lemma Zdigits2_log2 m : 0 < m -> Zdigits2 m = Z.log2 m + 1.
Proof.
  destruct m as [| p | p]; try lia. intros _. cbn [Zdigits2].
  rewrite digits2_size. destruct p; cbn [Z.log2 Pos.size]; lia.
Qed.

Lemma shr_1_m mrs : 0 <= shr_m mrs -> shr_m (shr_1 mrs) = Z.shiftr (shr_m mrs) 1.
Proof.
  destruct mrs as [m r s]. cbn [shr_m]. intros Hm.
  rewrite <- Z.div2_spec.
  destruct m as [| [p | p |] | p]; try reflexivity. lia.
Qed.

(** [p] halvings of the mantissa are a right shift by [p]. *)
Lemma shr_iter_m p : forall mrs,
  0 <= shr_m mrs ->
  shr_m (SpecFloat.iter_pos shr_1 p mrs) = Z.shiftr (shr_m mrs) (Zpos p).
Proof.
  induction p as [p IH | p IH |]; intros mrs Hm; cbn [SpecFloat.iter_pos].
  - assert (H1 : 0 <= shr_m (shr_1 mrs)).
    { rewrite shr_1_m by exact Hm. apply Z.shiftr_nonneg. exact Hm. }
    assert (H2 : 0 <= shr_m (SpecFloat.iter_pos shr_1 p (shr_1 mrs))).
    { rewrite IH by exact H1. apply Z.shiftr_nonneg. exact H1. }
    rewrite IH by exact H2. rewrite IH by exact H1. rewrite shr_1_m by exact Hm.
    rewrite !Z.shiftr_shiftr by lia. f_equal. lia.
  - assert (H1 : 0 <= shr_m (SpecFloat.iter_pos shr_1 p mrs)).
    { rewrite IH by exact Hm. apply Z.shiftr_nonneg. exact Hm. }
    rewrite IH by exact H1. rewrite IH by exact Hm.
    rewrite !Z.shiftr_shiftr by lia. f_equal. lia.
  - apply shr_1_m. exact Hm.
Qed.

Lemma shr_fexp_spec m e l :
  0 <= m -> e <= fexp 24 128 (Zdigits2 m + e) ->
  snd (shr_fexp 24 128 m e l) = fexp 24 128 (Zdigits2 m + e)
  /\ shr_m (fst (shr_fexp 24 128 m e l))
     = Z.shiftr m (fexp 24 128 (Zdigits2 m + e) - e).
Proof.
  intros Hm He. unfold shr_fexp, shr.
  assert (Hrec : shr_m (shr_record_of_loc m l) = m) by (destruct l as [| []]; reflexivity).
  destruct (fexp 24 128 (Zdigits2 m + e) - e) as [| p | p] eqn:Hn; cbn [fst snd].
  - split; [lia |]. rewrite Hrec. symmetry. apply Z.shiftr_0_r.
  - split; [lia |]. rewrite shr_iter_m by (rewrite Hrec; exact Hm). rewrite Hrec. reflexivity.
  - lia.
Qed.

Lemma shifted_canonical m e e' m' :
  0 < m -> e <= fexp 24 128 (Zdigits2 m + e) ->
  e' = fexp 24 128 (Zdigits2 m + e) ->
  m' = Z.shiftr m (e' - e) ->
  0 <= m'
  /\ (0 < m' -> fexp 24 128 (Zdigits2 m' + e') = e')
  /\ (m' = 0 -> e' = -149).
Proof.
  intros Hm He He' Hm'.
  assert (Hm0 : 0 <= m') by (rewrite Hm'; apply Z.shiftr_nonneg; lia).
  split; [exact Hm0 |].
  pose proof (Zdigits2_log2 m Hm) as Hd.
  pose proof (Z.log2_nonneg m) as Hl.
  destruct (Z.lt_ge_cases (Z.log2 m) (e' - e)) as [Hlt | Hge].
  - assert (Hz : m' = 0) by (rewrite Hm'; apply Z.shiftr_eq_0; lia).
    split; [lia |]. intros _. rewrite He'. unfold fexp, emin in *. lia.
  - assert (Hlog : Z.log2 m' = Z.log2 m - (e' - e)).
    { rewrite Hm'. rewrite Z.log2_shiftr by exact Hm. lia. }
    assert (Hpos : 0 < m').
    { destruct (Z.eq_dec m' 0) as [Hz | Hz]; [| lia].
      rewrite Hm' in Hz. apply Z.shiftr_eq_0_iff in Hz. lia. }
    split; [| lia]. intros _.
    rewrite (Zdigits2_log2 m' Hpos), Hlog.
    replace (Z.log2 m - (e' - e) + 1 + e') with (Zdigits2 m + e) by lia.
    symmetry. exact He'.
Qed.

Lemma round_nearest_even_range m l :
  m <= round_nearest_even m l <= m + 1.
Proof.
  destruct l as [| []]; cbn [round_nearest_even]; try lia.
  destruct (Z.even m); lia.
Qed.

Lemma Zdigits2_mono a b : 0 <= a <= b -> Zdigits2 a <= Zdigits2 b.
Proof.
  intros [Ha Hab]. destruct (Z.eq_dec a 0) as [-> | Hne].
  - destruct b; cbn; lia.
  - rewrite !Zdigits2_log2 by lia. pose proof (Z.log2_le_mono a b Hab). lia.
Qed.

(** Rounding yields a well-formed binary32 value when the input exponent
    is not above the canonical one. *)
Lemma binary_round_aux_valid sx m e l :
  0 < m -> e <= fexp 24 128 (Zdigits2 m + e) ->
  valid_binary 24 128 (binary_round_aux 24 128 sx m e l) = true.
Proof.
  intros Hm He. unfold binary_round_aux.
  destruct (shr_fexp_spec m e l) as [He1 Hm1]; [lia | exact He |].
  destruct (shr_fexp 24 128 m e l) as [mrs' e']. cbn [fst snd] in He1, Hm1.
  rewrite <- He1 in Hm1.
  destruct (shifted_canonical m e e' (shr_m mrs') Hm He He1 Hm1) as (Hn1 & Hc1 & Hz1).
  set (m2 := round_nearest_even (shr_m mrs') (loc_of_shr_record mrs')).
  pose proof (round_nearest_even_range (shr_m mrs') (loc_of_shr_record mrs')) as Hr.
  fold m2 in Hr.
  assert (He2 : e' <= fexp 24 128 (Zdigits2 m2 + e')).
  { destruct (Z.eq_dec (shr_m mrs') 0) as [Hz | Hz].
    - rewrite (Hz1 Hz). unfold fexp, emin. lia.
    - pose proof (Zdigits2_mono (shr_m mrs') m2 ltac:(lia)) as Hd.
      rewrite <- (Hc1 ltac:(lia)) at 1. unfold fexp, emin. lia. }
  destruct (shr_fexp_spec m2 e' loc_Exact) as [He3 Hm3]; [lia | exact He2 |].
  destruct (shr_fexp 24 128 m2 e' loc_Exact) as [mrs'' e'']. cbn [fst snd] in He3, Hm3.
  destruct (shr_m mrs'') as [| p | p] eqn:Hp; [reflexivity | | reflexivity].
  destruct (Z.leb_spec e'' (128 - 24)) as [Hle | Hgt]; [| reflexivity].
  cbn [valid_binary]. unfold bounded, canonical_mantissa.
  apply andb_true_intro. split; [| apply Z.leb_le; exact Hle].
  apply Z.eqb_eq.
  assert (Hm2 : 0 < m2).
  { destruct (Z.eq_dec m2 0) as [Hz | Hz]; [| lia].
    rewrite Hz, Z.shiftr_0_l in Hm3. lia. }
  rewrite <- He3 in Hm3.
  destruct (shifted_canonical m2 e' e'' (shr_m mrs'') Hm2 He2 He3) as (_ & Hc3 & _).
  { rewrite Hp. exact Hm3. }
  rewrite Hp in Hc3. cbn [Zdigits2] in Hc3. apply Hc3. lia.
Qed.

(** A product of binary32 values is a binary32 value. *)
Lemma fmul_is_float x y :
  is_float x = true -> is_float y = true -> is_float (fmul x y) = true.
Proof.
  destruct x as [sx | sx | | sx mx ex], y as [sy | sy | | sy my ey];
    intros Hx Hy; try reflexivity.
  unfold is_float, valid_binary in Hx, Hy.
  apply bounded_spec in Hx as [Hx _]. apply bounded_spec in Hy as [Hy _].
  unfold is_float, fmul, SFmul. apply binary_round_aux_valid; [lia |].
  rewrite Zdigits2_log2 by lia.
  rewrite digits2_size in Hx, Hy.
  assert (Hsx : Zpos (Pos.size mx) = Z.log2 (Zpos mx) + 1).
  { rewrite <- digits2_size. apply (Zdigits2_log2 (Zpos mx)). lia. }
  assert (Hsy : Zpos (Pos.size my) = Z.log2 (Zpos my) + 1).
  { rewrite <- digits2_size. apply (Zdigits2_log2 (Zpos my)). lia. }
  rewrite Hsx in Hx. rewrite Hsy in Hy.
  pose proof (Z.log2_mul_below (Zpos mx) (Zpos my) ltac:(lia) ltac:(lia)) as Hmul.
  rewrite <- Pos2Z.inj_mul in Hmul.
  pose proof (Z.log2_nonneg (Zpos mx)). pose proof (Z.log2_nonneg (Zpos my)).
  unfold fexp, emin in *. lia.
Qed.

Lemma full_scale_ratio c :
  fdiv (float_of_Z (getFullScaleBits c)) (float_of_Z (getFullScaleBits c)) = fone.
Proof. destruct c; vm_compute; reflexivity. Qed.

(** ** The register access engine *)

Lemma filter_transaction (p : Event -> bool) a bs st :
  (forall b, p (write b) = false) ->
  p (beginTransmission a) = false ->
  p (endTransmission true st) = false ->
  List.filter p (beginTransmission a :: map write bs ++ [endTransmission true st]) = [].
Proof.
  intros Hw Hb He. cbn [List.filter]. rewrite Hb.
  induction bs as [| b bs IH]; cbn [map app List.filter].
  - rewrite He. reflexivity.
  - rewrite Hw. exact IH.
Qed.

Lemma emitted_writes bs tail :
  emitted tail = [] -> emitted (map write bs ++ tail) = bs.
Proof.
  intros Ht. induction bs as [| b bs IH]; [exact Ht |].
  cbn [map app emitted]. f_equal. exact IH.
Qed.

Lemma emitted_transaction {W} (o : wireUtil W) a bs stop st st' :
  emitted (beginTransmission a :: map write bs
             ++ endTransmission stop st :: error_calls o st') = bs.
Proof.
  change (emitted (map write bs ++ endTransmission stop st :: error_calls o st') = bs).
  apply emitted_writes. unfold error_calls.
  destruct (st' =? 0); [reflexivity |]. destruct (errorHandler o); reflexivity.
Qed.

Lemma zero_fill_whole (buffer : list Z) len :
  length buffer = len -> zero_fill buffer len = replicate len 0.
Proof.
  intros <-. unfold zero_fill. rewrite Nat.min_id, drop_all, app_nil_r. reflexivity.
Qed.

Section EngineProperties.
Context {W : Type} `{TW : TwoWire W}.

(** *** Write transactions *)

Lemma Wire_write_buf_run bs (m : Machine (wireUtil W) W) :
  Forall is_byte bs ->
  Wire_write_buf bs m
  = Some (tt, mkMachine (self m) (put_bytes bs (wire m)) (log m ++ map write bs)).
Proof.
  intros Hbs. revert m. induction Hbs as [| b bs Hb _ IH]; intros m.
  - cbn. rewrite app_nil_r. destruct m; reflexivity.
  - cbn [Wire_write_buf]. unfold Wire_write_byte. run.
    rewrite IH. cbn [self wire log].
    unfold u8. rewrite wrap_small by exact Hb.
    rewrite <- app_assoc. reflexivity.
Qed.

(** [writeAsBytes] puts the bytes of the word on the bus and nothing else. *)
Lemma writeAsBytes_run ty d (m : Machine (wireUtil W) W) :
  writeAsBytes ty d m
  = Some (tt, mkMachine (self m) (put_bytes (word_bytes ty d) (wire m))
                (log m ++ map write (word_bytes ty d))).
Proof.
  rewrite <- Wire_write_buf_run by apply word_bytes_bytes.
  destruct ty; unfold writeAsBytes; cbn [sizeof word_bytes];
    rewrite ?land_255, ?shiftr_8.
  - change (Z.to_nat 1) with 1%nat. rewrite be_encode_1.
    cbn [Wire_write_buf]. unfold Wire_write_byte, u8, wrap. run.
    change (2 ^ 8) with 256. rewrite Z.mod_mod by lia. reflexivity.
  - change (Z.to_nat 2) with 2%nat. rewrite be_encode_2. reflexivity.
  - change (Z.to_nat 4) with 4%nat. rewrite be_encode_4. reflexivity.
  - reflexivity.
Qed.

Lemma put_bytes_app bs1 bs2 (w : W) :
  put_bytes (bs1 ++ bs2) w = put_bytes bs2 (put_bytes bs1 w).
Proof. unfold put_bytes. apply fold_left_app. Qed.

Lemma write_words_run ty buffer n : forall i (m : Machine (wireUtil W) W),
  write_words ty buffer i n m
  = Some (tt, mkMachine (self m) (put_bytes (words_bytes ty buffer i n) (wire m))
                (log m ++ map write (words_bytes ty buffer i n))).
Proof.
  induction n as [| n IH]; intros i m.
  - cbn. rewrite app_nil_r. destruct m; reflexivity.
  - cbn [write_words words_bytes].
    assert (Hword :
      (if sizeof ty =? 1 then Wire_write_byte (cast ty (nth i buffer 0))
       else writeAsBytes ty (cast ty (nth i buffer 0))) m
      = writeAsBytes ty (cast ty (nth i buffer 0)) m).
    { destruct ty; reflexivity. }
    unfold mbind, M_bind. rewrite Hword, writeAsBytes_run, IH. cbn [self wire log].
    rewrite put_bytes_app, map_app, <- app_assoc. reflexivity.
Qed.

(** The run of [writeRegisters]: one transaction, then the error handler
    when the status is not zero. *)
Lemma writeRegisters_run ty reg buffer len (m : Machine (wireUtil W) W) :
  let a := address (self m) in
  let bs := u8 reg :: words_bytes ty buffer 0 len in
  let end_ := Wire_endTransmission true
                (put_bytes bs (Wire_beginTransmission a (wire m))) in
  let st := u8 (fst end_) in
  writeRegisters ty reg buffer len m
  = Some (st =? 0,
          mkMachine (self m) (after_error (self m) st (snd end_))
            (log m ++ beginTransmission a :: map write bs
               ++ endTransmission true st :: error_calls (self m) st)).
Proof.
  intros a bs end_ st. unfold writeRegisters, Wire_write_byte. run.
  rewrite write_words_run. cbn [self wire log]. unfold Wire_end. cbn [self wire log].
  fold a.
  change (put_bytes (words_bytes ty buffer 0 len)
            (Wire_write (u8 reg) (Wire_beginTransmission a (wire m))))
    with (put_bytes bs (Wire_beginTransmission a (wire m))).
  fold end_. destruct end_ as [r w2] eqn:Hend. cbn [fst snd] in *. fold st.
  unfold after_error, error_calls. subst bs. cbn [map self wire log].
  destruct (st =? 0) eqn:Hst.
  - rewrite <- !app_assoc. reflexivity.
  - destruct (errorHandler _) eqn:He; cbn [self] in He; rewrite ?He;
      cbn [self wire log]; rewrite <- !app_assoc; reflexivity.
Qed.

(** C5.  [writeRegister] returns true exactly when the status reported by
    the bus at the end of the transaction is zero.  On a non-zero status
    the error handler, when one is registered, is called once with that
    status, and no handler is called otherwise; the timeout handler is
    never called and the result does not depend on the presence of a
    handler. *)
Theorem writeRegister_status ty reg v (m : Machine (wireUtil W) W) :
  let a := address (self m) in
  let bs := u8 reg :: word_bytes ty (cast ty v) in
  let ended := Wire_endTransmission true
                 (put_bytes bs (Wire_beginTransmission a (wire m))) in
  let st := u8 (fst ended) in
  let transaction := beginTransmission a :: map write bs ++ [endTransmission true st] in
  let handlers :=
    if st =? 0 then []
    else match errorHandler (self m) with
         | Some _ => [errorHandlerCall st]
         | None => []
         end in
  exists m',
    writeRegister ty reg v m = Some (st =? 0, m')
    /\ log m' = log m ++ transaction ++ handlers
    /\ List.filter is_handler_call transaction = []
    /\ List.filter is_timeout_call (transaction ++ handlers) = []
    /\ self m' = self m.
Proof.
  intros a bs ended st transaction handlers.
  unfold writeRegister. rewrite writeRegisters_run.
  cbn [words_bytes nth]. rewrite app_nil_r. fold a bs ended st.
  eexists. split; [reflexivity |]. cbn [self wire log].
  assert (Hf : List.filter is_handler_call transaction = [])
    by (apply filter_transaction; reflexivity).
  repeat split.
  - unfold transaction, handlers, error_calls. cbn [app]. rewrite <- app_assoc.
    reflexivity.
  - exact Hf.
  - rewrite List.filter_app.
    assert (Ht : List.filter is_timeout_call transaction = [])
      by (apply filter_transaction; reflexivity).
    rewrite Ht. unfold handlers.
    destruct (st =? 0); [reflexivity |]. destruct (errorHandler (self m)); reflexivity.
Qed.

(** C7.  [writeRegister reg value] is [writeRegisters] on a buffer that
    holds that one value, with count 1: the two runs end in the same
    result and the same state, hence with the same bytes on the bus, the
    same return value and the same handler calls; words that follow the
    first in the buffer are not looked at. *)
Theorem writeRegister_one_element ty reg v (m : Machine (wireUtil W) W) :
  writeRegister ty reg v m = writeRegisters ty reg [v] 1 m
  /\ (forall rest, writeRegisters ty reg (v :: rest) 1 m = writeRegister ty reg v m)
  /\ (forall r m', writeRegister ty reg v m = Some (r, m') ->
        emitted (drop (length (log m)) (log m')) = u8 reg :: word_bytes ty (cast ty v)).
Proof.
  split; [reflexivity |]. split; [intros rest; reflexivity |].
  intros r m'. unfold writeRegister. rewrite writeRegisters_run.
  intros [= _ <-]. cbn [log words_bytes nth]. rewrite app_nil_r.
  rewrite drop_app_length.
  apply (emitted_transaction (self m) _ (u8 reg :: word_bytes ty (cast ty v))).
Qed.

(** *** Words read from the bus *)

(** [readAsBytes] returns the big-endian value of the bytes it reads. *)
Lemma readAsBytes_reads ty (m : Machine (wireUtil W) W) bs w' :
  supported ty = true ->
  Wire_reads (width ty) (wire m) = (bs, w') ->
  Forall is_byte bs ->
  readAsBytes ty m = Some (be_decode bs, mkMachine (self m) w' (log m)).
Proof.
  intros Hty Hr Hb. destruct ty; try discriminate; clear Hty;
    unfold width in Hr; cbn [sizeof] in Hr.
  - change (Z.to_nat 1) with 1%nat in Hr. cbn [Wire_reads] in Hr.
    destruct (Wire_read (wire m)) as [r0 w1] eqn:H0.
    injection Hr as <- <-. inversion_clear Hb as [| ? ? B0 _].
    unfold readAsBytes. cbn [sizeof]. run. rewrite H0.
    unfold be_decode. cbn [fold_left]. unfold u8. rewrite wrap_small by exact B0.
    reflexivity.
  - change (Z.to_nat 2) with 2%nat in Hr. cbn [Wire_reads] in Hr.
    destruct (Wire_read (wire m)) as [r0 w1] eqn:H0.
    destruct (Wire_read w1) as [r1 w2] eqn:H1.
    injection Hr as <- <-.
    inversion_clear Hb as [| ? ? B0 Hb']. inversion_clear Hb' as [| ? ? B1 _].
    unfold is_byte in *.
    unfold readAsBytes. cbn [sizeof]. run. rewrite H0. cbn [self wire log]. rewrite H1.
    unfold be_decode. cbn [fold_left]. unfold u16.
    rewrite (wrap_small 16 r0), (wrap_small 16 r1) by lia.
    rewrite Z.shiftl_mul_pow2 by lia.
    rewrite wrap_small by lia.
    rewrite lor_mul_low by lia. do 2 f_equal; lia.
  - change (Z.to_nat 4) with 4%nat in Hr. cbn [Wire_reads] in Hr.
    destruct (Wire_read (wire m)) as [r0 w1] eqn:H0.
    destruct (Wire_read w1) as [r1 w2] eqn:H1.
    destruct (Wire_read w2) as [r2 w3] eqn:H2.
    destruct (Wire_read w3) as [r3 w4] eqn:H3.
    injection Hr as <- <-.
    inversion_clear Hb as [| ? ? B0 Hb']. inversion_clear Hb' as [| ? ? B1 Hb].
    inversion_clear Hb as [| ? ? B2 Hb']. inversion_clear Hb' as [| ? ? B3 _].
    unfold is_byte in *.
    unfold readAsBytes. cbn [sizeof]. run. rewrite H0. cbn [self wire log]. rewrite H1.
    cbn [self wire log]. rewrite H2. cbn [self wire log]. rewrite H3.
    unfold be_decode. cbn [fold_left]. unfold u32.
    rewrite (wrap_small 32 r0), (wrap_small 32 r1), (wrap_small 32 r2),
      (wrap_small 32 r3) by lia.
    rewrite !Z.shiftl_mul_pow2 by lia.
    rewrite !wrap_small by lia.
    rewrite (lor_mul_low r0 (r1 * 2 ^ 16) 24) by lia.
    replace (r0 * 2 ^ 24 + r1 * 2 ^ 16) with ((r0 * 2 ^ 8 + r1) * 2 ^ 16) by lia.
    rewrite (lor_mul_low _ (r2 * 2 ^ 8) 16) by lia.
    replace ((r0 * 2 ^ 8 + r1) * 2 ^ 16 + r2 * 2 ^ 8)
      with (((r0 * 2 ^ 8 + r1) * 2 ^ 8 + r2) * 2 ^ 8) by lia.
    rewrite (lor_mul_low _ r3 8) by lia.
    do 2 f_equal; lia.
Qed.


(** *** Polling and timeouts *)

(** More fuel does not change the outcome of a poll that has ended. *)
Lemma poll_mono waiting d fuel : forall fuel' (w : W) r,
  poll fuel waiting d w = Some r -> (fuel <= fuel')%nat ->
  poll fuel' waiting d w = Some r.
Proof.
  induction fuel as [| fuel IH]; intros fuel' w r Hr Hle; [discriminate |].
  destruct fuel' as [| fuel']; [lia |].
  cbn [poll] in *.
  destruct (Wire_available w) as [a w1].
  destruct (waiting a); [| exact Hr].
  destruct (millis w1) as [t w2].
  destruct (d <? ulong t); [exact Hr |].
  apply IH; [exact Hr | lia].
Qed.

(** A starved poll ends, by expiry. *)
Lemma poll_starved waiting d (w w' : W) :
  Starved waiting d w w' ->
  exists n, forall fuel, (n <= fuel)%nat -> poll fuel waiting d w = Some (Expired, w').
Proof.
  induction 1 as [w a w1 t w2 Ha Hw Ht Hd | w a w1 t w2 w3 Ha Hw Ht Hd _ [n IH]].
  - exists 1%nat. intros fuel Hf. apply (poll_mono _ _ 1); [| exact Hf].
    cbn [poll]. rewrite Ha, Hw, Ht.
    destruct (Z.ltb_spec d (ulong t)); [reflexivity | lia].
  - exists (S n). intros fuel Hf. apply (poll_mono _ _ (S n)); [| exact Hf].
    cbn [poll]. rewrite Ha, Hw, Ht.
    destruct (Z.ltb_spec d (ulong t)); [lia |].
    apply IH. lia.
Qed.

(** A poll that ends by expiry was starved. *)
Lemma starved_poll waiting d fuel : forall (w w' : W),
  poll fuel waiting d w = Some (Expired, w') -> Starved waiting d w w'.
Proof.
  induction fuel as [| fuel IH]; intros w w' Hp; [discriminate |].
  cbn [poll] in Hp.
  destruct (Wire_available w) as [a w1] eqn:Ha.
  destruct (waiting a) eqn:Hw; [| discriminate].
  destruct (millis w1) as [t w2] eqn:Ht.
  destruct (Z.ltb_spec d (ulong t)).
  - injection Hp as <-. eapply starved_expired; eauto.
  - eapply starved_waiting; eauto.
Qed.

Lemma timed_out_run (m : Machine (wireUtil W) W) :
  timed_out m
  = Some (tt, mkMachine (set_timeoutFlag true (self m))
                (after_timeout (self m) (wire m))
                (log m ++ timeout_calls (self m))).
Proof.
  unfold timed_out, after_timeout, timeout_calls. run.
  destruct (timeOutHandler _) eqn:He; cbn [self set_timeoutFlag timeOutHandler] in He;
    rewrite ?He; cbn [self wire log]; rewrite ?app_nil_r; reflexivity.
Qed.

(** When no byte at all becomes available until the deadline has passed,
    [readRegister] sets the flag, calls the handler if there is one and
    returns 0. *)
Lemma readRegister_timeout ty reg (m : Machine (wireUtil W) W) w' :
  let a := address (self m) in
  let start := readRegister_start ty reg m in
  Starved (fun avail => avail =? 0) (fst start) (snd start) w' ->
  exists n, forall fuel, (n <= fuel)%nat ->
    readRegister fuel ty reg m
    = Some (0, mkMachine (set_timeoutFlag true (self m))
                 (after_timeout (self m) w')
                 (log m ++ [beginTransmission a; write (u8 reg);
                            endTransmission false (u8 (fst (addressed a reg (wire m))));
                            requestFrom a (u8 (sizeof ty))]
                    ++ timeout_calls (self m))).
Proof.
  intros a start Hs. destruct (poll_starved _ _ _ _ Hs) as [n Hn].
  exists n. intros fuel Hf. specialize (Hn fuel Hf).
  unfold readRegister, Wire_write_byte, Wire_end, polling. run.
  fold a. unfold start, readRegister_start, addressed in Hn. fold a in Hn.
  unfold addressed.
  destruct (Wire_endTransmission false _) as [r w3]. cbn [fst snd self wire log] in *.
  destruct (millis _) as [now w5].
  cbn [fst snd self wire log set_timeoutFlag timeoutTime] in *.
  rewrite Hn. rewrite timed_out_run. cbn [self wire log set_timeoutFlag timeoutTime].
  unfold after_timeout, timeout_calls. cbn [timeOutHandler].
  rewrite <- !app_assoc. reflexivity.
Qed.

(** When the first query of the poll finds data, [readRegister] returns
    the big-endian value of the bytes read. *)
Lemma readRegister_ready fuel ty reg (m : Machine (wireUtil W) W) avail w1 bs w2 :
  let a := address (self m) in
  let start := readRegister_start ty reg m in
  supported ty = true ->
  Wire_available (snd start) = (avail, w1) ->
  avail <> 0 ->
  Wire_reads (width ty) w1 = (bs, w2) ->
  Forall is_byte bs ->
  readRegister (S fuel) ty reg m
  = Some (be_decode bs,
          mkMachine (set_timeoutFlag false (self m)) w2
            (log m ++ [beginTransmission a; write (u8 reg);
                       endTransmission false (u8 (fst (addressed a reg (wire m))));
                       requestFrom a (u8 (sizeof ty))])).
Proof.
  intros a start Hty Ha Hne Hr Hb.
  assert (Hrw : (if sizeof ty =? 1 then r ← query Wire_read; mret (cast ty r)
                 else readAsBytes ty) = readAsBytes ty)
    by (destruct ty; reflexivity).
  unfold readRegister. rewrite Hrw. clear Hrw.
  unfold Wire_write_byte, Wire_end, polling. run. fold a.
  unfold start, readRegister_start, addressed in Ha. fold a in Ha. unfold addressed.
  destruct (Wire_endTransmission false _) as [r w3]. cbn [fst snd self wire log] in *.
  destruct (millis _) as [now w5].
  cbn [fst snd self wire log set_timeoutFlag timeoutTime poll] in *.
  rewrite Ha. apply Z.eqb_neq in Hne. rewrite Hne.
  erewrite (readAsBytes_reads ty _ bs w2 Hty); [| cbn [wire]; exact Hr | exact Hb].
  cbn [self wire log].
  rewrite <- !app_assoc. reflexivity.
Qed.

(** X26.  [readRegisters] fills the destination with zeros before it
    polls.  On a platform that keeps the requested byte count from being
    available until the deadline has passed, the call ends (with enough
    polling rounds), returns false, leaves the timeout flag true and the
    destination all zero, and calls the timeout handler once if one is
    registered and no handler at all otherwise. *)
Theorem readRegisters_starved ty reg buffer len (m : Machine (wireUtil W) W) w' :
  let a := address (self m) in
  let start := readRegisters_start ty reg len m in
  let need := size_t (Z.of_nat len * sizeof ty) in
  let handlers :=
    match timeOutHandler (self m) with
    | Some _ => [timeOutHandlerCall]
    | None => []
    end in
  length buffer = len ->
  Starved (fun avail => size_t avail <? need) (fst start) (snd start) w' ->
  exists n, forall fuel, (n <= fuel)%nat ->
    exists m' bus,
      readRegisters fuel ty reg buffer len m = Some ((false, replicate len 0), m')
      /\ timeoutFlag (self m') = true
      /\ log m' = log m ++ bus ++ handlers
      /\ List.filter is_handler_call bus = []
      /\ wire m' = after_timeout (self m) w'.
Proof.
  intros a start need handlers Hlen Hs.
  destruct (poll_starved _ _ _ _ Hs) as [n Hn].
  exists n. intros fuel Hf. specialize (Hn fuel Hf).
  unfold readRegisters, Wire_write_byte, Wire_end, polling. run. fold a.
  unfold start, readRegisters_start, addressed in Hn. fold a in Hn.
  destruct (Wire_endTransmission false _) as [r w3]. cbn [fst snd self wire log] in *.
  destruct (millis _) as [now w5].
  cbn [fst snd self wire log set_timeoutFlag timeoutTime] in *.
  unfold need in Hn. rewrite Hn. rewrite timed_out_run. fold need.
  cbn [self wire log set_timeoutFlag timeoutTime timeoutFlag].
  rewrite (zero_fill_whole buffer len Hlen).
  exists (mkMachine (set_timeoutFlag true (self m)) (after_timeout (self m) w')
            (log m ++ [beginTransmission a; write (u8 reg); endTransmission false (u8 r);
                       requestFrom a (u8 need)] ++ handlers)).
  exists [beginTransmission a; write (u8 reg); endTransmission false (u8 r);
          requestFrom a (u8 need)].
  repeat split.
  unfold after_timeout, timeout_calls, handlers. cbn [timeOutHandler set_timeoutFlag].
  rewrite <- !app_assoc. reflexivity.
Qed.

End EngineProperties.

(** ** The engine on the simulated transport *)

Lemma sim_put_bytes bs : forall s,
  put_bytes bs s
  = mkSim (sim_regs s) (sim_bytes s) (sim_ptr s) (sim_tx s ++ bs) (sim_rx s)
      (sim_clock s) (sim_tick s) (sim_status s) (sim_supply s).
Proof.
  induction bs as [| b bs IH]; intros s.
  - cbn. rewrite app_nil_r. destruct s; reflexivity.
  - change (put_bytes (b :: bs) s) with (put_bytes bs (sim_write b s)).
    rewrite IH. unfold sim_write. cbn. rewrite <- app_assoc. reflexivity.
Qed.

Lemma sim_store_word n p v regs :
  (0 < n)%nat ->
  sim_store n n p (be_encode n v) regs = upd p (v mod 256 ^ Z.of_nat n) regs.
Proof.
  intros Hn. destruct n as [| n']; [lia |].
  cbn [sim_store]. remember (S n') as n.
  destruct (be_encode n v) as [| b bs] eqn:He.
  - apply (f_equal length) in He. rewrite length_be_encode in He. cbn in He. lia.
  - rewrite <- He. rewrite drop_ge by (rewrite length_be_encode; lia).
    rewrite take_ge by (rewrite length_be_encode; lia).
    rewrite be_decode_encode.
    destruct n'; reflexivity.
Qed.

(** On a serving device [writeRegister] stores the word. *)
Lemma sim_writeRegister ty reg v o s l :
  serves ty s ->
  writeRegister ty reg v (mkMachine o s l)
  = Some (true,
          mkMachine o
            (mkSim (upd (u8 reg) (cast ty v) (sim_regs s)) (sim_bytes s) (u8 reg) []
               (sim_rx s) (sim_clock s) (sim_tick s) (sim_status s) (sim_supply s))
            (l ++ beginTransmission (address o)
               :: map write (u8 reg :: word_bytes ty (cast ty v))
               ++ [endTransmission true 0])).
Proof.
  intros (Hty & Hst & Hb & Hs). unfold writeRegister. rewrite writeRegisters_run.
  cbn [self wire log words_bytes nth]. rewrite app_nil_r.
  rewrite sim_put_bytes. cbn [Wire_endTransmission Wire_beginTransmission Sim_TwoWire].
  unfold sim_endTransmission, sim_beginTransmission.
  cbn [sim_status sim_tx sim_regs sim_bytes sim_ptr sim_rx sim_clock sim_tick sim_supply app].
  rewrite Hst. cbn [Z.eqb fst snd]. change (u8 0) with 0.
  cbn [Z.eqb]. unfold after_error, error_calls. cbn [Z.eqb].
  assert (Hwb : word_bytes ty (cast ty v) = be_encode (width ty) (cast ty v)).
  { destruct ty; try reflexivity. discriminate. }
  rewrite Hwb, length_be_encode, Hb, sim_store_word.
  2:{ destruct ty; unfold width; cbn [sizeof]; lia. }
  rewrite <- cast_mod, cast_idem. reflexivity.
Qed.

Lemma sim_reads bs : forall rest s,
  sim_rx s = bs ++ rest ->
  Wire_reads (length bs) s = (bs, sim_set_rx rest s).
Proof.
  induction bs as [| b bs IH]; intros rest s Hrx.
  - cbn in *. unfold sim_set_rx. rewrite <- Hrx. destruct s; reflexivity.
  - cbn [length Wire_reads]. cbn [Wire_read Sim_TwoWire]. unfold sim_read.
    rewrite Hrx. cbn [app].
    rewrite (IH rest) by reflexivity. reflexivity.
Qed.

Lemma sim_readRegister_start ty reg o s l :
  serves ty s ->
  readRegister_start ty reg (mkMachine o s l)
  = (ulong (ulong (sim_clock s) + timeoutTime o),
     sim_answered (u8 reg) (be_encode (width ty) (sim_regs s (u8 reg))) s)
  /\ fst (addressed (address o) reg s) = 0.
Proof.
  intros (Hty & Hst & Hb & Hs).
  unfold readRegister_start, addressed.
  cbn [self wire log Wire_beginTransmission Wire_write Wire_endTransmission
       Wire_requestFrom millis Sim_TwoWire].
  unfold sim_endTransmission.
  cbn [sim_beginTransmission sim_write sim_status sim_tx sim_regs sim_bytes sim_ptr
       sim_rx sim_clock sim_tick sim_supply app length sim_store].
  rewrite Hst. cbn [Z.eqb fst snd]. split; [| reflexivity].
  unfold sim_requestFrom, sim_millis, sim_answered.
  cbn [sim_status sim_tx sim_regs sim_bytes sim_ptr sim_rx sim_clock sim_tick sim_supply].
  assert (Hn : u8 (sizeof ty) = sizeof ty) by (destruct ty; reflexivity).
  rewrite Hn. fold (width ty).
  rewrite Nat.min_l by exact Hs. rewrite Hb.
  pose proof (width_pos ty) as Hw. destruct (width ty) as [| k] eqn:Hk; [lia |].
  cbn [sim_fetch].
  rewrite take_app_length' by (rewrite length_be_encode; lia).
  rewrite Hst. reflexivity.
Qed.

(** On a serving device [readRegister] returns the word of the register. *)
Lemma sim_readRegister fuel ty reg o s l :
  serves ty s ->
  readRegister (S fuel) ty reg (mkMachine o s l)
  = Some (cast ty (sim_regs s (u8 reg)),
          mkMachine (set_timeoutFlag false o) (sim_answered (u8 reg) [] s)
            (l ++ [beginTransmission (address o); write (u8 reg);
                   endTransmission false 0;
                   requestFrom (address o) (sizeof ty)])).
Proof.
  intros Hs. destruct (sim_readRegister_start ty reg o s l Hs) as [Hstart Hack].
  pose proof Hs as (Hty & _).
  rewrite (readRegister_ready fuel ty reg _ (Z.of_nat (width ty))
             (sim_answered (u8 reg) (be_encode (width ty) (sim_regs s (u8 reg))) s)
             (be_encode (width ty) (sim_regs s (u8 reg)))
             (sim_answered (u8 reg) [] s)).
  - cbn [self wire log]. rewrite Hack, be_decode_encode, <- cast_mod.
    assert (Hn : u8 (sizeof ty) = sizeof ty) by (destruct ty; reflexivity).
    rewrite Hn. reflexivity.
  - exact Hty.
  - rewrite Hstart. cbn [snd Wire_available Sim_TwoWire]. unfold sim_available.
    cbn [sim_answered sim_rx]. rewrite length_be_encode. reflexivity.
  - pose proof (width_pos ty). lia.
  - rewrite <- (length_be_encode (width ty) (sim_regs s (u8 reg))) at 1.
    rewrite (sim_reads _ []); [reflexivity |].
    cbn [sim_answered sim_rx]. rewrite app_nil_r. reflexivity.
  - apply be_encode_bytes.
Qed.

Lemma serves_answered ty p rx s : serves ty s -> serves ty (sim_answered p rx s).
Proof. intros H. exact H. Qed.

(** One [setRegisterBit] on a serving device. *)
Lemma sim_setRegisterBit fuel ty reg (state : bool) o s l :
  serves ty s ->
  let v := cast ty (sim_regs s (u8 reg)) in
  let mask := cast ty (Z.shiftl 1 3) in
  let v' := if state then cast ty (Z.lor v mask)
            else cast ty (Z.land v (Z.lnot mask)) in
  exists l',
    setRegisterBit (S fuel) ty reg 3 state (mkMachine o s l)
    = Some (true,
            mkMachine (set_timeoutFlag false o)
              (mkSim (upd (u8 reg) v' (sim_regs s)) (sim_bytes s) (u8 reg) [] []
                 (ulong (sim_clock s + sim_tick s)) (sim_tick s) (sim_status s)
                 (sim_supply s))
              l').
Proof.
  intros Hs v mask v'. unfold setRegisterBit.
  unfold mbind, M_bind. rewrite (sim_readRegister fuel ty reg o s l Hs).
  fold v mask. fold v'.
  rewrite sim_writeRegister by (apply serves_answered; exact Hs).
  assert (Hv' : cast ty v' = v').
  { unfold v'. destruct state; apply cast_idem. }
  rewrite Hv'. eexists. reflexivity.
Qed.


(** A run of C5: a device that answers every write with status 2. *)
Lemma writeRegister_status_witness :
  exists m',
    writeRegister uint16_t (reg_code CONFIG_REG) 0x8583 (bench nack_device)
    = Some (false, m')
    /\ log m' = [beginTransmission 0x48; write 0x01; write 0x85; write 0x83;
                 endTransmission true 2; errorHandlerCall 2].
Proof.
  destruct (writeRegister_status uint16_t (reg_code CONFIG_REG) 0x8583 (bench nack_device))
    as (m' & Hr & Hl & _).
  exists m'. split; [exact Hr | exact Hl].
Defined.

(** A run of C7. *)
Lemma writeRegister_one_element_witness :
  writeRegister uint16_t (reg_code CONFIG_REG) 0x8583 (bench (sim_device 2 0 0 0 5))
  = writeRegisters uint16_t (reg_code CONFIG_REG) [0x8583; 0x1234] 1
      (bench (sim_device 2 0 0 0 5)).
Proof.
  symmetry.
  exact (proj1 (proj2 (writeRegister_one_element uint16_t (reg_code CONFIG_REG) 0x8583
                         (bench (sim_device 2 0 0 0 5)))) [0x1234]).
Defined.

(** A run of X26: two words asked of a device that never answers. *)
Lemma readRegisters_starved_witness :
  length [7; 8] = 2%nat
  /\ exists n, forall fuel, (n <= fuel)%nat ->
       exists m' bus,
         readRegisters fuel uint16_t (reg_code CONVERSION_REG) [7; 8] 2
           (bench silent_device)
         = Some ((false, [0; 0]), m')
         /\ timeoutFlag (self m') = true
         /\ log m' = [] ++ bus ++ [timeOutHandlerCall]
         /\ List.filter is_handler_call bus = []
         /\ wire m'
            = notify (sim_answered 0 []
                        (sim_answered 0 [] (sim_answered 0 [] silent_device))).
Proof.
  assert (Hlen : length [7; 8] = 2%nat) by reflexivity.
  split; [exact Hlen |].
  refine (readRegisters_starved uint16_t (reg_code CONVERSION_REG) [7; 8] 2
            (bench silent_device)
            (sim_answered 0 [] (sim_answered 0 [] (sim_answered 0 [] silent_device)))
            Hlen _).
  eapply starved_waiting;
    [reflexivity | reflexivity | reflexivity | vm_compute; discriminate |].
  eapply starved_expired;
    [reflexivity | reflexivity | reflexivity | vm_compute; reflexivity].
Defined.

(** C6, as amended.  On a transport that stores and echoes written words,
    with no timeout, [setRegisterBit(reg, 3, true)] followed by
    [setRegisterBit(reg, 3, false)] leaves the register with bit 3 cleared
    and every other bit, and every other register, as it was: the original
    value is restored exactly when its bit 3 was clear. *)
Theorem setRegisterBit_toggle ty reg o s l f1 f2 :
  serves ty s ->
  0 <= sim_regs s (u8 reg) < 2 ^ (8 * sizeof ty) ->
  exists m1 m2,
    setRegisterBit (S f1) ty reg 3 true (mkMachine o s l) = Some (true, m1)
    /\ setRegisterBit (S f2) ty reg 3 false m1 = Some (true, m2)
    /\ timeoutFlag (self m1) = false
    /\ timeoutFlag (self m2) = false
    /\ sim_regs (wire m2) (u8 reg) = Z.clearbit (sim_regs s (u8 reg)) 3
    /\ (forall q, q <> u8 reg -> sim_regs (wire m2) q = sim_regs s q)
    /\ (sim_regs (wire m2) (u8 reg) = sim_regs s (u8 reg)
        <-> Z.testbit (sim_regs s (u8 reg)) 3 = false).
Proof.
  intros Hs Hv.
  destruct (sim_setRegisterBit f1 ty reg true o s l Hs) as [l1 H1].
  cbv zeta in H1.
  match type of H1 with _ = Some (_, ?m) => set (m1 := m) in * end.
  assert (Hs1 : serves ty (wire m1)) by exact Hs.
  destruct (sim_setRegisterBit f2 ty reg false (self m1) (wire m1) (log m1) Hs1)
    as [l2 H2].
  cbv zeta in H2.
  match type of H2 with _ = Some (_, ?m) => set (m2 := m) in * end.
  exists m1, m2.
  assert (Hfinal : sim_regs (wire m2) (u8 reg) = Z.clearbit (sim_regs s (u8 reg)) 3).
  { unfold m2, m1. cbn [wire sim_regs]. unfold upd. rewrite !Z.eqb_refl.
    rewrite cast_idem. unfold cast.
    pose proof (toggle_bits (8 * sizeof ty) (sim_regs s (u8 reg))
                  ltac:(destruct ty; cbn [sizeof]; lia)) as Ht.
    cbv zeta in Ht. rewrite Ht.
    rewrite wrap_small by exact Hv. reflexivity. }
  split; [exact H1 |]. split; [exact H2 |].
  split; [reflexivity |]. split; [reflexivity |].
  split; [exact Hfinal |]. split.
  - intros q Hq. unfold m2, m1. cbn [wire sim_regs]. unfold upd.
    destruct (Z.eqb_spec q (u8 reg)); [contradiction | reflexivity].
  - rewrite Hfinal. apply clearbit_same. lia.
Qed.

(** A run of C6: a 16-bit register that holds [0x1234]. *)
Lemma setRegisterBit_toggle_witness :
  serves uint16_t (sim_device 2 0 1 0x1234 5)
  /\ 0 <= sim_regs (sim_device 2 0 1 0x1234 5) (u8 1) < 2 ^ (8 * sizeof uint16_t)
  /\ exists m1 m2,
       setRegisterBit 1 uint16_t 1 3 true (bench (sim_device 2 0 1 0x1234 5))
       = Some (true, m1)
       /\ setRegisterBit 1 uint16_t 1 3 false m1 = Some (true, m2)
       /\ sim_regs (wire m2) (u8 1) = 0x1234.
Proof.
  assert (Hs : serves uint16_t (sim_device 2 0 1 0x1234 5)).
  { unfold serves. repeat split; try reflexivity. vm_compute. lia. }
  assert (Hv : 0 <= sim_regs (sim_device 2 0 1 0x1234 5) (u8 1) < 2 ^ (8 * sizeof uint16_t)).
  { vm_compute. split; [discriminate | reflexivity]. }
  split; [exact Hs |]. split; [exact Hv |].
  destruct (setRegisterBit_toggle uint16_t 1 (engine0 (Some notify) (Some report))
              (sim_device 2 0 1 0x1234 5) [] 0 0 Hs Hv)
    as (m1 & m2 & H1 & H2 & _ & _ & Hf & _).
  exists m1, m2. split; [exact H1 |]. split; [exact H2 |].
  rewrite Hf. reflexivity.
Defined.

(** C6 as stated fails: the high-threshold register of an ADS1115 holds
    [0x7FFF] after reset, and the toggle turns it into [0x7FF7], with both
    reads and both writes succeeding. *)
Lemma setRegisterBit_toggle_clears_set_bit :
  exists m1 m2,
    setRegisterBit 1 uint16_t (reg_code HI_THRESH_REG) 3 true
      (bench (sim_device 2 0 (reg_code HI_THRESH_REG) 0x7FFF 5)) = Some (true, m1)
    /\ setRegisterBit 1 uint16_t (reg_code HI_THRESH_REG) 3 false m1 = Some (true, m2)
    /\ timeoutFlag (self m1) = false
    /\ timeoutFlag (self m2) = false
    /\ sim_regs (wire (bench (sim_device 2 0 (reg_code HI_THRESH_REG) 0x7FFF 5)))
         (reg_code HI_THRESH_REG) = 0x7FFF
    /\ sim_regs (wire m2) (reg_code HI_THRESH_REG) = 0x7FF7
    /\ sim_regs (wire m2) (reg_code HI_THRESH_REG)
       <> sim_regs (wire (bench (sim_device 2 0 (reg_code HI_THRESH_REG) 0x7FFF 5)))
            (reg_code HI_THRESH_REG).
Proof.
  eexists. eexists.
  split; [vm_compute; reflexivity |].
  split; [vm_compute; reflexivity |].
  repeat split; try reflexivity.
  vm_compute. discriminate.
Qed.

(** C1.  The wait of [readRegister] ends as soon as one byte is
    available, whatever the width of the word.  A 16-bit device that
    hands over a single byte never has the two expected bytes available
    before the deadline passes, and still the read ends without a timeout:
    the flag stays false, the registered handler is not called and the
    word returned is [0xFFFF], assembled from the byte and a failed
    [Wire.read()]. *)
Theorem readRegister_partial_answer :
  (exists w',
     Starved (fun avail => avail <? sizeof uint16_t)
       (fst (readRegister_start uint16_t (reg_code CONVERSION_REG) (bench one_byte_device)))
       (snd (readRegister_start uint16_t (reg_code CONVERSION_REG) (bench one_byte_device)))
       w')
  /\ forall fuel, exists m',
       readRegister (S fuel) uint16_t (reg_code CONVERSION_REG) (bench one_byte_device)
       = Some (0xFFFF, m')
       /\ timeoutFlag (self m') = false
       /\ List.filter is_handler_call (log m') = [].
Proof.
  split.
  - eexists.
    eapply starved_waiting;
      [reflexivity | reflexivity | reflexivity | vm_compute; discriminate |].
    eapply starved_expired;
      [reflexivity | reflexivity | reflexivity | vm_compute; reflexivity].
  - intros fuel. eexists. split; [lazy; reflexivity |]. split; reflexivity.
Qed.

(** ** The device profile *)

(** C9.  After the two-argument [setCalibration] the calibration factor
    is [(r1 + r2) / r2] when [r2] is strictly positive and the factor it
    was when [r2] is zero, negative or not a number: the object is then
    returned as it was, no division being made.  No other member changes
    in either case, and strictly positive is the comparison [0 < r2] of
    the floating-point numbers.  Two equal resistors give the factor 2,
    and 30 kOhm over 10 kOhm the factor 4. *)
Theorem setCalibration_divider {W} (r1 r2 : float) (d : ADS1x15 W) :
  calibration (setCalibration2 r1 r2 d)
  = (if strictly_positive r2 then fdiv (fadd r1 r2) r2 else calibration d)
  /\ (strictly_positive r2 = false -> setCalibration2 r1 r2 d = d)
  /\ (super (setCalibration2 r1 r2 d) = super d
      /\ chip (setCalibration2 r1 r2 d) = chip d
      /\ configRegister (setCalibration2 r1 r2 d) = configRegister d
      /\ currentGain (setCalibration2 r1 r2 d) = currentGain d
      /\ conversionDelay (setCalibration2 r1 r2 d) = conversionDelay d)
  /\ strictly_positive r2 = fltb fzero r2
  /\ (forall s, strictly_positive (S754_zero s) = false)
  /\ (forall m e, strictly_positive (S754_finite true m e) = false)
  /\ strictly_positive (S754_infinity true) = false
  /\ strictly_positive S754_nan = false
  /\ (forall m e, strictly_positive (S754_finite false m e) = true)
  /\ calibration (setCalibration2 (float_of_Z 10000) (float_of_Z 10000) d) = float_of_Z 2
  /\ calibration (setCalibration2 (float_of_Z 30000) (float_of_Z 10000) d) = float_of_Z 4
  /\ calibration (setCalibration2 (float_of_Z 30000) (float_of_Z 0) d) = calibration d
  /\ calibration (setCalibration2 (float_of_Z 30000) (float_of_Z (-10000)) d)
     = calibration d.
Proof.
  assert (Hg : fltb fzero r2 = strictly_positive r2)
    by (destruct r2 as [[] | [] | | [] m e]; reflexivity).
  unfold setCalibration2. rewrite Hg.
  split; [destruct (strictly_positive r2); reflexivity |].
  split; [intros ->; reflexivity |].
  split; [destruct (strictly_positive r2); repeat split |].
  split; [reflexivity |].
  repeat split; reflexivity.
Qed.

Section DeviceProperties.
Context {W : Type} `{TW : TwoWire W}.

(** [analogRead] leaves the chip kind, the gain and the calibration as
    they are. *)
Lemma analogRead_frame fuel mux (m : Machine (ADS1x15 W) W) r m' :
  analogRead fuel mux m = Some (r, m') ->
  chip (self m') = chip (self m)
  /\ currentGain (self m') = currentGain (self m)
  /\ calibration (self m') = calibration (self m).
Proof.
  unfold analogRead, inherited, delay. run.
  destruct (writeRegister _ _ _ _) as [[b m1] |]; [| discriminate].
  cbn [self wire log].
  destruct (readRegister _ _ _ _) as [[raw m2] |]; [| discriminate].
  cbn [self wire log set_super chip].
  destruct (_ <? _); intros [= _ <-]; cbn; repeat split.
Qed.

Lemma analogRead_ch_frame fuel ch (m : Machine (ADS1x15 W) W) r m' :
  analogRead_ch fuel ch m = Some (r, m') ->
  chip (self m') = chip (self m)
  /\ currentGain (self m') = currentGain (self m)
  /\ calibration (self m') = calibration (self m).
Proof.
  unfold analogRead_ch.
  assert (Hvia : forall mux,
    (r0 ← analogRead fuel mux; mret (u16 r0)) m = Some (r, m') ->
    chip (self m') = chip (self m)
    /\ currentGain (self m') = currentGain (self m)
    /\ calibration (self m') = calibration (self m)).
  { intros mux. unfold mbind, M_bind, mret, M_ret.
    destruct (analogRead fuel mux m) as [[r0 m0] |] eqn:Hr; [| discriminate].
    intros [= _ <-]. exact (analogRead_frame fuel mux m r0 m0 Hr). }
  destruct (ch =? 0); [apply Hvia |].
  destruct (ch =? 1); [apply Hvia |].
  destruct (ch =? 2); [apply Hvia |].
  destruct (ch =? 3); [apply Hvia |].
  intros [= _ <-]. repeat split.
Qed.

Lemma getFullScaleV_table (d : ADS1x15 W) :
  getFullScaleV d = fmul (full_scale_volts (currentGain d)) (calibration d).
Proof. unfold getFullScaleV, full_scale_volts. destruct (currentGain d); reflexivity. Qed.

(** The voltage computed by [analogReadVoltage], in terms of the number
    that the channel overload of [analogRead] returns: the full-scale
    voltage of the current gain times the calibration factor, times the
    ratio of that number to the full-scale code.  With the gain of the
    2.048 V range and the number equal to the full-scale code it is 2.048
    times the calibration factor, which is 2.048 for the calibration factor
    1.0 that the constructor sets. *)
Lemma analogReadVoltage_scaling fuel ch (m : Machine (ADS1x15 W) W) r m' :
  analogRead_ch fuel ch m = Some (r, m') ->
  is_float (calibration (self m)) = true ->
  analogReadVoltage fuel ch m
  = Some (fmul (fmul (full_scale_volts (currentGain (self m))) (calibration (self m)))
               (fdiv (float_of_Z r) (float_of_Z (getFullScaleBits (chip (self m))))),
          m')
  /\ (currentGain (self m) = GAIN_2 ->
      r = getFullScaleBits (chip (self m)) ->
      analogReadVoltage fuel ch m
      = Some (fmul (float_lit 2048 3) (calibration (self m)), m'))
  /\ (forall g (d : ADS1x15 W),
        currentGain (setGain g d) = g /\ calibration (setGain g d) = calibration d)
  /\ (forall c a th eh dl,
        calibration (@ADS1x15_new W c a th eh dl) = fone
        /\ currentGain (@ADS1x15_new W c a th eh dl) = GAIN_2)
  /\ fmul (float_lit 2048 3) fone = float_lit 2048 3.
Proof.
  intros Hr Hcal.
  assert (Hv : analogReadVoltage fuel ch m
    = Some (fmul (fmul (full_scale_volts (currentGain (self m))) (calibration (self m)))
               (fdiv (float_of_Z r) (float_of_Z (getFullScaleBits (chip (self m))))),
          m')).
  { unfold analogReadVoltage. unfold mbind at 1, M_bind at 1. unfold gets at 1.
    unfold mbind at 1, M_bind at 1. rewrite Hr.
    destruct (analogRead_ch_frame fuel ch m r m' Hr) as (Hc & _ & _).
    run. rewrite Hc, getFullScaleV_table. reflexivity. }
  split; [exact Hv |]. split; [| split; [| split]].
  - intros Hg ->. rewrite Hv, Hg, full_scale_ratio. cbn [full_scale_volts].
    rewrite fmul_one; [reflexivity |].
    apply fmul_is_float; [vm_compute; reflexivity | exact Hcal].
  - intros g d. split; reflexivity.
  - intros c a th eh dl. split; reflexivity.
  - vm_compute. reflexivity.
Qed.

End DeviceProperties.

(** ** The device profile on the simulated transport *)

Lemma serves_adc_bench c raw : serves uint16_t (wire (adc_bench c raw)).
Proof. unfold serves. repeat split; try reflexivity. vm_compute. lia. Qed.

(** [analogRead] in front of a serving device: the result in terms of the
    conversion register. *)
Lemma sim_analogRead fuel mux (d : ADS1x15 Sim) s l :
  serves uint16_t s ->
  let raw := u16 (sim_regs s (reg_code CONVERSION_REG)) in
  let c := shiftConversion (chip d) raw in
  exists m',
    analogRead (S fuel) mux (mkMachine d s l)
    = Some (if getFullScaleBits (chip d) <? c then i16 (Z.lor c 0x8000) else i16 c, m').
Proof.
  intros Hs raw c. unfold analogRead, inherited, delay. run.
  rewrite sim_writeRegister by exact Hs. cbn [self wire log].
  cbn [delayMicroseconds Sim_TwoWire].
  rewrite sim_readRegister by exact Hs.
  cbn [self wire log set_super chip set_configRegister sim_regs].
  change (cast uint16_t
            (upd (u8 (reg_code CONFIG_REG)) (cast uint16_t _) (sim_regs s)
               (u8 (reg_code CONVERSION_REG))))
    with raw.
  fold c. destruct (getFullScaleBits (chip d) <? c); eexists; reflexivity.
Qed.

(** On the ADS1115 a conversion code above the full-scale code is returned
    as the 16-bit two's-complement value it stands for. *)
Lemma analogRead_ADS1115_negative fuel mux raw :
  0 <= raw < 2 ^ 16 ->
  getFullScaleBits ADS1115 < shiftConversion ADS1115 raw ->
  exists m',
    analogRead (S fuel) mux (adc_bench ADS1115 raw)
    = Some (twos_complement (getADCbits ADS1115) (shiftConversion ADS1115 raw), m').
Proof.
  intros Hraw Hneg. cbn [shiftConversion getFullScaleBits getADCbits] in *.
  destruct (sim_analogRead fuel mux (self (adc_bench ADS1115 raw))
              (wire (adc_bench ADS1115 raw)) [] (serves_adc_bench ADS1115 raw))
    as [m' Hm'].
  cbv zeta in Hm'. exists m'.
  change (mkMachine (self (adc_bench ADS1115 raw)) (wire (adc_bench ADS1115 raw)) [])
    with (adc_bench ADS1115 raw) in Hm'.
  rewrite Hm'. f_equal. f_equal.
  change (chip (self (adc_bench ADS1115 raw))) with ADS1115.
  change (sim_regs (wire (adc_bench ADS1115 raw)) (reg_code CONVERSION_REG)) with raw.
  cbn [shiftConversion getFullScaleBits].
  unfold u16. rewrite wrap_small by lia.
  destruct (Z.ltb_spec 0x7FFF raw); [| lia].
  rewrite lor_sign_bit_set by lia.
  unfold i16, u16, twos_complement. rewrite wrap_small by lia.
  change (2 ^ (16 - 1)) with (2 ^ 15).
  destruct (Z.ltb_spec raw (2 ^ 15)); [lia | reflexivity].
Qed.

(** C3.  On the ADS1015 [analogRead] sets bit 15 of a shifted code that
    exceeds the full-scale code [0x07FF]: the result is the code minus
    32768, a negative number, and not the value of the 12-bit
    two's-complement code, which is the code minus 4096. *)
Theorem analogRead_ADS1015_negative fuel mux raw :
  0 <= raw < 2 ^ 16 ->
  getFullScaleBits ADS1015 < shiftConversion ADS1015 raw ->
  exists m',
    analogRead (S fuel) mux (adc_bench ADS1015 raw)
    = Some (shiftConversion ADS1015 raw - 2 ^ 15, m')
    /\ twos_complement (getADCbits ADS1015) (shiftConversion ADS1015 raw)
       = shiftConversion ADS1015 raw - 2 ^ 12
    /\ shiftConversion ADS1015 raw - 2 ^ 15
       <> twos_complement (getADCbits ADS1015) (shiftConversion ADS1015 raw).
Proof.
  intros Hraw Hneg.
  assert (Hc : shiftConversion ADS1015 raw = raw / 16).
  { cbn [shiftConversion]. rewrite Z.shiftr_div_pow2 by lia. change (2 ^ 4) with 16.
    unfold u16. apply wrap_small. split.
    - apply Z.div_pos; lia.
    - apply Z.div_lt_upper_bound; lia. }
  assert (Hrange : 0x07FF < raw / 16 < 2 ^ 12).
  { rewrite Hc in Hneg. cbn [getFullScaleBits] in Hneg. split; [exact Hneg |].
    apply Z.div_lt_upper_bound; lia. }
  destruct (sim_analogRead fuel mux (self (adc_bench ADS1015 raw))
              (wire (adc_bench ADS1015 raw)) [] (serves_adc_bench ADS1015 raw))
    as [m' Hm'].
  cbv zeta in Hm'. exists m'.
  change (mkMachine (self (adc_bench ADS1015 raw)) (wire (adc_bench ADS1015 raw)) [])
    with (adc_bench ADS1015 raw) in Hm'.
  change (chip (self (adc_bench ADS1015 raw))) with ADS1015 in Hm'.
  change (sim_regs (wire (adc_bench ADS1015 raw)) (reg_code CONVERSION_REG)) with raw in Hm'.
  assert (Hraw' : u16 raw = raw) by (apply wrap_small; lia).
  rewrite Hraw', Hc in Hm'. rewrite Hc.
  assert (Htc : twos_complement (getADCbits ADS1015) (raw / 16) = raw / 16 - 2 ^ 12).
  { unfold twos_complement. cbn [getADCbits]. change (2 ^ (12 - 1)) with 2048.
    destruct (Z.ltb_spec (raw / 16) 2048); [lia | reflexivity]. }
  split; [| split; [exact Htc | rewrite Htc; lia]].
  rewrite Hm'. cbn [getFullScaleBits].
  destruct (Z.ltb_spec 0x07FF (raw / 16)); [| lia].
  rewrite lor_sign_bit by lia.
  unfold i16, u16. rewrite wrap_small by lia.
  destruct (Z.ltb_spec (raw / 16 + 2 ^ 15) (2 ^ 15)); [lia |].
  f_equal. f_equal. lia.
Qed.

(** The failing input of C3: the register reads [0xFFF0], the 12-bit code
    of -1, and [analogRead] returns -28673. *)
Lemma analogRead_ADS1015_negative_witness :
  0 <= 0xFFF0 < 2 ^ 16
  /\ getFullScaleBits ADS1015 < shiftConversion ADS1015 0xFFF0
  /\ exists m',
       analogRead 1 SE0 (adc_bench ADS1015 0xFFF0) = Some (-28673, m')
       /\ twos_complement (getADCbits ADS1015) (shiftConversion ADS1015 0xFFF0) = -1.
Proof.
  assert (H1 : 0 <= 0xFFF0 < 2 ^ 16) by (vm_compute; split; [discriminate | reflexivity]).
  assert (H2 : getFullScaleBits ADS1015 < shiftConversion ADS1015 0xFFF0)
    by (vm_compute; reflexivity).
  split; [exact H1 |]. split; [exact H2 |].
  destruct (analogRead_ADS1015_negative 0 SE0 0xFFF0 H1 H2) as (m' & Hr & Ht & _).
  exists m'. split; [exact Hr | exact Ht].
Defined.

(** The channel overload returns a [uint16_t]: the reading -1 of an ADS1115
    comes back as 65535, and that is the reading [analogReadVoltage]
    scales. *)
Lemma analogRead_ch_unsigned :
  exists m', analogRead_ch 1 0 (adc_bench ADS1115 0xFFFF) = Some (65535, m').
Proof. eexists. lazy. reflexivity. Qed.

(** An ADS1115 as constructed, reading its full-scale code. *)
Lemma analogReadVoltage_scaling_witness :
  exists m',
    analogRead_ch 1 0 (adc_bench ADS1115 0x7FFF) = Some (0x7FFF, m')
    /\ is_float (calibration (self (adc_bench ADS1115 0x7FFF))) = true
    /\ analogReadVoltage 1 0 (adc_bench ADS1115 0x7FFF)
       = Some (fmul (float_lit 2048 3) fone, m').
Proof.
  pose (m' := match analogRead_ch 1 0 (adc_bench ADS1115 0x7FFF) with
              | Some (_, m) => m
              | None => adc_bench ADS1115 0x7FFF
              end).
  exists m'.
  assert (Hr : analogRead_ch 1 0 (adc_bench ADS1115 0x7FFF) = Some (0x7FFF, m'))
    by (vm_compute; reflexivity).
  assert (Hf : is_float (calibration (self (adc_bench ADS1115 0x7FFF))) = true)
    by (vm_compute; reflexivity).
  split; [exact Hr |]. split; [exact Hf |].
  pose proof (analogReadVoltage_scaling 1 0 (adc_bench ADS1115 0x7FFF) 0x7FFF m' Hr Hf) as H.
  destruct H as (_ & H & _).
  apply H; reflexivity.
Defined.


(** * Further properties of the engine and of the device profile *)

(** ** Multi-word transactions *)

Lemma length_word_bytes ty d : length (word_bytes ty d) = width ty.
Proof. destruct ty; cbn [word_bytes]; try apply length_be_encode. reflexivity. Qed.

Lemma words_bytes_take ty buffer n : forall i,
  (i + n <= length buffer)%nat ->
  words_bytes ty buffer i n
  = flat_map (fun x => word_bytes ty (cast ty x)) (take n (drop i buffer)).
Proof.
  induction n as [| n IH]; intros i Hlen; [reflexivity |].
  cbn [words_bytes].
  destruct (lookup_lt_is_Some_2 buffer i ltac:(lia)) as [x Hx].
  rewrite (drop_S buffer x i Hx). cbn [take flat_map].
  rewrite (nth_lookup_Some buffer i 0 x Hx).
  rewrite IH by lia. reflexivity.
Qed.

Lemma length_words_bytes ty buffer n : forall i,
  length (words_bytes ty buffer i n) = (n * width ty)%nat.
Proof.
  induction n as [| n IH]; intros i; [reflexivity |].
  cbn [words_bytes]. rewrite length_app, length_word_bytes, IH. lia.
Qed.

Section MultiWord.
Context {W : Type} `{TW : TwoWire W}.

(** X1.  [writeRegisters] is one transaction: the register address, then the
    [len] words of the buffer in order, each most-significant byte first,
    [1 + len * sizeof(DATATYPE)] bytes in all; with [len = 0] the address
    byte alone is sent.  The result is true exactly when the status is
    zero. *)
Theorem writeRegisters_bytes ty reg buffer len (m : Machine (wireUtil W) W) :
  (len <= length buffer)%nat ->
  exists st m',
    writeRegisters ty reg buffer len m = Some (st =? 0, m')
    /\ log m' = log m
         ++ beginTransmission (address (self m))
            :: map write
                 (u8 reg
                  :: flat_map (fun x => word_bytes ty (cast ty x)) (take len buffer))
            ++ endTransmission true st :: error_calls (self m) st
    /\ emitted (drop (length (log m)) (log m'))
       = u8 reg :: flat_map (fun x => word_bytes ty (cast ty x)) (take len buffer)
    /\ length (emitted (drop (length (log m)) (log m'))) = S (len * width ty).
Proof.
  intros Hlen. rewrite writeRegisters_run. cbv zeta.
  eexists. eexists. split; [reflexivity |]. cbn [log].
  rewrite (words_bytes_take ty buffer len 0) by lia. rewrite drop_0.
  split; [reflexivity |].
  rewrite drop_app_length.
  rewrite (emitted_transaction (self m) _
             (u8 reg :: flat_map (fun x => word_bytes ty (cast ty x)) (take len buffer))).
  split; [reflexivity |].
  cbn [length]. f_equal.
  pose proof (length_words_bytes ty buffer len 0) as Hl.
  rewrite (words_bytes_take ty buffer len 0), drop_0 in Hl by lia. exact Hl.
Qed.

(** X2.  A word type of a size other than 1, 2 or 4 bytes takes the [default]
    branches: whatever the value, [writeRegister] sends the address and
    zero bytes, and [readAsBytes] returns 0 and reads nothing. *)
Theorem wide_word_is_lost reg v (m : Machine (wireUtil W) W) :
  (exists st m',
     writeRegister uint64_t reg v m = Some (st =? 0, m')
     /\ emitted (drop (length (log m)) (log m')) = u8 reg :: replicate 8 0)
  /\ readAsBytes uint64_t m = Some (0, m).
Proof.
  split.
  - unfold writeRegister. rewrite writeRegisters_run. cbv zeta.
    eexists. eexists. split; [reflexivity |]. cbn [log].
    rewrite drop_app_length.
    rewrite (emitted_transaction (self m) _ (u8 reg :: words_bytes uint64_t [v] 0 1)).
    reflexivity.
  - reflexivity.
Qed.

End MultiWord.

Lemma store_from_app ws : forall i (buffer : list Z),
  (i + length ws <= length buffer)%nat ->
  store_from i ws buffer = take i buffer ++ ws ++ drop (i + length ws) buffer.
Proof.
  induction ws as [| w ws IH]; intros i buffer Hlen.
  - cbn [store_from length app]. rewrite Nat.add_0_r, take_drop. reflexivity.
  - cbn [store_from]. change (length (w :: ws)) with (S (length ws)) in *.
    rewrite IH by (rewrite length_insert; lia).
    rewrite (take_S_r (<[i:=w]> buffer) i w)
      by (apply list_lookup_insert_eq; lia).
    rewrite take_insert_ge by lia.
    rewrite drop_insert_lt by lia.
    rewrite <- app_assoc. cbn [app].
    replace (S i + length ws)%nat with (i + S (length ws))%nat by lia.
    reflexivity.
Qed.

Section ReadProperties.
Context {W : Type} `{TW : TwoWire W}.

Lemma Wire_reads_app a : forall b (w : W),
  Wire_reads (a + b) w
  = let '(bs1, w1) := Wire_reads a w in
    let '(bs2, w2) := Wire_reads b w1 in
    (bs1 ++ bs2, w2).
Proof.
  induction a as [| a IH]; intros b w.
  - cbn [Nat.add Wire_reads]. destruct (Wire_reads b w). reflexivity.
  - cbn [Nat.add Wire_reads]. destruct (Wire_read w) as [r w1].
    rewrite IH. destruct (Wire_reads a w1) as [bs1 w2].
    destruct (Wire_reads b w2) as [bs2 w3]. reflexivity.
Qed.

Lemma Wire_reads_length n : forall (w : W) bs w',
  Wire_reads n w = (bs, w') -> length bs = n.
Proof.
  induction n as [| n IH]; intros w bs w' H; cbn [Wire_reads] in H.
  - injection H as <- _. reflexivity.
  - destruct (Wire_read w) as [r w1]. destruct (Wire_reads n w1) as [rs w2] eqn:Hr.
    injection H as <- _. cbn [length]. f_equal. exact (IH _ _ _ Hr).
Qed.

Lemma readAsBytes_frame ty (m : Machine (wireUtil W) W) v m' :
  readAsBytes ty m = Some (v, m') -> self m' = self m /\ log m' = log m.
Proof.
  destruct ty; unfold readAsBytes; cbn [sizeof]; run;
    repeat (destruct (Wire_read _) as [? ?]; cbn [self wire log]);
    intros [= _ <-]; split; reflexivity.
Qed.

(** The final loop of [readRegisters] stores the big-endian values of the
    successive groups of bytes. *)
Lemma read_words_run ty n : forall i buffer (m : Machine (wireUtil W) W) bs w',
  supported ty = true ->
  Wire_reads (n * width ty) (wire m) = (bs, w') ->
  Forall is_byte bs ->
  read_words ty buffer i n m
  = Some (store_from i (map be_decode (chunks (width ty) n bs)) buffer,
          mkMachine (self m) w' (log m)).
Proof.
  assert (Hrw : (if sizeof ty =? 1 then r ← query Wire_read; mret (cast ty r)
                 else readAsBytes ty) = readAsBytes ty)
    by (destruct ty; reflexivity).
  induction n as [| n IH]; intros i buffer m bs w' Hty Hr Hb.
  - cbn in Hr. injection Hr as <- <-. cbn. destruct m; reflexivity.
  - cbn [read_words]. rewrite Hrw.
    change (S n * width ty)%nat with (width ty + n * width ty)%nat in Hr.
    rewrite Wire_reads_app in Hr.
    destruct (Wire_reads (width ty) (wire m)) as [bs1 w1] eqn:H1.
    destruct (Wire_reads (n * width ty) w1) as [bs2 w2] eqn:H2.
    injection Hr as <- <-.
    pose proof (Wire_reads_length _ _ _ _ H1) as Hl1.
    apply Forall_app in Hb as [Hb1 Hb2].
    unfold mbind, M_bind.
    rewrite (readAsBytes_reads ty m bs1 w1 Hty H1 Hb1).
    rewrite (IH (S i) _ (mkMachine (self m) w1 (log m)) bs2 w2 Hty H2 Hb2).
    cbn [self wire log chunks map store_from].
    rewrite take_app_length' by (symmetry; exact Hl1).
    rewrite drop_app_length' by (symmetry; exact Hl1). reflexivity.
Qed.

Lemma length_chunks k n bs : length (chunks k n bs) = n.
Proof. revert bs. induction n as [| n IH]; intros bs; cbn; congruence. Qed.

(** The run of [readRegister] once its poll has ended by expiry, and once
    it has ended with data. *)
Lemma readRegister_expired fuel ty reg (m : Machine (wireUtil W) W) w' :
  let a := address (self m) in
  let start := readRegister_start ty reg m in
  poll fuel (fun avail => avail =? 0) (fst start) (snd start) = Some (Expired, w') ->
  readRegister fuel ty reg m
  = Some (0, mkMachine (set_timeoutFlag true (self m)) (after_timeout (self m) w')
               (log m ++ read_request a reg (u8 (fst (addressed a reg (wire m))))
                           (u8 (sizeof ty))
                  ++ timeout_calls (self m))).
Proof.
  intros a start Hn.
  unfold readRegister, Wire_write_byte, Wire_end, polling. run. fold a.
  unfold start, readRegister_start, addressed in Hn. fold a in Hn.
  unfold addressed, read_request.
  destruct (Wire_endTransmission false _) as [r w3]. cbn [fst snd self wire log] in *.
  destruct (millis _) as [now w5].
  cbn [fst snd self wire log set_timeoutFlag timeoutTime] in *.
  rewrite Hn. rewrite timed_out_run. cbn [self wire log set_timeoutFlag timeoutTime].
  unfold after_timeout, timeout_calls. cbn [timeOutHandler].
  rewrite <- !app_assoc. reflexivity.
Qed.

Lemma readRegister_cases fuel ty reg (m : Machine (wireUtil W) W) v m' :
  let a := address (self m) in
  let start := readRegister_start ty reg m in
  let request := read_request a reg (u8 (fst (addressed a reg (wire m))))
                   (u8 (sizeof ty)) in
  readRegister fuel ty reg m = Some (v, m') ->
  (exists w1,
     poll fuel (fun avail => avail =? 0) (fst start) (snd start) = Some (Expired, w1)
     /\ v = 0
     /\ m' = mkMachine (set_timeoutFlag true (self m)) (after_timeout (self m) w1)
               (log m ++ request ++ timeout_calls (self m)))
  \/ (exists w1,
        poll fuel (fun avail => avail =? 0) (fst start) (snd start) = Some (Ready, w1)
        /\ self m' = set_timeoutFlag false (self m)
        /\ log m' = log m ++ request).
Proof.
  intros a start request.
  destruct (poll fuel (fun avail => avail =? 0) (fst start) (snd start))
    as [[[] w1] |] eqn:Hp.
  - intros Hr. right. exists w1. split; [reflexivity |]. revert Hr.
    assert (Hrw : (if sizeof ty =? 1 then r ← query Wire_read; mret (cast ty r)
                   else readAsBytes ty) = readAsBytes ty)
      by (destruct ty; reflexivity).
    unfold readRegister. rewrite Hrw. clear Hrw.
    unfold Wire_write_byte, Wire_end, polling. run. fold a.
    unfold start, readRegister_start, addressed in Hp. fold a in Hp.
    unfold request, addressed, read_request.
    destruct (Wire_endTransmission false _) as [r w3]. cbn [fst snd self wire log] in *.
    destruct (millis _) as [now w5].
    cbn [fst snd self wire log set_timeoutFlag timeoutTime] in *.
    rewrite Hp. intros Hr. apply readAsBytes_frame in Hr as [Hs Hl].
    cbn [self wire log] in Hs, Hl. rewrite Hs, Hl, <- !app_assoc. split; reflexivity.
  - intros Hr. left. exists w1. split; [reflexivity |].
    rewrite (readRegister_expired fuel ty reg m w1 Hp) in Hr.
    injection Hr as <- <-. split; reflexivity.
  - intros Hr. exfalso. revert Hr.
    unfold readRegister, Wire_write_byte, Wire_end, polling. run. fold a.
    unfold start, readRegister_start, addressed in Hp. fold a in Hp.
    destruct (Wire_endTransmission false _) as [r w3]. cbn [fst snd self wire log] in *.
    destruct (millis _) as [now w5].
    cbn [fst snd self wire log set_timeoutFlag timeoutTime] in *.
    rewrite Hp. discriminate.
Qed.

End ReadProperties.

Lemma size_t_nonneg {W} `{TW : TwoWire W} x : 0 <= size_t_bits -> 0 <= size_t x.
Proof.
  intros Hb. unfold size_t, wrap.
  apply Z.mod_pos_bound. apply Z.pow_pos_nonneg; lia.
Qed.

Section ReadRegisters.
Context {W : Type} `{TW : TwoWire W}.

(** The run of [readRegisters] once its poll has ended with the requested
    count available. *)
Lemma readRegisters_ready_run fuel ty reg buffer len (m : Machine (wireUtil W) W)
    w1 bs w2 :
  let a := address (self m) in
  let start := readRegisters_start ty reg len m in
  let need := size_t (Z.of_nat len * sizeof ty) in
  supported ty = true ->
  (len <= length buffer)%nat ->
  poll fuel (fun avail => size_t avail <? need) (fst start) (snd start)
  = Some (Ready, w1) ->
  Wire_reads (len * width ty) w1 = (bs, w2) ->
  Forall is_byte bs ->
  readRegisters fuel ty reg buffer len m
  = Some ((true, map be_decode (chunks (width ty) len bs) ++ drop len buffer),
          mkMachine (set_timeoutFlag false (self m)) w2
            (log m ++ read_request a reg (u8 (fst (addressed a reg (wire m))))
                        (u8 need))).
Proof.
  intros a start need Hty Hlen Hp Hr Hb.
  unfold readRegisters, Wire_write_byte, Wire_end, polling. run. fold a.
  unfold start, readRegisters_start, addressed in Hp. fold a in Hp.
  unfold addressed, read_request.
  destruct (Wire_endTransmission false _) as [r w3]. cbn [fst snd self wire log] in *.
  destruct (millis _) as [now w5].
  cbn [fst snd self wire log set_timeoutFlag timeoutTime] in *.
  fold need. fold need in Hp. rewrite Hp.
  rewrite (read_words_run ty len 0 (zero_fill buffer len) _ bs w2 Hty)
    by (cbn [wire]; assumption).
  cbn [self wire log].
  rewrite store_from_app.
  2:{ rewrite length_map, length_chunks. unfold zero_fill.
      rewrite length_app, length_replicate, length_drop. lia. }
  rewrite length_map, length_chunks. cbn [take app Nat.add].
  unfold zero_fill. rewrite Nat.min_l by exact Hlen.
  rewrite drop_app_length' by (rewrite length_replicate; reflexivity).
  rewrite <- !app_assoc. reflexivity.
Qed.

(** X3.  When the poll ends with the requested count available, [readRegisters]
    returns true, stores the [len] words read, each the big-endian value of
    its group of bytes, in the first [len] slots and leaves the rest of
    the array alone; the flag is false and no handler is called. *)
Theorem readRegisters_ready fuel ty reg buffer len (m : Machine (wireUtil W) W)
    w1 bs w2 :
  let start := readRegisters_start ty reg len m in
  let need := size_t (Z.of_nat len * sizeof ty) in
  supported ty = true ->
  (len <= length buffer)%nat ->
  poll fuel (fun avail => size_t avail <? need) (fst start) (snd start)
  = Some (Ready, w1) ->
  Wire_reads (len * width ty) w1 = (bs, w2) ->
  Forall is_byte bs ->
  exists m',
    readRegisters fuel ty reg buffer len m
    = Some ((true, map be_decode (chunks (width ty) len bs) ++ drop len buffer), m')
    /\ timeoutFlag (self m') = false
    /\ wire m' = w2
    /\ List.filter is_handler_call (drop (length (log m)) (log m')) = [].
Proof.
  intros start need Hty Hlen Hp Hr Hb.
  rewrite (readRegisters_ready_run fuel ty reg buffer len m w1 bs w2
             Hty Hlen Hp Hr Hb).
  eexists. split; [reflexivity |]. cbn [self wire log timeoutFlag set_timeoutFlag].
  split; [reflexivity |]. split; [reflexivity |].
  rewrite drop_app_length. reflexivity.
Qed.

(** X4.  A read of zero registers asks the device for zero bytes and returns
    true at the first look at the bus, with the flag false and the array
    untouched: whether the device answers plays no part. *)
Theorem readRegisters_none fuel ty reg buffer (m : Machine (wireUtil W) W) :
  0 <= size_t_bits ->
  exists w',
    readRegisters (S fuel) ty reg buffer 0 m
    = Some ((true, buffer),
            mkMachine (set_timeoutFlag false (self m)) w'
              (log m ++ read_request (address (self m)) reg
                          (u8 (fst (addressed (address (self m)) reg (wire m)))) 0)).
Proof.
  intros Hbits.
  unfold readRegisters, Wire_write_byte, Wire_end, polling. run.
  unfold addressed, read_request.
  destruct (Wire_endTransmission false _) as [r w3]. cbn [fst snd self wire log] in *.
  destruct (millis _) as [now w5].
  cbn [fst snd self wire log set_timeoutFlag timeoutTime poll] in *.
  change (Z.of_nat 0 * sizeof ty) with 0.
  assert (H0 : size_t 0 = 0) by (unfold size_t, wrap; apply Z.mod_0_l;
                                  apply Z.pow_nonzero; lia).
  rewrite H0. change (u8 0) with 0.
  destruct (Wire_available _) as [avail w6].
  pose proof (size_t_nonneg avail Hbits) as Hav.
  destruct (Z.ltb_spec (size_t avail) 0) as [Hlt | _]; [lia |].
  cbn [read_words]. run. exists w6.
  unfold zero_fill. cbn [Nat.min replicate app]. rewrite drop_0.
  rewrite <- !app_assoc. reflexivity.
Qed.

End ReadRegisters.

(** *** Requests the [uint8_t] byte count cannot hold *)

Lemma sim_poll_short need d fuel : forall s r s',
  Z.of_nat (length (sim_rx s)) < need < 2 ^ 16 ->
  poll fuel (fun avail => size_t avail <? need) d s = Some (r, s') ->
  r = Expired.
Proof.
  induction fuel as [| fuel IH]; intros s r s' Hrx Hp; [discriminate |].
  cbn [poll Wire_available millis Sim_TwoWire] in Hp.
  unfold sim_available, sim_millis in Hp.
  assert (Hs : size_t (Z.of_nat (length (sim_rx s))) = Z.of_nat (length (sim_rx s))).
  { unfold size_t. cbn [size_t_bits Sim_TwoWire]. apply wrap_small. lia. }
  rewrite Hs in Hp.
  destruct (Z.ltb_spec (Z.of_nat (length (sim_rx s))) need) as [_ | Hge]; [| lia].
  destruct (d <? ulong (sim_clock s)).
  - injection Hp as <- _. reflexivity.
  - apply IH in Hp; [exact Hp |]. cbn [sim_rx]. exact Hrx.
Qed.

(** X5.  The byte count handed to [Wire.requestFrom] is cut to eight bits while
    the loop waits for the whole of [len * sizeof(DATATYPE)] bytes.  From
    256 bytes on the simulated device can never supply what the loop waits
    for: whenever such a call returns, it has timed out, with the result
    false, the flag true and the array zeroed. *)
Theorem readRegisters_oversize fuel ty reg buffer len o s l r m' :
  (len <= 255)%nat ->
  256 <= Z.of_nat len * sizeof ty ->
  readRegisters fuel ty reg buffer len (mkMachine o s l) = Some (r, m') ->
  r = (false, zero_fill buffer len)
  /\ timeoutFlag (self m') = true
  /\ List.filter is_timeout_call (log m') = List.filter is_timeout_call l ++ timeout_calls o.
Proof.
  intros Hlen Hbig.
  assert (Hneed : size_t (Z.of_nat len * sizeof ty) = Z.of_nat len * sizeof ty).
  { unfold size_t. cbn [size_t_bits Sim_TwoWire]. apply wrap_small.
    destruct ty; cbn [sizeof] in *; lia. }
  unfold readRegisters, Wire_write_byte, Wire_end, polling. run.
  destruct (Wire_endTransmission false _) as [st w3]. cbn [fst snd self wire log] in *.
  destruct (millis _) as [now w5] eqn:Hm.
  cbn [fst snd self wire log set_timeoutFlag timeoutTime] in *.
  rewrite Hneed.
  destruct (poll fuel _ _ _) as [[p w6] |] eqn:Hp; [| discriminate].
  apply sim_poll_short in Hp.
  2:{ cbn [Wire_requestFrom Sim_TwoWire]. unfold sim_requestFrom. cbn [sim_rx].
      rewrite length_take.
      assert (Hu : 0 <= u8 (Z.of_nat len * sizeof ty) < 256)
        by (unfold u8, wrap; apply Z.mod_pos_bound; lia).
      destruct ty; cbn [sizeof] in *; lia. }
  subst p. rewrite timed_out_run. cbn [self wire log set_timeoutFlag timeoutFlag].
  intros [= <- <-]. cbn [self log timeoutFlag set_timeoutFlag].
  split; [reflexivity |]. split; [reflexivity |].
  unfold timeout_calls. cbn [timeOutHandler set_timeoutFlag].
  rewrite !List.filter_app. cbn [List.filter is_timeout_call app].
  rewrite !app_nil_r.
  destruct (timeOutHandler o); cbn [List.filter is_timeout_call];
    rewrite ?app_nil_r; reflexivity.
Qed.

Lemma ulong_range x : 0 <= ulong x < 2 ^ 32.
Proof. unfold ulong, wrap. apply Z.mod_pos_bound. lia. Qed.

Section Deadlines.
Context {W : Type} `{TW : TwoWire W}.

(** No clock reading exceeds the largest [unsigned long]: a poll with that
    deadline cannot end by expiry. *)
Lemma poll_no_expiry waiting fuel : forall (w : W) r w',
  poll fuel waiting (2 ^ 32 - 1) w = Some (r, w') -> r = Ready.
Proof.
  induction fuel as [| fuel IH]; intros w r w' Hp; [discriminate |].
  cbn [poll] in Hp.
  destruct (Wire_available w) as [a w1].
  destruct (waiting a).
  - destruct (millis w1) as [t w2].
    pose proof (ulong_range t) as Ht.
    destruct (Z.ltb_spec (2 ^ 32 - 1) (ulong t)) as [Hlt | _]; [lia |].
    exact (IH _ _ _ Hp).
  - injection Hp as <- _. reflexivity.
Qed.

(** X6.  When no byte becomes available until a clock reading has passed the
    deadline, [readRegister] ends, given enough polling rounds: it returns
    0 with the flag true, and has called the timeout handler once if one is
    registered and no handler otherwise. *)
Theorem readRegister_starved_returns ty reg (m : Machine (wireUtil W) W) w' :
  let start := readRegister_start ty reg m in
  Starved (fun avail => avail =? 0) (fst start) (snd start) w' ->
  exists n, forall fuel, (n <= fuel)%nat ->
    exists m',
      readRegister fuel ty reg m = Some (0, m')
      /\ timeoutFlag (self m') = true
      /\ wire m' = after_timeout (self m) w'
      /\ List.filter is_handler_call (drop (length (log m)) (log m'))
         = timeout_calls (self m).
Proof.
  intros start Hs. destruct (poll_starved _ _ _ _ Hs) as [n Hn].
  exists n. intros fuel Hf.
  rewrite (readRegister_expired fuel ty reg m w' (Hn fuel Hf)).
  eexists. split; [reflexivity |]. cbn [self wire log timeoutFlag set_timeoutFlag].
  split; [reflexivity |]. split; [reflexivity |].
  rewrite drop_app_length, List.filter_app. unfold read_request, timeout_calls.
  cbn [List.filter is_handler_call app].
  destruct (timeOutHandler (self m)); reflexivity.
Qed.

(** X7.  The flag after a read tells the truth about the bus: when
    [readRegister] returns, [timeoutFlag] is true exactly when no byte
    became available until a clock reading passed the deadline; the value
    returned is then 0 and the timeout handler, if there is one, has been
    called once.  Otherwise no handler has been called. *)
Theorem readRegister_flag_iff_starved fuel ty reg (m : Machine (wireUtil W) W) v m' :
  let start := readRegister_start ty reg m in
  readRegister fuel ty reg m = Some (v, m') ->
  (timeoutFlag (self m') = true
   <-> exists w', Starved (fun avail => avail =? 0) (fst start) (snd start) w')
  /\ (timeoutFlag (self m') = true -> v = 0)
  /\ List.filter is_handler_call (drop (length (log m)) (log m'))
     = if timeoutFlag (self m') then timeout_calls (self m) else [].
Proof.
  intros start Hr.
  destruct (readRegister_cases fuel ty reg m v m' Hr)
    as [(w1 & Hp & -> & ->) | (w1 & Hp & Hs & Hl)]; fold start in Hp.
  - cbn [self log timeoutFlag set_timeoutFlag].
    split; [| split].
    + split; [| reflexivity]. intros _. exists (w1). exact (starved_poll _ _ _ _ _ Hp).
    + reflexivity.
    + rewrite drop_app_length, List.filter_app. unfold read_request, timeout_calls.
      cbn [List.filter is_handler_call app].
      destruct (timeOutHandler (self m)); reflexivity.
  - rewrite Hs, Hl. cbn [timeoutFlag set_timeoutFlag].
    split; [| split].
    + split; [discriminate |]. intros [w' Hst]. exfalso.
      destruct (poll_starved _ _ _ _ Hst) as [n Hn].
      pose proof (Hn (Nat.max fuel n) (Nat.le_max_r _ _)) as He.
      pose proof (poll_mono _ _ _ (Nat.max fuel n) _ _ Hp (Nat.le_max_l _ _)) as Hy.
      congruence.
    + discriminate.
    + rewrite drop_app_length. reflexivity.
Qed.

(** X8.  The deadline is [millis() + timeoutTime] in [unsigned long].  When that
    sum passes [2^32] it wraps to a deadline that lies before the present:
    a read that finds no byte at its first look times out at once, with
    less than the budget elapsed on the clock. *)
Theorem readRegister_early_expiry fuel ty reg (m : Machine (wireUtil W) W)
    now w0 t w1 w2 :
  let a := address (self m) in
  millis (Wire_requestFrom a (u8 (sizeof ty)) (snd (addressed a reg (wire m))))
  = (now, w0) ->
  Wire_available w0 = (0, w1) ->
  millis w1 = (t, w2) ->
  timeoutTime (self m) < 2 ^ 32 ->
  ulong now <= ulong t ->
  2 ^ 32 <= ulong now + timeoutTime (self m) ->
  readRegister (S fuel) ty reg m
  = Some (0, mkMachine (set_timeoutFlag true (self m)) (after_timeout (self m) w2)
               (log m ++ read_request a reg (u8 (fst (addressed a reg (wire m))))
                           (u8 (sizeof ty))
                  ++ timeout_calls (self m)))
  /\ ulong t - ulong now < timeoutTime (self m).
Proof.
  intros a Hnow Ha Ht Hbudget Hle Hsum.
  pose proof (ulong_range t) as Hrt. pose proof (ulong_range now) as Hrn.
  split; [| lia].
  apply readRegister_expired.
  unfold readRegister_start. fold a. rewrite Hnow. cbn [fst snd poll].
  rewrite Ha. cbn [Z.eqb]. rewrite Ht.
  assert (Hd : ulong (ulong now + timeoutTime (self m))
               = ulong now + timeoutTime (self m) - 2 ^ 32).
  { unfold ulong at 1. unfold wrap.
    symmetry. apply (Z.mod_unique_pos _ _ 1). lia. lia. }
  rewrite Hd.
  destruct (Z.ltb_spec (ulong now + timeoutTime (self m) - 2 ^ 32) (ulong t)); [reflexivity | lia].
Qed.

(** X9.  When the deadline is the largest [unsigned long], [readRegister] never
    takes its timeout branch, whatever the platform does: a call that
    returns has the flag false and has called no handler. *)
Theorem readRegister_unbounded_wait fuel ty reg (m : Machine (wireUtil W) W) v m' :
  fst (readRegister_start ty reg m) = 2 ^ 32 - 1 ->
  readRegister fuel ty reg m = Some (v, m') ->
  timeoutFlag (self m') = false
  /\ List.filter is_handler_call (drop (length (log m)) (log m')) = [].
Proof.
  intros Hd Hr.
  destruct (readRegister_cases fuel ty reg m v m' Hr)
    as [(w1 & Hp & _) | (w1 & Hp & Hs & Hl)].
  - rewrite Hd in Hp. apply poll_no_expiry in Hp. discriminate.
  - rewrite Hs, Hl, drop_app_length. split; reflexivity.
Qed.

End Deadlines.

(** A device with nothing to hand over keeps the poll waiting, and no
    clock reading exceeds the largest [unsigned long]. *)
Lemma sim_poll_forever need fuel : forall s,
  sim_rx s = [] -> 0 < need ->
  poll fuel (fun avail => size_t avail <? need) (2 ^ 32 - 1) s = None.
Proof.
  induction fuel as [| fuel IH]; intros s Hrx Hneed; [reflexivity |].
  cbn [poll Wire_available millis Sim_TwoWire].
  unfold sim_available, sim_millis. rewrite Hrx. cbn [length Z.of_nat].
  change (size_t (Z.of_nat 0)) with 0.
  destruct (Z.ltb_spec 0 need) as [_ | Hge]; [| lia].
  pose proof (ulong_range (sim_clock s)) as Ht.
  destruct (Z.ltb_spec (2 ^ 32 - 1) (ulong (sim_clock s))) as [Hlt | _]; [lia |].
  apply IH; [reflexivity | exact Hneed].
Qed.

(** C4.  The timeout of [readRegisters] is the test [abortTime <
    millis()] on [unsigned long] values.  When [millis() + timeoutTime] is
    [2^32 - 1] no clock reading passes the test: in front of a device that
    never makes a byte available the loop does not end, whatever the
    number of rounds, so the call never returns false, never sets the
    flag and never calls the handler. *)
Theorem readRegisters_never_expires ty reg buffer len o s l :
  sim_supply s = 0%nat ->
  0 < Z.of_nat len * sizeof ty < 2 ^ 16 ->
  ulong (ulong (sim_clock s) + timeoutTime o) = 2 ^ 32 - 1 ->
  fst (readRegisters_start ty reg len (mkMachine o s l)) = 2 ^ 32 - 1
  /\ sim_rx (snd (readRegisters_start ty reg len (mkMachine o s l))) = []
  /\ forall fuel, readRegisters fuel ty reg buffer len (mkMachine o s l) = None.
Proof.
  intros Hsup Hlen Hd.
  assert (Hneed : size_t (Z.of_nat len * sizeof ty) = Z.of_nat len * sizeof ty).
  { unfold size_t. cbn [size_t_bits Sim_TwoWire]. apply wrap_small. lia. }
  assert (Hclock : forall st,
    sim_clock (snd (sim_endTransmission st (sim_write (u8 reg)
                      (sim_beginTransmission (address o) s)))) = sim_clock s).
  { intros st. unfold sim_endTransmission, sim_write, sim_beginTransmission.
    cbn [sim_status sim_tx app]. destruct (sim_status s =? 0); reflexivity. }
  assert (Hsupply : forall st,
    sim_supply (snd (sim_endTransmission st (sim_write (u8 reg)
                       (sim_beginTransmission (address o) s)))) = 0%nat).
  { intros st. unfold sim_endTransmission, sim_write, sim_beginTransmission.
    cbn [sim_status sim_tx app]. destruct (sim_status s =? 0); exact Hsup. }
  assert (Hstart : fst (readRegisters_start ty reg len (mkMachine o s l)) = 2 ^ 32 - 1
                   /\ sim_rx (snd (readRegisters_start ty reg len (mkMachine o s l))) = []).
  { unfold readRegisters_start, addressed.
    cbn [self wire Wire_beginTransmission Wire_write Wire_endTransmission
         Wire_requestFrom millis Sim_TwoWire].
    unfold sim_millis at 1. cbn [fst snd]. rewrite (Hclock false). split; [exact Hd |].
    unfold sim_requestFrom, sim_millis. cbn [sim_rx sim_supply].
    rewrite (Hsupply false), Nat.min_0_r. reflexivity. }
  split; [exact (proj1 Hstart) |]. split; [exact (proj2 Hstart) |].
  intros fuel.
  pose proof (sim_poll_forever (Z.of_nat len * sizeof ty) fuel
                (snd (readRegisters_start ty reg len (mkMachine o s l)))
                (proj2 Hstart) (proj1 Hlen)) as Hp.
  unfold readRegisters, Wire_write_byte, Wire_end, polling. run.
  unfold readRegisters_start, addressed in Hp, Hstart.
  cbn [self wire log] in Hp, Hstart.
  destruct (Wire_endTransmission false _) as [r w3]. cbn [fst snd self wire log] in *.
  destruct (millis _) as [now w5].
  cbn [fst snd self wire log set_timeoutFlag timeoutTime] in *.
  rewrite Hneed. rewrite (proj1 Hstart). rewrite Hneed in Hp. rewrite Hp. reflexivity.
Qed.

(** The failing input of C4: two words asked of a device that never
    answers, with the clock at [2^32 - 1001] and the budget of 1000 ms. *)
Lemma readRegisters_never_expires_witness :
  ulong (ulong (sim_clock mute_edge_device) + timeoutTime (self (bench mute_edge_device)))
  = 2 ^ 32 - 1
  /\ forall fuel,
       readRegisters fuel uint16_t (reg_code CONVERSION_REG) [7; 8] 2
         (bench mute_edge_device) = None.
Proof.
  assert (H1 : sim_supply mute_edge_device = 0%nat) by reflexivity.
  assert (H2 : 0 < Z.of_nat 2 * sizeof uint16_t < 2 ^ 16)
    by (vm_compute; split; reflexivity).
  assert (H3 : ulong (ulong (sim_clock mute_edge_device)
                      + timeoutTime (engine0 (Some notify) (Some report)))
               = 2 ^ 32 - 1) by (vm_compute; reflexivity).
  split; [exact H3 |].
  exact (proj2 (proj2 (readRegisters_never_expires uint16_t (reg_code CONVERSION_REG)
                         [7; 8] 2 (engine0 (Some notify) (Some report))
                         mute_edge_device [] H1 H2 H3))).
Defined.


(** X10.  A word written to a serving device is the word read back, cut to the
    width of the word type; the other registers keep their contents. *)
Theorem write_then_read fuel ty reg v o s l :
  serves ty s ->
  exists m1 m2,
    writeRegister ty reg v (mkMachine o s l) = Some (true, m1)
    /\ readRegister (S fuel) ty reg m1 = Some (cast ty v, m2)
    /\ timeoutFlag (self m2) = false
    /\ (forall q, q <> u8 reg -> sim_regs (wire m2) q = sim_regs s q).
Proof.
  intros Hs.
  rewrite (sim_writeRegister ty reg v o s l Hs).
  eexists. eexists. split; [reflexivity |].
  rewrite sim_readRegister by exact Hs.
  cbn [sim_regs]. unfold upd at 1. rewrite Z.eqb_refl, cast_idem.
  split; [reflexivity |]. split; [reflexivity |].
  intros q Hq. cbn [wire sim_answered sim_regs]. unfold upd.
  destruct (Z.eqb_spec q (u8 reg)); [contradiction | reflexivity].
Qed.

(** ** Blocks of registers on the simulated transport *)

Lemma store_words_below n ws : forall p regs q,
  q < p -> store_words n p ws regs q = regs q.
Proof.
  induction ws as [| w ws IH]; intros p regs q Hq; [reflexivity |].
  cbn [store_words]. rewrite IH by lia. unfold upd.
  destruct (Z.eqb_spec q p); [lia | reflexivity].
Qed.

Lemma sim_store_words n ws : forall fuel p regs,
  (0 < n)%nat -> (length ws <= fuel)%nat ->
  sim_store n fuel p (flat_map (be_encode n) ws) regs = store_words n p ws regs.
Proof.
  induction ws as [| w ws IH]; intros fuel p regs Hn Hf.
  - destruct fuel; reflexivity.
  - destruct fuel as [| fuel]; [cbn in Hf; lia |].
    cbn [flat_map sim_store store_words].
    destruct (be_encode n w ++ flat_map (be_encode n) ws) as [| b bs] eqn:He.
    + apply (f_equal length) in He. rewrite length_app, length_be_encode in He.
      cbn in He. lia.
    + rewrite <- He.
      rewrite take_app_length' by (rewrite length_be_encode; reflexivity).
      rewrite drop_app_length' by (rewrite length_be_encode; reflexivity).
      rewrite be_decode_encode. apply IH; [exact Hn | cbn in Hf; lia].
Qed.

Lemma sim_fetch_stored n ws : forall k p regs,
  sim_fetch n (length ws + k) p (store_words n p ws regs)
  = flat_map (be_encode n) (map (fun w => w mod 256 ^ Z.of_nat n) ws)
    ++ sim_fetch n k (p + Z.of_nat (length ws)) (store_words n p ws regs).
Proof.
  induction ws as [| w ws IH]; intros k p regs.
  - cbn [length Nat.add map flat_map app Z.of_nat]. rewrite Z.add_0_r. reflexivity.
  - cbn [length Nat.add sim_fetch map flat_map store_words].
    rewrite store_words_below by lia. unfold upd at 1. rewrite Z.eqb_refl.
    rewrite <- app_assoc. f_equal.
    rewrite IH. f_equal. f_equal. lia.
Qed.

Lemma chunks_encoded n ws : forall rest,
  map be_decode (chunks n (length ws) (flat_map (be_encode n) ws ++ rest))
  = map (fun w => w mod 256 ^ Z.of_nat n) ws.
Proof.
  induction ws as [| w ws IH]; intros rest; [reflexivity |].
  cbn [length chunks flat_map map]. rewrite <- app_assoc.
  rewrite take_app_length' by (rewrite length_be_encode; reflexivity).
  rewrite drop_app_length' by (rewrite length_be_encode; reflexivity).
  rewrite be_decode_encode, IH. reflexivity.
Qed.

Lemma length_flat_encode n ws : length (flat_map (be_encode n) ws) = (length ws * n)%nat.
Proof.
  induction ws as [| w ws IH]; [reflexivity |].
  cbn [flat_map length]. rewrite length_app, length_be_encode, IH. lia.
Qed.

Lemma word_bytes_encode ty ws :
  supported ty = true ->
  flat_map (fun x => word_bytes ty (cast ty x)) ws
  = flat_map (be_encode (width ty)) (map (cast ty) ws).
Proof.
  intros Hty. induction ws as [| w ws IH]; [reflexivity |].
  cbn [flat_map map]. rewrite IH. f_equal.
  destruct ty; try discriminate; reflexivity.
Qed.

Lemma mod_cast ty ws :
  map (fun w => w mod 256 ^ Z.of_nat (width ty)) (map (cast ty) ws) = map (cast ty) ws.
Proof.
  rewrite map_map. apply map_ext. intros w. rewrite <- cast_mod. apply cast_idem.
Qed.

Lemma flat_encode_bytes n ws : Forall is_byte (flat_map (be_encode n) ws).
Proof.
  induction ws as [| w ws IH]; [constructor |].
  cbn [flat_map]. apply Forall_app. split; [apply be_encode_bytes | exact IH].
Qed.

(** On a serving device [writeRegisters] stores the block of words. *)
Lemma sim_writeRegisters ty reg buffer len o s l :
  serves ty s -> (len <= length buffer)%nat ->
  writeRegisters ty reg buffer len (mkMachine o s l)
  = Some (true,
          mkMachine o
            (mkSim (store_words (width ty) (u8 reg) (map (cast ty) (take len buffer))
                      (sim_regs s))
               (sim_bytes s) (u8 reg) [] (sim_rx s) (sim_clock s) (sim_tick s)
               (sim_status s) (sim_supply s))
            (l ++ beginTransmission (address o)
               :: map write (u8 reg :: words_bytes ty buffer 0 len)
               ++ [endTransmission true 0])).
Proof.
  intros (Hty & Hst & Hb & Hs) Hlen. rewrite writeRegisters_run.
  cbn [self wire log].
  rewrite sim_put_bytes. cbn [Wire_endTransmission Wire_beginTransmission Sim_TwoWire].
  unfold sim_endTransmission, sim_beginTransmission.
  cbn [sim_status sim_tx sim_regs sim_bytes sim_ptr sim_rx sim_clock sim_tick sim_supply app].
  rewrite Hst. cbn [Z.eqb fst snd]. change (u8 0) with 0.
  cbn [Z.eqb]. unfold after_error, error_calls. cbn [Z.eqb].
  rewrite (words_bytes_take ty buffer len 0) by lia. rewrite drop_0.
  rewrite word_bytes_encode by exact Hty.
  rewrite Hb, sim_store_words.
  - reflexivity.
  - apply width_pos.
  - rewrite length_flat_encode. pose proof (width_pos ty). nia.
Qed.

(** X11.  A block of words written to a serving device is the block read back
    from the same register address, each word cut to the width of the word
    type; the slots of the destination past the count are not touched. *)
Theorem write_then_read_registers fuel ty reg buffer dest len o s l :
  serves ty s ->
  (len <= length buffer)%nat ->
  (len <= length dest)%nat ->
  Z.of_nat len * sizeof ty < 256 ->
  (len * width ty <= sim_supply s)%nat ->
  exists m1 m2,
    writeRegisters ty reg buffer len (mkMachine o s l) = Some (true, m1)
    /\ readRegisters (S fuel) ty reg dest len m1
       = Some ((true, map (cast ty) (take len buffer) ++ drop len dest), m2)
    /\ timeoutFlag (self m2) = false.
Proof.
  intros Hs Hlen Hdest Hsmall Hsupply.
  pose proof Hs as (Hty & Hst & Hb & _).
  rewrite (sim_writeRegisters ty reg buffer len o s l Hs Hlen).
  eexists. eexists. split; [reflexivity |].
  set (ws := map (cast ty) (take len buffer)).
  assert (Hws : length ws = len) by (unfold ws; rewrite length_map, length_take; lia).
  set (X := flat_map (be_encode (width ty)) ws).
  assert (HX : length X = (len * width ty)%nat)
    by (unfold X; rewrite length_flat_encode, Hws; reflexivity).
  assert (Hsz : Z.of_nat (width ty) = sizeof ty)
    by (destruct ty; reflexivity).
  assert (Hneed : size_t (Z.of_nat len * sizeof ty) = Z.of_nat len * sizeof ty).
  { unfold size_t. cbn [size_t_bits Sim_TwoWire]. apply wrap_small.
    destruct ty; cbn [sizeof] in *; lia. }
  assert (Hu8 : u8 (Z.of_nat len * sizeof ty) = Z.of_nat len * sizeof ty).
  { apply wrap_small. destruct ty; cbn [sizeof] in *; lia. }
  match goal with
  | |- readRegisters _ _ _ _ _ ?m = _ /\ _ => set (m1 := m)
  end.
  pose (s2 := mkSim (sim_regs (wire m1)) (sim_bytes s) (u8 reg) [] X
                (ulong (sim_clock s + sim_tick s)) (sim_tick s) (sim_status s)
                (sim_supply s)).
  assert (Hstart : snd (readRegisters_start ty reg len m1) = s2).
  { unfold readRegisters_start, addressed, m1.
    cbn [self wire log Wire_beginTransmission Wire_write Wire_endTransmission
         Wire_requestFrom millis Sim_TwoWire].
    unfold sim_endTransmission.
    cbn [sim_beginTransmission sim_write sim_status sim_tx sim_regs sim_bytes sim_ptr
         sim_rx sim_clock sim_tick sim_supply app length sim_store].
    rewrite Hst. cbn [Z.eqb fst snd].
    unfold sim_requestFrom, sim_millis, s2.
    cbn [sim_status sim_tx sim_regs sim_bytes sim_ptr sim_rx sim_clock sim_tick
         sim_supply snd wire].
    rewrite Hneed, Hu8. f_equal; [| symmetry; exact Hst].
    replace (Z.to_nat (Z.of_nat len * sizeof ty)) with (len * width ty)%nat by lia.
    rewrite Nat.min_l by exact Hsupply.
    replace (len * width ty)%nat
      with (length ws + (len * width ty - len))%nat at 2
      by (pose proof (width_pos ty); nia).
    rewrite Hb, sim_fetch_stored. unfold ws at 1. rewrite mod_cast. fold ws. fold X.
    rewrite take_app_length' by (symmetry; exact HX). reflexivity. }
  assert (Hpoll : poll (S fuel)
                    (fun avail => size_t avail <? size_t (Z.of_nat len * sizeof ty))
                    (fst (readRegisters_start ty reg len m1))
                    (snd (readRegisters_start ty reg len m1))
                  = Some (Ready, s2)).
  { rewrite Hstart. cbn [poll Wire_available Sim_TwoWire]. unfold sim_available.
    cbn [s2 sim_rx]. rewrite Hneed.
    assert (Hq : size_t (Z.of_nat (length X)) = Z.of_nat len * sizeof ty).
    { unfold size_t. cbn [size_t_bits Sim_TwoWire]. rewrite wrap_small; rewrite HX; lia. }
    rewrite Hq, Z.ltb_irrefl. reflexivity. }
  rewrite (readRegisters_ready_run (S fuel) ty reg dest len m1 s2 X
             (sim_set_rx [] s2)).
  - assert (Hbuf : map be_decode (chunks (width ty) len X) = ws).
    { rewrite <- Hws at 1. rewrite <- (app_nil_r X). unfold X.
      rewrite chunks_encoded. unfold ws. apply mod_cast. }
    rewrite Hbuf. split; reflexivity.
  - exact Hty.
  - exact Hdest.
  - exact Hpoll.
  - rewrite <- HX. apply sim_reads. cbn [s2 sim_rx]. rewrite app_nil_r. reflexivity.
  - apply flat_encode_bytes.
Qed.

(** ** One bit of a word *)

Lemma wrap_testbit n x i :
  0 <= n -> Z.testbit (wrap n x) i = (i <? n) && Z.testbit x i.
Proof. intros Hn. unfold wrap. apply Z.testbit_mod_pow2. exact Hn. Qed.

(** The mask [(DATATYPE)(1 << bit)]. *)
Lemma bit_mask n bit :
  0 <= n -> 0 <= bit -> wrap n (Z.shiftl 1 bit) = if bit <? n then 2 ^ bit else 0.
Proof.
  intros Hn Hb. rewrite Z.shiftl_1_l. apply Z.bits_inj'. intros i Hi.
  rewrite wrap_testbit by exact Hn.
  destruct (Z.ltb_spec bit n).
  - rewrite Z.pow2_bits_eqb by exact Hb.
    destruct (Z.eqb_spec bit i); destruct (Z.ltb_spec i n); try reflexivity; lia.
  - rewrite Z.bits_0. rewrite Z.pow2_bits_eqb by exact Hb.
    destruct (Z.eqb_spec bit i); destruct (Z.ltb_spec i n); try reflexivity; lia.
Qed.

Lemma high_bits_clear n v i : 0 <= v < 2 ^ n -> n <= i -> Z.testbit v i = false.
Proof.
  intros Hv Hi. destruct (Z.ltb_spec n 0) as [Hneg | Hn].
  - rewrite Z.pow_neg_r in Hv by exact Hneg. lia.
  - rewrite <- (wrap_small n v Hv). rewrite wrap_testbit by exact Hn.
    destruct (Z.ltb_spec i n); [lia | reflexivity].
Qed.

Lemma set_bit_word n v bit :
  0 <= v < 2 ^ n -> 0 <= bit < n -> wrap n (Z.lor v (2 ^ bit)) = Z.setbit v bit.
Proof.
  intros Hv Hb. apply Z.bits_inj'. intros i Hi.
  rewrite wrap_testbit by lia.
  rewrite Z.lor_spec, Z.setbit_eqb, Z.pow2_bits_eqb by lia.
  destruct (Z.ltb_spec i n); [rewrite orb_comm; reflexivity |].
  rewrite (high_bits_clear n v i Hv) by lia.
  destruct (Z.eqb_spec bit i); [lia | reflexivity].
Qed.

Lemma clear_bit_word n v bit :
  0 <= v < 2 ^ n -> 0 <= bit < n ->
  wrap n (Z.land v (Z.lnot (2 ^ bit))) = Z.clearbit v bit.
Proof.
  intros Hv Hb. apply Z.bits_inj'. intros i Hi.
  rewrite wrap_testbit by lia.
  rewrite Z.land_spec, Z.lnot_spec, Z.clearbit_eqb, Z.pow2_bits_eqb by lia.
  destruct (Z.ltb_spec i n); [reflexivity |].
  rewrite (high_bits_clear n v i Hv) by lia. reflexivity.
Qed.

Lemma cast_small ty v : 0 <= v < 2 ^ (8 * sizeof ty) -> cast ty v = v.
Proof. apply wrap_small. Qed.

(** X12.  A read-modify-write of bit [bit] on a serving device.  A bit index
    inside the word sets or clears that bit and leaves the other bits and
    the other registers as they were; an index past the width of the word
    gives the mask 0 and the register is written back unchanged. *)
Theorem setRegisterBit_bit fuel ty reg bit (state : bool) o s l :
  serves ty s ->
  0 <= bit < 15 ->
  0 <= sim_regs s (u8 reg) < 2 ^ (8 * sizeof ty) ->
  exists m',
    setRegisterBit (S fuel) ty reg bit state (mkMachine o s l) = Some (true, m')
    /\ sim_regs (wire m') (u8 reg)
       = (if bit <? 8 * sizeof ty
          then if state then Z.setbit (sim_regs s (u8 reg)) bit
               else Z.clearbit (sim_regs s (u8 reg)) bit
          else sim_regs s (u8 reg))
    /\ (forall q, q <> u8 reg -> sim_regs (wire m') q = sim_regs s q)
    /\ timeoutFlag (self m') = false.
Proof.
  intros Hs Hbit Hv.
  assert (Hn : 0 <= 8 * sizeof ty) by (destruct ty; cbn [sizeof]; lia).
  unfold setRegisterBit. unfold mbind, M_bind.
  rewrite (sim_readRegister fuel ty reg o s l Hs).
  rewrite sim_writeRegister by (apply serves_answered; exact Hs).
  eexists. split; [reflexivity |].
  cbn [wire self sim_regs sim_answered timeoutFlag set_timeoutFlag].
  split; [| split; [| reflexivity]].
  - unfold upd. rewrite Z.eqb_refl.
    rewrite (cast_small ty (sim_regs s (u8 reg)) Hv).
    assert (Hm : cast ty (Z.shiftl 1 bit)
                 = if bit <? 8 * sizeof ty then 2 ^ bit else 0)
      by (apply bit_mask; lia).
    rewrite Hm.
    destruct (Z.ltb_spec bit (8 * sizeof ty)).
    + destruct state; rewrite cast_idem; unfold cast.
      * apply set_bit_word; [exact Hv | lia].
      * apply clear_bit_word; [exact Hv | lia].
    + destruct state; rewrite cast_idem.
      * rewrite Z.lor_0_r. apply cast_small. exact Hv.
      * change (Z.lnot 0) with (-1). rewrite Z.land_m1_r. apply cast_small. exact Hv.
  - intros q Hq. unfold upd.
    destruct (Z.eqb_spec q (u8 reg)); [contradiction | reflexivity].
Qed.

Section BitAfterTimeout.
Context {W : Type} `{TW : TwoWire W}.

Lemma writeRegister_cast ty reg v (m : Machine (wireUtil W) W) :
  writeRegister ty reg (cast ty v) m = writeRegister ty reg v m.
Proof.
  unfold writeRegister. rewrite !writeRegisters_run.
  cbn [words_bytes nth]. rewrite cast_idem. reflexivity.
Qed.

(** X13.  [setRegisterBit] does not look at the timeout flag.  When its read
    times out it goes on with the 0 that the read returned: for a bit
    index from 0 to 14 the register is written with the mask alone, or
    with 0 when the bit is to be cleared, and the result of the call is
    the result of that write. *)
Theorem setRegisterBit_after_timeout ty reg bit (state : bool)
    (m : Machine (wireUtil W) W) w' :
  let a := address (self m) in
  let start := readRegister_start ty reg m in
  0 <= bit < 15 ->
  Starved (fun avail => avail =? 0) (fst start) (snd start) w' ->
  exists n, forall fuel, (n <= fuel)%nat ->
    setRegisterBit fuel ty reg bit state m
    = writeRegister ty reg (if state then Z.shiftl 1 bit else 0)
        (mkMachine (set_timeoutFlag true (self m)) (after_timeout (self m) w')
           (log m ++ read_request a reg (u8 (fst (addressed a reg (wire m))))
                       (u8 (sizeof ty))
              ++ timeout_calls (self m))).
Proof.
  intros a start _ Hs. destruct (poll_starved _ _ _ _ Hs) as [n Hn].
  exists n. intros fuel Hf. specialize (Hn fuel Hf).
  unfold setRegisterBit. unfold mbind, M_bind.
  rewrite (readRegister_expired fuel ty reg m w' Hn). fold a.
  destruct state.
  - rewrite Z.lor_0_l, !writeRegister_cast. reflexivity.
  - rewrite Z.land_0_l. apply writeRegister_cast.
Qed.

End BitAfterTimeout.

(** ** Start-up *)

Section Begin.
Context {W : Type} `{TW : TwoWire W}.

(** X14.  [begin] stores the bus address and starts the bus, and touches nothing
    else of the object; the transactions that follow go to that address.
    The [begin()] of the ADC uses [0x48], and [addressIndex] counts the
    four addresses of the chip from there. *)
Theorem begin_addresses addr ty reg v (m : Machine (wireUtil W) W) :
  (exists st m',
     (begin addr;; writeRegister ty reg v) m = Some (st =? 0, m')
     /\ self m' = mkWireUtil (timeoutTime (self m)) (timeoutFlag (self m)) (u8 addr)
                    (timeOutHandler (self m)) (errorHandler (self m))
     /\ log m' = log m ++ beginBus :: beginTransmission (u8 addr)
                   :: map write (u8 reg :: word_bytes ty (cast ty v))
                   ++ endTransmission true st :: error_calls (self m) st)
  /\ (forall md : Machine (ADS1x15 W) W,
        ADS1x15_begin md
        = Some (tt, mkMachine
                      (set_super
                         (mkWireUtil (timeoutTime (super (self md)))
                            (timeoutFlag (super (self md))) 0x48
                            (timeOutHandler (super (self md)))
                            (errorHandler (super (self md))))
                         (self md))
                      (Wire_begin (wire md)) (log md ++ [beginBus])))
  /\ (forall k, 0 <= k <= 3 -> addressIndex k = 0x48 + k).
Proof.
  split; [| split].
  - unfold begin. run. unfold writeRegister. rewrite writeRegisters_run.
    cbn [self wire log address errorHandler words_bytes nth]. rewrite app_nil_r.
    eexists. eexists. split; [reflexivity |]. split; [reflexivity |].
    cbn [self log]. unfold error_calls. cbn [errorHandler].
    rewrite <- app_assoc. reflexivity.
  - intros md. reflexivity.
  - intros k Hk. unfold addressIndex, u8, defaultAddress. rewrite Z.add_comm.
    apply wrap_small. lia.
Qed.

End Begin.

(** ** The configuration mirror *)

(** Bit [i] of the mirror after [field &= ~mask; field |= value]. *)
Lemma set_field_testbit mask value cfg i :
  0 <= i ->
  Z.testbit (set_field mask value cfg) i
  = (i <? 16) && ((Z.testbit cfg i && negb (Z.testbit mask i)) || Z.testbit value i).
Proof.
  intros Hi. unfold set_field, u16.
  rewrite !wrap_testbit, Z.lor_spec, !wrap_testbit, Z.land_spec, Z.lnot_spec,
    wrap_testbit by lia.
  destruct (i <? 16), (Z.testbit cfg i), (Z.testbit mask i), (Z.testbit value i);
    reflexivity.
Qed.

Lemma set_field_range mask value cfg : 0 <= set_field mask value cfg < 2 ^ 16.
Proof. unfold set_field, u16 at 1, wrap. apply Z.mod_pos_bound. lia. Qed.

Lemma land_bits a b c i : Z.land a b = c -> Z.testbit a i && Z.testbit b i = Z.testbit c i.
Proof. intros <-. symmetry. apply Z.land_spec. Qed.

Lemma set_field_comm m1 v1 m2 v2 cfg :
  Z.land m1 m2 = 0 -> Z.land v1 m1 = v1 -> Z.land v2 m2 = v2 ->
  set_field m1 v1 (set_field m2 v2 cfg) = set_field m2 v2 (set_field m1 v1 cfg).
Proof.
  intros Hm H1 H2. apply Z.bits_inj'. intros i Hi.
  rewrite !set_field_testbit by exact Hi.
  pose proof (land_bits _ _ _ i Hm) as Bm. rewrite Z.bits_0 in Bm.
  pose proof (land_bits _ _ _ i H1) as B1.
  pose proof (land_bits _ _ _ i H2) as B2.
  destruct (i <? 16), (Z.testbit cfg i), (Z.testbit m1 i), (Z.testbit m2 i),
    (Z.testbit v1 i), (Z.testbit v2 i); try reflexivity; discriminate.
Qed.

Lemma set_field_again m v1 v2 cfg :
  Z.land v2 m = v2 ->
  set_field m v1 (set_field m v2 cfg) = set_field m v1 cfg.
Proof.
  intros H2. apply Z.bits_inj'. intros i Hi.
  rewrite !set_field_testbit by exact Hi.
  pose proof (land_bits _ _ _ i H2) as B2.
  destruct (i <? 16), (Z.testbit cfg i), (Z.testbit m i),
    (Z.testbit v1 i), (Z.testbit v2 i); try reflexivity; discriminate.
Qed.

Lemma set_field_own m v cfg :
  0 <= m < 2 ^ 16 -> Z.land v m = v -> Z.land (set_field m v cfg) m = v.
Proof.
  intros Hm Hv. apply Z.bits_inj'. intros i Hi.
  rewrite Z.land_spec, set_field_testbit by exact Hi.
  pose proof (land_bits _ _ _ i Hv) as B.
  destruct (Z.ltb_spec i 16) as [Hlt | Hge].
  - destruct (Z.testbit cfg i), (Z.testbit m i), (Z.testbit v i);
      try reflexivity; discriminate.
  - rewrite (high_bits_clear 16 m i Hm Hge) in B.
    rewrite andb_false_r in B. rewrite <- B. reflexivity.
Qed.

Lemma set_field_other m v cfg k :
  0 <= cfg < 2 ^ 16 -> Z.land m k = 0 -> Z.land v m = v ->
  Z.land (set_field m v cfg) k = Z.land cfg k.
Proof.
  intros Hc Hm Hv. apply Z.bits_inj'. intros i Hi.
  rewrite !Z.land_spec, set_field_testbit by exact Hi.
  pose proof (land_bits _ _ _ i Hm) as Bm. rewrite Z.bits_0 in Bm.
  pose proof (land_bits _ _ _ i Hv) as Bv.
  destruct (Z.ltb_spec i 16) as [Hlt | Hge].
  - destruct (Z.testbit cfg i), (Z.testbit m i), (Z.testbit v i), (Z.testbit k i);
      try reflexivity; discriminate.
  - rewrite (high_bits_clear 16 cfg i Hc Hge). reflexivity.
Qed.

Lemma setting_config {W} (s : Setting) (d : ADS1x15 W) :
  configRegister (apply_setting s d)
  = set_field (setting_mask s) (setting_code s) (configRegister d).
Proof. destruct s; reflexivity. Qed.

Lemma code_in_mask s : Z.land (setting_code s) (setting_mask s) = setting_code s.
Proof. destruct s as [[] | [] | [] | [] | [] | []]; reflexivity. Qed.

Lemma mask_range s : 0 <= setting_mask s < 2 ^ 16.
Proof. destruct s; vm_compute; (split; [discriminate | reflexivity]). Qed.

(** X15.  A setter writes the code of its argument into its own field of the
    mirror and keeps every bit outside that field. *)
Theorem setting_writes_its_field {W} (s : Setting) (d : ADS1x15 W) :
  0 <= configRegister d < 2 ^ 16 ->
  Z.land (configRegister (apply_setting s d)) (setting_mask s) = setting_code s
  /\ Z.land (configRegister (apply_setting s d)) (Z.lnot (setting_mask s))
     = Z.land (configRegister d) (Z.lnot (setting_mask s))
  /\ 0 <= configRegister (apply_setting s d) < 2 ^ 16.
Proof.
  intros Hc. rewrite setting_config.
  pose proof (code_in_mask s) as Hcode. pose proof (mask_range s) as Hmask.
  split; [| split; [| apply set_field_range]].
  - apply set_field_own; assumption.
  - apply Z.bits_inj'. intros i Hi.
    rewrite !Z.land_spec, Z.lnot_spec, set_field_testbit by exact Hi.
    pose proof (land_bits _ _ _ i Hcode) as B.
    destruct (Z.ltb_spec i 16) as [Hlt | Hge].
    + destruct (Z.testbit (configRegister d) i), (Z.testbit (setting_mask s) i),
        (Z.testbit (setting_code s) i); try reflexivity; discriminate.
    + rewrite (high_bits_clear 16 (configRegister d) i Hc Hge). reflexivity.
Qed.

Lemma masks_disjoint s1 s2 :
  setting_mask s1 <> setting_mask s2 -> Z.land (setting_mask s1) (setting_mask s2) = 0.
Proof. destruct s1, s2; intros H; try reflexivity; exfalso; apply H; reflexivity. Qed.

(** X16.  Setters of different fields can be called in either order: the object
    ends the same. *)
Theorem settings_commute {W} (s1 s2 : Setting) (d : ADS1x15 W) :
  setting_mask s1 <> setting_mask s2 ->
  apply_setting s1 (apply_setting s2 d) = apply_setting s2 (apply_setting s1 d).
Proof.
  intros Hne.
  pose proof (set_field_comm (setting_mask s1) (setting_code s1)
                (setting_mask s2) (setting_code s2) (configRegister d)
                (masks_disjoint s1 s2 Hne) (code_in_mask s1) (code_in_mask s2)) as Hc.
  destruct s1, s2; try (exfalso; apply Hne; reflexivity);
    cbn [setting_mask setting_code] in Hc;
    unfold apply_setting, setGain, setComparatorMode, setComparatorPolarity,
      setComparatorLatch, setDataRate1115, setDataRate1015, set_configRegister,
      set_currentGain, set_conversionDelay;
    cbn [super chip configRegister currentGain conversionDelay calibration];
    rewrite Hc; reflexivity.
Qed.

(** X17.  Of two calls that write the same field the later one decides: the
    earlier call leaves no trace in the object. *)
Theorem setting_overrides {W} (s1 s2 : Setting) (d : ADS1x15 W) :
  setting_mask s1 = setting_mask s2 ->
  apply_setting s1 (apply_setting s2 d) = apply_setting s1 d.
Proof.
  intros He.
  pose proof (set_field_again (setting_mask s1) (setting_code s1) (setting_code s2)
                (configRegister d)) as Hc.
  rewrite He in Hc at 1. specialize (Hc (code_in_mask s2)).
  destruct s1, s2; try discriminate He;
    cbn [setting_mask setting_code] in Hc;
    unfold apply_setting, setGain, setComparatorMode, setComparatorPolarity,
      setComparatorLatch, setDataRate1115, setDataRate1015, set_configRegister,
      set_currentGain, set_conversionDelay;
    cbn [super chip configRegister currentGain conversionDelay calibration];
    rewrite Hc; reflexivity.
Qed.

(** X18.  The wait before the conversion register is read covers one conversion
    period at the selected data rate, and exceeds it by no more than 401
    microseconds: in microseconds times samples per second. *)
Theorem conversionDelay_covers_period {W} (d : ADS1x15 W) :
  (forall r,
     1000000 <= conversionDelay (setDataRate1115 r d) * sps1115 r
     /\ conversionDelay (setDataRate1115 r d) * sps1115 r
        <= 1000000 + 401 * sps1115 r)
  /\ (forall r,
        1000000 <= conversionDelay (setDataRate1015 r d) * sps1015 r
        /\ conversionDelay (setDataRate1015 r d) * sps1015 r
           <= 1000000 + 401 * sps1015 r).
Proof. split; intros []; cbn; lia. Qed.

(** X19.  With the calibration factor of the constructor the full-scale voltage
    is the documented one of the gain, for each of the six gains. *)
Theorem getFullScaleV_default {W} g c addr th eh dl :
  getFullScaleV (setGain g (@ADS1x15_new W c addr th eh dl)) = full_scale_volts g
  /\ getCalibration (setGain g (@ADS1x15_new W c addr th eh dl)) = fone.
Proof.
  split; [| reflexivity].
  rewrite getFullScaleV_table. cbn [setGain currentGain calibration set_currentGain
    set_configRegister ADS1x15_new].
  apply fmul_one. destruct g; vm_compute; reflexivity.
Qed.

Lemma emitted_app l1 l2 : emitted (l1 ++ l2) = emitted l1 ++ emitted l2.
Proof.
  induction l1 as [| e l1 IH]; [reflexivity |].
  destruct e; cbn [app emitted]; rewrite IH; reflexivity.
Qed.

Lemma emitted_timeout_calls {W} (o : wireUtil W) : emitted (timeout_calls o) = [].
Proof. unfold timeout_calls. destruct (timeOutHandler o); reflexivity. Qed.

Lemma conversion_config_testbit mux cfg i :
  0 <= i ->
  Z.testbit (conversion_config mux cfg) i
  = (i <? 16)
    && ((Z.testbit cfg i && negb (Z.testbit ADS1x15_MUX_MASK i))
        || Z.testbit (mux_code mux) i || Z.testbit ADS1x15_OS i).
Proof.
  intros Hi. unfold conversion_config, u16.
  rewrite wrap_testbit, Z.lor_spec, set_field_testbit, wrap_testbit by lia.
  destruct (i <? 16); cbn [andb]; [| reflexivity].
  reflexivity.
Qed.

Lemma conversion_config_range mux cfg : 0 <= conversion_config mux cfg < 2 ^ 16.
Proof. unfold conversion_config, u16 at 1, wrap. apply Z.mod_pos_bound. lia. Qed.

Lemma mux_in_mask mux : Z.land (mux_code mux) ADS1x15_MUX_MASK = mux_code mux.
Proof. destruct mux; reflexivity. Qed.

Lemma conversion_config_other mux cfg k :
  0 <= cfg < 2 ^ 16 ->
  Z.land ADS1x15_MUX_MASK k = 0 -> Z.land ADS1x15_OS k = 0 ->
  Z.land (conversion_config mux cfg) k = Z.land cfg k.
Proof.
  intros Hc Hm Ho. apply Z.bits_inj'. intros i Hi.
  rewrite !Z.land_spec, conversion_config_testbit by exact Hi.
  pose proof (land_bits _ _ _ i Hm) as Bm. rewrite Z.bits_0 in Bm.
  pose proof (land_bits _ _ _ i Ho) as Bo. rewrite Z.bits_0 in Bo.
  pose proof (land_bits _ _ _ i (mux_in_mask mux)) as Bv.
  destruct (Z.ltb_spec i 16) as [Hlt | Hge].
  - destruct (Z.testbit cfg i), (Z.testbit ADS1x15_MUX_MASK i),
      (Z.testbit (mux_code mux) i), (Z.testbit ADS1x15_OS i), (Z.testbit k i);
      try reflexivity; discriminate.
  - rewrite (high_bits_clear 16 cfg i Hc Hge). reflexivity.
Qed.

Lemma conversion_config_mux mux cfg :
  Z.land (conversion_config mux cfg) ADS1x15_MUX_MASK = mux_code mux.
Proof.
  apply Z.bits_inj'. intros i Hi.
  rewrite !Z.land_spec, conversion_config_testbit by exact Hi.
  pose proof (land_bits _ _ _ i (mux_in_mask mux)) as Bv.
  assert (Ho : Z.land ADS1x15_OS ADS1x15_MUX_MASK = 0) by reflexivity.
  pose proof (land_bits _ _ _ i Ho) as Bo. rewrite Z.bits_0 in Bo.
  destruct (Z.ltb_spec i 16) as [Hlt | Hge].
  - destruct (Z.testbit cfg i), (Z.testbit ADS1x15_MUX_MASK i),
      (Z.testbit (mux_code mux) i), (Z.testbit ADS1x15_OS i);
      try reflexivity; discriminate.
  - assert (Hr : 0 <= ADS1x15_MUX_MASK < 2 ^ 16)
      by (vm_compute; split; [discriminate | reflexivity]).
    rewrite (high_bits_clear 16 _ i Hr Hge) in Bv. rewrite andb_false_r in Bv.
    rewrite <- Bv. reflexivity.
Qed.

Section Conversion.
Context {W : Type} `{TW : TwoWire W}.

(** [analogRead] is a write of the configuration, a wait, and a read of the
    conversion register. *)
Lemma analogRead_run fuel mux (m : Machine (ADS1x15 W) W) :
  analogRead fuel mux m
  = match readRegister fuel uint16_t (reg_code CONVERSION_REG)
            (conversion_started mux m) with
    | Some (raw, m2) =>
        let c := shiftConversion (chip (self m)) raw in
        Some (if getFullScaleBits (chip (self m)) <? c then i16 (Z.lor c 0x8000)
              else i16 c,
              mkMachine
                (mkADS1x15 (self m2) (chip (self m))
                   (conversion_config mux (configRegister (self m)))
                   (currentGain (self m)) (conversionDelay (self m))
                   (calibration (self m)))
                (wire m2) (log m2))
    | None => None
    end.
Proof.
  unfold analogRead, inherited, delay, conversion_started. run.
  cbn [set_configRegister configRegister super chip currentGain conversionDelay
       calibration].
  fold (conversion_config mux (configRegister (self m))).
  unfold writeRegister. rewrite writeRegisters_run. cbn [self wire log].
  cbn [set_super super chip configRegister currentGain conversionDelay calibration].
  destruct (readRegister _ _ _ _) as [[raw m2] |]; [| reflexivity].
  cbn [self wire log set_super super chip configRegister currentGain conversionDelay
       calibration].
  destruct (_ <? _); reflexivity.
Qed.

Lemma conversion_started_log mux (m : Machine (ADS1x15 W) W) :
  self (conversion_started mux m) = super (self m)
  /\ emitted (drop (length (log m)) (log (conversion_started mux m)))
     = u8 (reg_code CONFIG_REG)
       :: word_bytes uint16_t (cast uint16_t (conversion_config mux (configRegister (self m)))).
Proof.
  unfold conversion_started, writeRegister. rewrite writeRegisters_run.
  cbn [self wire log words_bytes nth]. rewrite app_nil_r.
  split; [reflexivity |].
  rewrite drop_app_length.
  apply (emitted_transaction (super (self m))).
Qed.

(** X20.  Each conversion sends the whole mirror.  [analogRead] replaces the mux
    field by the selection, sets the start bit, keeps the twelve bits
    below (gain, mode, data rate, comparator), stores the word in the
    mirror and writes it to the configuration register; the bytes put on
    the bus are that register's address, the two bytes of the word, and
    the address of the conversion register. *)
Theorem analogRead_configures fuel mux (m : Machine (ADS1x15 W) W) r m' :
  analogRead fuel mux m = Some (r, m') ->
  0 <= configRegister (self m) < 2 ^ 16 ->
  let cfg := configRegister (self m') in
  Z.land cfg ADS1x15_MUX_MASK = mux_code mux
  /\ Z.testbit cfg 15 = true
  /\ Z.land cfg 0x0FFF = Z.land (configRegister (self m)) 0x0FFF
  /\ 0 <= cfg < 2 ^ 16
  /\ emitted (drop (length (log m)) (log m'))
     = [reg_code CONFIG_REG; cfg / 256; cfg mod 256; reg_code CONVERSION_REG].
Proof.
  intros Hr Hc. rewrite analogRead_run in Hr.
  destruct (readRegister _ _ _ _) as [[raw m2] |] eqn:Hread; [| discriminate].
  cbv zeta in Hr. injection Hr as _ <-. cbn [self log configRegister].
  pose proof (conversion_config_range mux (configRegister (self m))) as Hrange.
  split; [apply conversion_config_mux |].
  split.
  { rewrite conversion_config_testbit by lia.
    change (Z.testbit ADS1x15_OS 15) with true. rewrite orb_true_r. reflexivity. }
  split; [apply conversion_config_other; [exact Hc | reflexivity | reflexivity] |].
  split; [exact Hrange |].
  destruct (conversion_started_log mux m) as [Hself Hlog].
  assert (Hsplit : exists tail,
    log m2 = log (conversion_started mux m) ++ tail
    /\ emitted tail = [u8 (reg_code CONVERSION_REG)]).
  { destruct (readRegister_cases _ _ _ _ _ _ Hread)
      as [(w1 & _ & _ & ->) | (w1 & _ & _ & Hl)].
    - eexists. split; [reflexivity |]. cbn [log]. rewrite emitted_app.
      rewrite emitted_timeout_calls. reflexivity.
    - eexists. split; [exact Hl |]. reflexivity. }
  destruct Hsplit as (tail & Hl2 & Htail).
  assert (Hlen : (length (log m) <= length (log (conversion_started mux m)))%nat).
  { unfold conversion_started, writeRegister. rewrite writeRegisters_run.
    cbn [log]. rewrite length_app. lia. }
  rewrite Hl2, drop_app_le by exact Hlen.
  rewrite emitted_app, Hlog, Htail.
  cbn [word_bytes sizeof]. change (Z.to_nat 2) with 2%nat.
  rewrite be_encode_2. rewrite (cast_small uint16_t _ Hrange).
  cbn [app]. f_equal. f_equal.
  apply Z.mod_small. split.
  - apply Z.div_pos; lia.
  - apply Z.div_lt_upper_bound; lia.
Qed.

(** X21.  A conversion whose read times out returns 0, as a reading of zero
    volts would; the flag of the engine is true and the timeout handler, if
    there is one, has been called once. *)
Theorem analogRead_timeout mux (m : Machine (ADS1x15 W) W) w' :
  let start := readRegister_start uint16_t (reg_code CONVERSION_REG)
                 (conversion_started mux m) in
  Starved (fun avail => avail =? 0) (fst start) (snd start) w' ->
  exists n, forall fuel, (n <= fuel)%nat ->
    exists m',
      analogRead fuel mux m = Some (0, m')
      /\ timeoutFlag (super (self m')) = true
      /\ wire m' = after_timeout (super (self m)) w'
      /\ List.filter is_handler_call
           (drop (length (log (conversion_started mux m))) (log m'))
         = timeout_calls (super (self m)).
Proof.
  intros start Hs. destruct (poll_starved _ _ _ _ Hs) as [n Hn].
  exists n. intros fuel Hf. specialize (Hn fuel Hf).
  rewrite analogRead_run.
  rewrite (readRegister_expired fuel uint16_t _ _ w' Hn).
  destruct (conversion_started_log mux m) as [Hself _].
  assert (Hv : forall c,
    (if getFullScaleBits c <? shiftConversion c 0
     then i16 (Z.lor (shiftConversion c 0) 0x8000)
     else i16 (shiftConversion c 0)) = 0) by (intros []; reflexivity).
  cbv zeta. rewrite Hv.
  eexists. split; [| split; [| split]].
  - reflexivity.
  - reflexivity.
  - cbn [wire]. rewrite Hself. reflexivity.
  - cbn [log]. rewrite drop_app_length, List.filter_app, Hself.
    unfold read_request, timeout_calls. cbn [List.filter is_handler_call app].
    destruct (timeOutHandler (super (self m))); reflexivity.
Qed.

(** X22.  The mirror stays a 16-bit word whose gain field is the code of
    [currentGain], the gain [getFullScaleV] computes with: the constructors
    establish this, and the setters, both calibration functions and a
    conversion keep it. *)
Theorem config_ok_invariant :
  (forall addr th eh dl,
     config_ok (@ADS1115_new W addr th eh dl)
     /\ config_ok (@ADS1015_new W addr th eh dl))
  /\ (forall s (d : ADS1x15 W), config_ok d -> config_ok (apply_setting s d))
  /\ (forall x r1 r2 (d : ADS1x15 W),
        config_ok d ->
        config_ok (setCalibration x d) /\ config_ok (setCalibration2 r1 r2 d))
  /\ (forall fuel mux (m : Machine (ADS1x15 W) W) r m',
        analogRead fuel mux m = Some (r, m') ->
        config_ok (self m) -> config_ok (self m')).
Proof.
  split; [| split; [| split]].
  - intros addr th eh dl.
    split; (split; [vm_compute; split; [discriminate | reflexivity] | reflexivity]).
  - intros s d [Hc Hg]. split.
    + rewrite setting_config. apply set_field_range.
    + rewrite setting_config.
      destruct s as [g | c | c | c | r | r].
      * apply set_field_own; [apply (mask_range (Gain g)) | apply (code_in_mask (Gain g))].
      * rewrite set_field_other;
          [exact Hg | exact Hc | reflexivity | apply (code_in_mask (ComparatorMode c))].
      * rewrite set_field_other;
          [exact Hg | exact Hc | reflexivity | apply (code_in_mask (ComparatorPolarity c))].
      * rewrite set_field_other;
          [exact Hg | exact Hc | reflexivity | apply (code_in_mask (ComparatorLatch c))].
      * rewrite set_field_other;
          [exact Hg | exact Hc | reflexivity | apply (code_in_mask (DataRate1115 r))].
      * rewrite set_field_other;
          [exact Hg | exact Hc | reflexivity | apply (code_in_mask (DataRate1015 r))].
  - intros x r1 r2 d Hd. split; [exact Hd |].
    unfold setCalibration2. destruct (fltb fzero r2); exact Hd.
  - intros fuel mux m r m' Hr [Hc Hg]. rewrite analogRead_run in Hr.
    destruct (readRegister _ _ _ _) as [[raw m2] |]; [| discriminate].
    cbv zeta in Hr. injection Hr as _ <-. split; cbn [self configRegister currentGain].
    + apply conversion_config_range.
    + rewrite conversion_config_other by (first [exact Hc | reflexivity]).
      exact Hg.
Qed.

(** X23.  The burden resistor is checked before anything is read: for a
    resistance that is zero, negative or not a number [analogReadCurrent]
    returns 0 and [analogRead420] returns -0.25, with no bus traffic and
    the state as it was; for a positive resistance the current is the
    voltage divided by it. *)
Theorem analogReadCurrent_guard fuel ch r (m : Machine (ADS1x15 W) W) :
  analogReadCurrent fuel ch r m
  = (if strictly_positive r
     then (v ← analogReadVoltage fuel ch; mret (fdiv v r)) m
     else Some (fzero, m))
  /\ (strictly_positive r = false ->
      analogRead420 fuel ch r m = Some (float_lit (-25) 2, m)).
Proof.
  assert (Hg : fltb fzero r = strictly_positive r)
    by (destruct r as [[] | [] | | [] mr er]; reflexivity).
  split.
  - unfold analogReadCurrent. rewrite Hg. destruct (strictly_positive r); reflexivity.
  - intros Hr. unfold analogRead420, analogReadCurrent. rewrite Hg, Hr.
    unfold mbind, M_bind, mret, M_ret.
    assert (Hq : float_of_double (ddiv (dsub fzero (double_lit 4 0)) (double_lit 16 0))
                 = float_lit (-25) 2) by (vm_compute; reflexivity).
    rewrite Hq. reflexivity.
Qed.

End Conversion.

Section Channels.
Context {W : Type} `{TW : TwoWire W}.

(** The bytes a conversion has put on the bus when it returns. *)
Lemma analogRead_emitted fuel mux (m : Machine (ADS1x15 W) W) r m' :
  analogRead fuel mux m = Some (r, m') ->
  configRegister (self m') = conversion_config mux (configRegister (self m))
  /\ emitted (drop (length (log m)) (log m'))
     = u8 (reg_code CONFIG_REG)
       :: be_encode 2 (conversion_config mux (configRegister (self m)))
       ++ [u8 (reg_code CONVERSION_REG)].
Proof.
  intros Hr. rewrite analogRead_run in Hr.
  destruct (readRegister _ _ _ _) as [[raw m2] |] eqn:Hread; [| discriminate].
  cbv zeta in Hr. injection Hr as _ <-. cbn [self log configRegister].
  split; [reflexivity |].
  pose proof (conversion_config_range mux (configRegister (self m))) as Hrange.
  destruct (conversion_started_log mux m) as [Hself Hlog].
  assert (Hsplit : exists tail,
    log m2 = log (conversion_started mux m) ++ tail
    /\ emitted tail = [u8 (reg_code CONVERSION_REG)]).
  { destruct (readRegister_cases _ _ _ _ _ _ Hread)
      as [(w1 & _ & _ & ->) | (w1 & _ & _ & Hl)].
    - eexists. split; [reflexivity |]. cbn [log]. rewrite emitted_app.
      rewrite emitted_timeout_calls. reflexivity.
    - eexists. split; [exact Hl |]. reflexivity. }
  destruct Hsplit as (tail & Hl2 & Htail).
  assert (Hlen : (length (log m) <= length (log (conversion_started mux m)))%nat).
  { unfold conversion_started, writeRegister. rewrite writeRegisters_run.
    cbn [log]. rewrite length_app. lia. }
  rewrite Hl2, drop_app_le by exact Hlen.
  rewrite emitted_app, Hlog, Htail.
  cbn [word_bytes sizeof]. change (Z.to_nat 2) with 2%nat.
  rewrite (cast_small uint16_t _ Hrange). reflexivity.
Qed.

Lemma analogRead_ch_valid fuel c (m : Machine (ADS1x15 W) W) :
  0 <= c <= 3 ->
  analogRead_ch fuel c m = (r ← analogRead fuel (single_ended c); mret (u16 r)) m.
Proof.
  intros Hc. assert (Hcases : c = 0 \/ c = 1 \/ c = 2 \/ c = 3) by lia.
  destruct Hcases as [-> | [-> | [-> | ->]]]; reflexivity.
Qed.

(** C10.  For a channel above 3 the channel overload of [analogRead]
    returns 0 and leaves the object, the platform and the record of bus
    calls untouched.  A channel [c] from 0 to 3 selects the single-ended
    input of that number, whose mux code is [4 + c], and triggers a
    conversion: the configuration word with that mux code and the start
    bit is written to the configuration register before anything is
    read, the call is the read of the conversion register that follows,
    and when it returns the mirror holds that word and the bus has
    carried the address of the configuration register, the two bytes of
    the word and the address of the conversion register. *)
Theorem analogRead_channel_range fuel ch (m : Machine (ADS1x15 W) W) :
  3 < ch ->
  analogRead_ch fuel ch m = Some (0, m)
  /\ (forall c, 0 <= c <= 3 ->
        let cfg := conversion_config (single_ended c) (configRegister (self m)) in
        let started := conversion_started (single_ended c) m in
        mux_code (single_ended c) = Z.shiftl (4 + c) 12
        /\ Z.land cfg ADS1x15_MUX_MASK = Z.shiftl (4 + c) 12
        /\ Z.testbit cfg 15 = true
        /\ emitted (drop (length (log m)) (log started))
           = reg_code CONFIG_REG :: be_encode 2 cfg
        /\ analogRead_ch fuel c m
           = match readRegister fuel uint16_t (reg_code CONVERSION_REG) started with
             | Some (raw, m2) =>
                 let code := shiftConversion (chip (self m)) raw in
                 Some (u16 (if getFullScaleBits (chip (self m)) <? code
                            then i16 (Z.lor code 0x8000) else i16 code),
                       mkMachine
                         (mkADS1x15 (self m2) (chip (self m)) cfg
                            (currentGain (self m)) (conversionDelay (self m))
                            (calibration (self m)))
                         (wire m2) (log m2))
             | None => None
             end
        /\ (forall r m',
              analogRead_ch fuel c m = Some (r, m') ->
              configRegister (self m') = cfg
              /\ emitted (drop (length (log m)) (log m'))
                 = reg_code CONFIG_REG :: be_encode 2 cfg
                   ++ [reg_code CONVERSION_REG])).
Proof.
  intros Hch. split.
  - unfold analogRead_ch.
    destruct (Z.eqb_spec ch 0); [lia |]. destruct (Z.eqb_spec ch 1); [lia |].
    destruct (Z.eqb_spec ch 2); [lia |]. destruct (Z.eqb_spec ch 3); [lia |].
    reflexivity.
  - intros c Hc cfg started.
    assert (Hmux : mux_code (single_ended c) = Z.shiftl (4 + c) 12).
    { assert (Hcases : c = 0 \/ c = 1 \/ c = 2 \/ c = 3) by lia.
      destruct Hcases as [-> | [-> | [-> | ->]]]; reflexivity. }
    pose proof (conversion_config_range (single_ended c) (configRegister (self m)))
      as Hrange. fold cfg in Hrange.
    split; [exact Hmux |].
    split; [unfold cfg; rewrite conversion_config_mux; exact Hmux |].
    split.
    { unfold cfg. rewrite conversion_config_testbit by lia.
      change (Z.testbit ADS1x15_OS 15) with true. rewrite orb_true_r. reflexivity. }
    split.
    { destruct (conversion_started_log (single_ended c) m) as [_ Hlog].
      unfold started. rewrite Hlog. fold cfg.
      cbn [word_bytes sizeof]. change (Z.to_nat 2) with 2%nat.
      rewrite (cast_small uint16_t _ Hrange). reflexivity. }
    split.
    { rewrite (analogRead_ch_valid fuel c m Hc).
      unfold mbind, M_bind, mret, M_ret. rewrite analogRead_run. fold started cfg.
      destruct (readRegister _ _ _ started) as [[raw m2] |]; reflexivity. }
    intros r m' Hr. rewrite (analogRead_ch_valid fuel c m Hc) in Hr.
    unfold mbind, M_bind, mret, M_ret in Hr.
    destruct (analogRead fuel (single_ended c) m) as [[r0 m0] |] eqn:Ha; [| discriminate].
    injection Hr as _ <-.
    exact (analogRead_emitted fuel (single_ended c) m r0 m0 Ha).
Qed.

End Channels.

(** A run of C10 on a new ADS1115: channel 4 does nothing, channel 2
    writes the configuration word [0xE583] and reads the conversion
    register. *)
Lemma analogRead_channel_range_witness :
  3 < 4
  /\ analogRead_ch 1 4 (adc_bench ADS1115 0x7FFF) = Some (0, adc_bench ADS1115 0x7FFF)
  /\ exists m',
       analogRead_ch 1 2 (adc_bench ADS1115 0x7FFF) = Some (0x7FFF, m')
       /\ configRegister (self m') = 0xE583
       /\ emitted (log m') = [0x01; 0xE5; 0x83; 0x00].
Proof.
  assert (H : 3 < 4) by lia.
  split; [exact H |].
  destruct (analogRead_channel_range 1 4 (adc_bench ADS1115 0x7FFF) H) as [H4 Hc].
  split; [exact H4 |].
  assert (H2 : 0 <= 2 <= 3) by lia.
  specialize (Hc 2 H2). cbv zeta in Hc. destruct Hc as (_ & _ & _ & _ & _ & Hret).
  pose (m' := match analogRead_ch 1 2 (adc_bench ADS1115 0x7FFF) with
              | Some (_, m) => m
              | None => adc_bench ADS1115 0x7FFF
              end).
  assert (Hr : analogRead_ch 1 2 (adc_bench ADS1115 0x7FFF) = Some (0x7FFF, m'))
    by (vm_compute; reflexivity).
  exists m'. split; [exact Hr |].
  destruct (Hret 0x7FFF m' Hr) as [Hcfg Hem].
  split; [exact Hcfg | exact Hem].
Defined.


(** X24.  In front of a device that serves its conversion register,
    [analogRead] returns the value of the conversion code in two's
    complement at the resolution of the chip, for every code of the
    ADS1115 and for the codes of the ADS1015 that are not negative; the
    four low bits of the register do not count on the ADS1015. *)
Theorem analogRead_value fuel mux (d : ADS1x15 Sim) s l :
  serves uint16_t s ->
  0 <= sim_regs s (reg_code CONVERSION_REG) < 2 ^ 16 ->
  chip d = ADS1115 \/ sim_regs s (reg_code CONVERSION_REG) < 2 ^ 15 ->
  exists m',
    analogRead (S fuel) mux (mkMachine d s l)
    = Some (twos_complement (getADCbits (chip d))
              (shiftConversion (chip d) (sim_regs s (reg_code CONVERSION_REG))),
            m')
    /\ (chip d = ADS1015 ->
        shiftConversion (chip d) (sim_regs s (reg_code CONVERSION_REG))
        = sim_regs s (reg_code CONVERSION_REG) / 16).
Proof.
  intros Hs Hraw Hc.
  destruct (sim_analogRead fuel mux d s l Hs) as [m' Hm']. cbv zeta in Hm'.
  exists m'. rewrite Hm'.
  set (raw := sim_regs s (reg_code CONVERSION_REG)) in *.
  assert (Hu : u16 raw = raw) by (apply wrap_small; exact Hraw).
  rewrite Hu.
  assert (H15 : shiftConversion ADS1015 raw = raw / 16).
  { cbn [shiftConversion]. rewrite Z.shiftr_div_pow2 by lia. change (2 ^ 4) with 16.
    unfold u16. apply wrap_small. split.
    - apply Z.div_pos; lia.
    - apply Z.div_lt_upper_bound; lia. }
  split.
  2:{ intros ->. exact H15. }
  f_equal. f_equal.
  destruct (chip d) eqn:Hchip.
  - cbn [shiftConversion getFullScaleBits getADCbits].
    unfold twos_complement. change (2 ^ (16 - 1)) with (2 ^ 15).
    destruct (Z.ltb_spec 0x7FFF raw).
    + rewrite lor_sign_bit_set by lia. unfold i16, u16. rewrite wrap_small by lia.
      destruct (Z.ltb_spec raw (2 ^ 15)); [lia | reflexivity].
    + unfold i16, u16. rewrite wrap_small by lia. reflexivity.
  - destruct Hc as [Hc | Hc]; [discriminate |].
    rewrite H15. cbn [getFullScaleBits getADCbits].
    assert (Hq : 0 <= raw / 16 < 2 ^ 11).
    { split; [apply Z.div_pos; lia | apply Z.div_lt_upper_bound; lia]. }
    destruct (Z.ltb_spec 0x07FF (raw / 16)); [lia |].
    unfold i16, u16, twos_complement. rewrite wrap_small by lia.
    change (2 ^ (12 - 1)) with (2 ^ 11).
    destruct (Z.ltb_spec (raw / 16) (2 ^ 15)); [| lia].
    destruct (Z.ltb_spec (raw / 16) (2 ^ 11)); [reflexivity | lia].
Qed.

(** X25.  The channel overload returns the [int16_t] reading as a [uint16_t].  A
    negative reading of an ADS1115 comes back as the reading plus 65536,
    which is the conversion code itself, and [analogReadVoltage] computes
    with that number: it is above the full-scale code. *)
Theorem analogRead_ch_negative fuel ch (d : ADS1x15 Sim) s l :
  serves uint16_t s ->
  chip d = ADS1115 ->
  0 <= ch <= 3 ->
  2 ^ 15 <= sim_regs s (reg_code CONVERSION_REG) < 2 ^ 16 ->
  exists m',
    analogRead (S fuel) (single_ended ch) (mkMachine d s l)
    = Some (sim_regs s (reg_code CONVERSION_REG) - 2 ^ 16, m')
    /\ analogRead_ch (S fuel) ch (mkMachine d s l)
       = Some (sim_regs s (reg_code CONVERSION_REG), m')
    /\ analogReadVoltage (S fuel) ch (mkMachine d s l)
       = Some (fmul (getFullScaleV d)
                 (fdiv (float_of_Z (sim_regs s (reg_code CONVERSION_REG)))
                    (float_of_Z (getFullScaleBits ADS1115))),
               m')
    /\ getFullScaleBits ADS1115 < sim_regs s (reg_code CONVERSION_REG).
Proof.
  intros Hs Hchip Hch Hraw.
  destruct (sim_analogRead fuel (single_ended ch) d s l Hs) as [m' Hm'].
  cbv zeta in Hm'. rewrite Hchip in Hm'.
  set (raw := sim_regs s (reg_code CONVERSION_REG)) in *.
  assert (Hu : u16 raw = raw) by (apply wrap_small; lia).
  rewrite Hu in Hm'. cbn [shiftConversion getFullScaleBits] in Hm'.
  destruct (Z.ltb_spec 0x7FFF raw) as [_ | Hle]; [| lia].
  rewrite lor_sign_bit_set in Hm' by lia.
  assert (Hi : i16 raw = raw - 2 ^ 16).
  { unfold i16. rewrite Hu. destruct (Z.ltb_spec raw (2 ^ 15)); [lia | reflexivity]. }
  rewrite Hi in Hm'.
  assert (Hback : u16 (raw - 2 ^ 16) = raw).
  { unfold u16, wrap. symmetry. apply (Z.mod_unique_pos _ _ (-1)); lia. }
  assert (Hchan : analogRead_ch (S fuel) ch (mkMachine d s l) = Some (raw, m')).
  { assert (Hvia : (r ← analogRead (S fuel) (single_ended ch); mret (u16 r))
                     (mkMachine d s l) = Some (raw, m')).
    { unfold mbind, M_bind, mret, M_ret. rewrite Hm', Hback. reflexivity. }
    assert (Hcases : ch = 0 \/ ch = 1 \/ ch = 2 \/ ch = 3) by lia.
    destruct Hcases as [-> | [-> | [-> | ->]]]; exact Hvia. }
  exists m'. split; [exact Hm' |]. split; [exact Hchan |]. split; [| cbn; lia].
  destruct (analogRead_ch_frame _ _ _ _ _ Hchan) as (Hc & _ & _).
  unfold analogReadVoltage. unfold mbind at 1, M_bind at 1. unfold gets at 1.
  unfold mbind at 1, M_bind at 1. rewrite Hchan.
  run. rewrite Hc. cbn [self]. rewrite Hchip. reflexivity.
Qed.

(** ** binary32: the sign of quotients and products *)

Lemma shr_fexp_nonneg m e l : 0 <= m -> 0 <= shr_m (fst (shr_fexp 24 128 m e l)).
Proof.
  intros Hm. unfold shr_fexp, shr.
  assert (Hrec : shr_m (shr_record_of_loc m l) = m) by (destruct l as [| []]; reflexivity).
  destruct (fexp 24 128 (Zdigits2 m + e) - e) as [| p | p]; cbn [fst].
  - rewrite Hrec. exact Hm.
  - rewrite shr_iter_m by (rewrite Hrec; exact Hm). apply Z.shiftr_nonneg.
    rewrite Hrec. exact Hm.
  - rewrite Hrec. exact Hm.
Qed.

(** Rounding a non-negative mantissa gives a number of the given sign. *)
Lemma binary_round_aux_sign sx m e l :
  0 <= m -> has_sign sx (binary_round_aux 24 128 sx m e l).
Proof.
  intros Hm. unfold binary_round_aux.
  pose proof (shr_fexp_nonneg m e l Hm) as H1.
  destruct (shr_fexp 24 128 m e l) as [mrs' e']. cbn [fst] in H1.
  pose proof (round_nearest_even_range (shr_m mrs') (loc_of_shr_record mrs')) as Hr.
  pose proof (shr_fexp_nonneg
                (round_nearest_even (shr_m mrs') (loc_of_shr_record mrs')) e' loc_Exact
                ltac:(lia)) as H2.
  destruct (shr_fexp 24 128 _ e' loc_Exact) as [mrs'' e'']. cbn [fst] in H2.
  destruct (shr_m mrs'') as [| p | p]; [reflexivity | | lia].
  destruct (e'' <=? 128 - 24); reflexivity.
Qed.

Lemma float_of_Z_sign n : n <> 0 -> has_sign (n <? 0) (float_of_Z n).
Proof.
  intros Hn. unfold float_of_Z, binary_normalize.
  destruct n as [| p | p]; [contradiction | |]; unfold binary_round;
    destruct (shl_align _ _ _) as [mz ez]; apply binary_round_aux_sign; lia.
Qed.

Lemma fdiv_sign s x my ey :
  has_sign s x -> has_sign s (fdiv x (S754_finite false my ey)).
Proof.
  destruct x as [sx | sx | | sx mx ex]; cbn [has_sign]; intros Hs; try contradiction;
    subst sx; unfold fdiv, SFdiv; rewrite ?xorb_false_r; try reflexivity.
  unfold SFdiv_core_binary.
  set (m' := match _ - _ - _ with Z0 => _ | Zpos _ => _ | Zneg _ => _ end).
  assert (Hm' : 0 <= m').
  { unfold m'. destruct (_ - _ - _); [lia | apply Z.shiftl_nonneg; lia | lia]. }
  destruct (Z.div_eucl m' (Zpos my)) as [q r] eqn:Hd.
  assert (Hq : q = m' / Zpos my) by (unfold Z.div; rewrite Hd; reflexivity).
  apply binary_round_aux_sign. rewrite Hq. apply Z.div_pos; lia.
Qed.

Lemma fmul_sign s mf ef y :
  has_sign s y -> has_sign s (fmul (S754_finite false mf ef) y).
Proof.
  destruct y as [sy | sy | | sy my ey]; cbn [has_sign]; intros Hs; try contradiction;
    subst sy; unfold fmul, SFmul; cbn [xorb]; try reflexivity.
  apply binary_round_aux_sign. lia.
Qed.

Lemma has_sign_differ x y : has_sign false x -> has_sign true y -> x <> y.
Proof.
  intros Hx Hy ->. destruct y as [s | s | | s m e]; cbn [has_sign] in *; congruence.
Qed.

(** C8.  [analogReadVoltage] scales the [uint16_t] that the channel
    overload of [analogRead] returns, not the reading.  For a conversion
    code of the ADS1115 that stands for a negative reading, [raw - 65536],
    the voltage is computed from [raw] itself: it is a number that is not
    negative, where the full-scale voltage times the ratio of the reading
    to the full-scale code is negative. *)
Theorem analogReadVoltage_negative_reading fuel ch (d : ADS1x15 Sim) s l mf ef :
  serves uint16_t s ->
  chip d = ADS1115 ->
  0 <= ch <= 3 ->
  2 ^ 15 <= sim_regs s (reg_code CONVERSION_REG) < 2 ^ 16 ->
  fmul (full_scale_volts (currentGain d)) (calibration d) = S754_finite false mf ef ->
  let raw := sim_regs s (reg_code CONVERSION_REG) in
  let reading := twos_complement (getADCbits (chip d)) raw in
  let scaled (x : Z) :=
    fmul (fmul (full_scale_volts (currentGain d)) (calibration d))
      (fdiv (float_of_Z x) (float_of_Z (getFullScaleBits (chip d)))) in
  exists m',
    analogRead (S fuel) (single_ended ch) (mkMachine d s l) = Some (reading, m')
    /\ reading = raw - 2 ^ 16
    /\ analogReadVoltage (S fuel) ch (mkMachine d s l) = Some (scaled raw, m')
    /\ has_sign false (scaled raw)
    /\ has_sign true (scaled reading)
    /\ scaled raw <> scaled reading.
Proof.
  intros Hs Hchip Hch Hraw Hfs raw reading scaled.
  destruct (sim_analogRead fuel (single_ended ch) d s l Hs) as [m' Hm'].
  cbv zeta in Hm'. fold raw in Hm'. rewrite Hchip in Hm'.
  assert (Hu : u16 raw = raw) by (apply wrap_small; unfold raw; lia).
  rewrite Hu in Hm'. cbn [shiftConversion getFullScaleBits] in Hm'.
  destruct (Z.ltb_spec 0x7FFF raw) as [_ | Hle]; [| unfold raw in Hle; lia].
  rewrite lor_sign_bit_set in Hm' by (unfold raw; lia).
  assert (Hi : i16 raw = raw - 2 ^ 16).
  { unfold i16. rewrite Hu.
    destruct (Z.ltb_spec raw (2 ^ 15)); [unfold raw in *; lia | reflexivity]. }
  rewrite Hi in Hm'.
  assert (Hreading : reading = raw - 2 ^ 16).
  { unfold reading, twos_complement. rewrite Hchip. cbn [getADCbits].
    change (2 ^ (16 - 1)) with (2 ^ 15).
    destruct (Z.ltb_spec raw (2 ^ 15)); [unfold raw in *; lia | reflexivity]. }
  assert (Hback : u16 (raw - 2 ^ 16) = raw).
  { unfold u16, wrap. symmetry. apply (Z.mod_unique_pos _ _ (-1)); unfold raw; lia. }
  assert (Hchan : analogRead_ch (S fuel) ch (mkMachine d s l) = Some (raw, m')).
  { assert (Hvia : (r ← analogRead (S fuel) (single_ended ch); mret (u16 r))
                     (mkMachine d s l) = Some (raw, m')).
    { unfold mbind, M_bind, mret, M_ret. rewrite Hm', Hback. reflexivity. }
    assert (Hcases : ch = 0 \/ ch = 1 \/ ch = 2 \/ ch = 3) by lia.
    destruct Hcases as [-> | [-> | [-> | ->]]]; exact Hvia. }
  assert (Hden : float_of_Z (getFullScaleBits (chip d)) = S754_finite false 16776704 (-9))
    by (rewrite Hchip; vm_compute; reflexivity).
  assert (Hpos : has_sign false (scaled raw)).
  { unfold scaled. rewrite Hfs, Hden. apply fmul_sign, fdiv_sign.
    replace false with (raw <? 0) by (apply Z.ltb_ge; unfold raw; lia).
    apply float_of_Z_sign. unfold raw. lia. }
  assert (Hneg : has_sign true (scaled reading)).
  { unfold scaled. rewrite Hfs, Hden. apply fmul_sign, fdiv_sign.
    replace true with (reading <? 0) by (apply Z.ltb_lt; rewrite Hreading; unfold raw; lia).
    apply float_of_Z_sign. rewrite Hreading. unfold raw. lia. }
  exists m'. rewrite Hreading at 1.
  split; [exact Hm' |]. split; [exact Hreading |].
  split; [| split; [exact Hpos | split; [exact Hneg | exact (has_sign_differ _ _ Hpos Hneg)]]].
  destruct (analogRead_ch_frame _ _ _ _ _ Hchan) as (Hc & _ & _).
  unfold analogReadVoltage. unfold mbind at 1, M_bind at 1. unfold gets at 1.
  unfold mbind at 1, M_bind at 1. rewrite Hchan.
  run. rewrite Hc. cbn [self]. rewrite getFullScaleV_table. reflexivity.
Qed.

(** The failing input of C8: a new ADS1115 (gain of the 2.048 V range,
    calibration 1.0) whose conversion register reads [0xFFFF], the code
    of -1.  The voltage computed is above 4.096 V. *)
Lemma analogReadVoltage_negative_reading_witness :
  exists m',
    analogRead 1 SE0 (adc_bench ADS1115 0xFFFF) = Some (-1, m')
    /\ analogReadVoltage 1 0 (adc_bench ADS1115 0xFFFF)
       = Some (S754_finite false 8590066 (-21), m')
    /\ fltb (float_lit 4096 3) (S754_finite false 8590066 (-21)) = true
    /\ fmul (fmul (float_lit 2048 3) fone)
         (fdiv (float_of_Z (-1)) (float_of_Z 0x7FFF))
       = S754_finite true 8590197 (-37).
Proof.
  assert (Hs : serves uint16_t (wire (adc_bench ADS1115 0xFFFF))).
  { unfold serves. repeat split; try reflexivity. vm_compute. lia. }
  assert (Hc : chip (self (adc_bench ADS1115 0xFFFF)) = ADS1115) by reflexivity.
  assert (Hch : 0 <= 0 <= 3) by lia.
  assert (Hr : 2 ^ 15 <= sim_regs (wire (adc_bench ADS1115 0xFFFF))
                           (reg_code CONVERSION_REG) < 2 ^ 16)
    by (vm_compute; split; [discriminate | reflexivity]).
  assert (Hf : fmul (full_scale_volts (currentGain (self (adc_bench ADS1115 0xFFFF))))
                 (calibration (self (adc_bench ADS1115 0xFFFF)))
               = S754_finite false 8589935 (-22)) by (vm_compute; reflexivity).
  destruct (analogReadVoltage_negative_reading 0 0 (self (adc_bench ADS1115 0xFFFF))
              (wire (adc_bench ADS1115 0xFFFF)) [] 8589935 (-22) Hs Hc Hch Hr Hf)
    as (m' & H1 & _ & H2 & _).
  exists m'. split; [exact H1 |]. split; [| split; vm_compute; reflexivity].
  etransitivity; [exact H2 |]. vm_compute. reflexivity.
Defined.

(** ** Runs on the simulated transport *)

(** Two words of three written to the low-threshold register. *)
Lemma writeRegisters_bytes_witness :
  Nat.le 2 (length [0x8583; 0x1234; 7])
  /\ exists st m',
       writeRegisters uint16_t (reg_code LOW_THRESH_REG) [0x8583; 0x1234; 7] 2
         (bench (sim_device 2 0 0 0 5))
       = Some (st =? 0, m')
       /\ emitted (log m') = [0x02; 0x85; 0x83; 0x12; 0x34].
Proof.
  assert (H : Nat.le 2 (length [0x8583; 0x1234; 7])) by (cbn; lia).
  split; [exact H |].
  destruct (writeRegisters_bytes uint16_t (reg_code LOW_THRESH_REG) [0x8583; 0x1234; 7] 2
              (bench (sim_device 2 0 0 0 5)) H) as (st & m' & Hr & _ & He & _).
  exists st, m'. split; [exact Hr | exact He].
Defined.

(** A device whose registers 0 and 1 hold [0x0607] and [0x1234]. *)
Lemma readRegisters_ready_witness :
  Forall is_byte [0x06; 0x07; 0x12; 0x34]
  /\ exists m',
       readRegisters 1 uint16_t (reg_code CONVERSION_REG) [7; 8; 9] 2
         (bench (sim_device 2 0x0607 1 0x1234 5))
       = Some ((true, [0x0607; 0x1234; 9]), m')
       /\ timeoutFlag (self m') = false.
Proof.
  assert (Hb : Forall is_byte [0x06; 0x07; 0x12; 0x34]).
  { repeat constructor; unfold is_byte; lia. }
  split; [exact Hb |].
  assert (H1 : supported uint16_t = true) by reflexivity.
  assert (H2 : Nat.le 2 (length [7; 8; 9])) by (cbn; lia).
  assert (H3 : poll 1 (fun avail => size_t avail <? size_t (Z.of_nat 2 * sizeof uint16_t))
                 (fst (readRegisters_start uint16_t (reg_code CONVERSION_REG) 2
                         (bench (sim_device 2 0x0607 1 0x1234 5))))
                 (snd (readRegisters_start uint16_t (reg_code CONVERSION_REG) 2
                         (bench (sim_device 2 0x0607 1 0x1234 5))))
               = Some (Ready,
                       snd (readRegisters_start uint16_t (reg_code CONVERSION_REG) 2
                              (bench (sim_device 2 0x0607 1 0x1234 5)))))
    by reflexivity.
  assert (H5 : Wire_reads (2 * width uint16_t)
                 (snd (readRegisters_start uint16_t (reg_code CONVERSION_REG) 2
                         (bench (sim_device 2 0x0607 1 0x1234 5))))
               = ([0x06; 0x07; 0x12; 0x34],
                  sim_set_rx []
                    (snd (readRegisters_start uint16_t (reg_code CONVERSION_REG) 2
                            (bench (sim_device 2 0x0607 1 0x1234 5))))))
    by reflexivity.
  destruct (readRegisters_ready 1 uint16_t (reg_code CONVERSION_REG) [7; 8; 9] 2
              (bench (sim_device 2 0x0607 1 0x1234 5))
              (snd (readRegisters_start uint16_t (reg_code CONVERSION_REG) 2
                      (bench (sim_device 2 0x0607 1 0x1234 5))))
              [0x06; 0x07; 0x12; 0x34]
              (sim_set_rx []
                 (snd (readRegisters_start uint16_t (reg_code CONVERSION_REG) 2
                         (bench (sim_device 2 0x0607 1 0x1234 5)))))
              H1 H2 H3 H5 Hb) as (m' & Hr & Hf & _).
  exists m'. split; [exact Hr | exact Hf].
Defined.

(** No word asked of a device that never answers. *)
Lemma readRegisters_none_witness :
  0 <= @size_t_bits Sim _
  /\ exists w',
       readRegisters 1 uint16_t (reg_code CONVERSION_REG) [7; 8] 0 (bench silent_device)
       = Some ((true, [7; 8]),
               mkMachine (set_timeoutFlag false (engine0 (Some notify) (Some report))) w'
                 [beginTransmission 0x48; write 0; endTransmission false 0;
                  requestFrom 0x48 0]).
Proof.
  assert (H : 0 <= @size_t_bits Sim _) by (cbn; lia).
  split; [exact H |].
  exact (readRegisters_none 0 uint16_t (reg_code CONVERSION_REG) [7; 8]
           (bench silent_device) H).
Defined.

(** 128 words of two bytes, with a budget of 2 ms. *)
Lemma readRegisters_oversize_witness :
  (128 <= 255)%nat
  /\ 256 <= Z.of_nat 128 * sizeof uint16_t
  /\ exists m',
       readRegisters 10 uint16_t (reg_code CONVERSION_REG) (replicate 128 7) 128
         (mkMachine (mkWireUtil 2 false defaultAddress (Some notify) None)
            (sim_device 2 0 0 0x1234 5) [])
       = Some ((false, replicate 128 0), m')
       /\ timeoutFlag (self m') = true.
Proof.
  assert (H1 : (128 <= 255)%nat) by lia.
  assert (H2 : 256 <= Z.of_nat 128 * sizeof uint16_t) by (vm_compute; discriminate).
  split; [exact H1 |]. split; [exact H2 |].
  pose (o := mkWireUtil 2 false defaultAddress (Some notify) (@None (Z -> Sim -> Sim))).
  pose (m' := match readRegisters 10 uint16_t (reg_code CONVERSION_REG)
                      (replicate 128 7) 128
                      (mkMachine o (sim_device 2 0 0 0x1234 5) []) with
              | Some (_, m) => m
              | None => mkMachine o (sim_device 2 0 0 0x1234 5) []
              end).
  assert (Hr : readRegisters 10 uint16_t (reg_code CONVERSION_REG) (replicate 128 7) 128
                 (mkMachine o (sim_device 2 0 0 0x1234 5) [])
               = Some ((false, replicate 128 0), m')) by (vm_compute; reflexivity).
  exists m'. split; [exact Hr |].
  exact (proj1 (proj2 (readRegisters_oversize 10 uint16_t (reg_code CONVERSION_REG)
                         (replicate 128 7) 128 o (sim_device 2 0 0 0x1234 5) []
                         (false, replicate 128 0) m' H1 H2 Hr))).
Defined.

(** A device that never answers: the read ends at the second look at the
    clock. *)
Lemma readRegister_starved_returns_witness :
  exists n, forall fuel, (n <= fuel)%nat ->
    exists m',
      readRegister fuel uint16_t (reg_code CONVERSION_REG) (bench silent_device)
      = Some (0, m')
      /\ timeoutFlag (self m') = true
      /\ List.filter is_handler_call (log m') = [timeOutHandlerCall].
Proof.
  destruct (readRegister_starved_returns uint16_t (reg_code CONVERSION_REG)
              (bench silent_device)
              (sim_answered 0 [] (sim_answered 0 [] (sim_answered 0 [] silent_device))))
    as [n Hn].
  - eapply starved_waiting;
      [reflexivity | reflexivity | reflexivity | vm_compute; discriminate |].
    eapply starved_expired;
      [reflexivity | reflexivity | reflexivity | vm_compute; reflexivity].
  - exists n. intros fuel Hf. destruct (Hn fuel Hf) as (m' & Hr & Hfl & _ & Hh).
    exists m'. split; [exact Hr |]. split; [exact Hfl | exact Hh].
Defined.

(** A read that timed out on a device that never answers: the flag is
    true and the bus was starved. *)
Lemma readRegister_flag_iff_starved_witness :
  exists m',
    readRegister 5 uint16_t (reg_code CONVERSION_REG) (bench silent_device)
    = Some (0, m')
    /\ timeoutFlag (self m') = true
    /\ exists w',
         Starved (fun avail => avail =? 0)
           (fst (readRegister_start uint16_t (reg_code CONVERSION_REG)
                   (bench silent_device)))
           (snd (readRegister_start uint16_t (reg_code CONVERSION_REG)
                   (bench silent_device)))
           w'.
Proof.
  pose (m' := match readRegister 5 uint16_t (reg_code CONVERSION_REG)
                      (bench silent_device) with
              | Some (_, m) => m
              | None => bench silent_device
              end).
  assert (Hr : readRegister 5 uint16_t (reg_code CONVERSION_REG) (bench silent_device)
               = Some (0, m')) by (vm_compute; reflexivity).
  assert (Hf : timeoutFlag (self m') = true) by (vm_compute; reflexivity).
  exists m'. split; [exact Hr |]. split; [exact Hf |].
  exact (proj1 (proj1 (readRegister_flag_iff_starved 5 uint16_t (reg_code CONVERSION_REG)
                         (bench silent_device) 0 m' Hr)) Hf).
Defined.

(** A clock 296 ms before its roll-over and the budget of 1000 ms: the
    read times out after one millisecond. *)
Lemma readRegister_early_expiry_witness :
  2 ^ 32 <= ulong 4294967000 + timeoutTime (self (bench late_device))
  /\ readRegister 1 uint16_t (reg_code CONVERSION_REG) (bench late_device)
     = Some (0, mkMachine (set_timeoutFlag true (engine0 (Some notify) (Some report)))
                  (notify (sim_answered 0 [] (sim_answered 0 [] late_device)))
                  [beginTransmission 0x48; write 0; endTransmission false 0;
                   requestFrom 0x48 2; timeOutHandlerCall])
  /\ ulong 4294967001 - ulong 4294967000 < 1000.
Proof.
  assert (H1 : millis (Wire_requestFrom (address (self (bench late_device)))
                         (u8 (sizeof uint16_t))
                         (snd (addressed (address (self (bench late_device)))
                                 (reg_code CONVERSION_REG) (wire (bench late_device)))))
               = (4294967000, sim_answered 0 [] late_device)) by reflexivity.
  assert (H2 : Wire_available (sim_answered 0 [] late_device)
               = (0, sim_answered 0 [] late_device)) by reflexivity.
  assert (H3 : millis (sim_answered 0 [] late_device)
               = (4294967001, sim_answered 0 [] (sim_answered 0 [] late_device)))
    by reflexivity.
  assert (H4 : timeoutTime (self (bench late_device)) < 2 ^ 32)
    by (vm_compute; reflexivity).
  assert (H5 : ulong 4294967000 <= ulong 4294967001) by (vm_compute; discriminate).
  assert (H6 : 2 ^ 32 <= ulong 4294967000 + timeoutTime (self (bench late_device)))
    by (vm_compute; discriminate).
  split; [exact H6 |].
  exact (readRegister_early_expiry 0 uint16_t (reg_code CONVERSION_REG) (bench late_device)
           4294967000 (sim_answered 0 [] late_device) 4294967001
           (sim_answered 0 [] late_device)
           (sim_answered 0 [] (sim_answered 0 [] late_device))
           H1 H2 H3 H4 H5 H6).
Defined.

(** A clock at [2^32 - 1001] and the budget of 1000 ms. *)
Lemma readRegister_unbounded_wait_witness :
  fst (readRegister_start uint16_t (reg_code CONVERSION_REG) (bench edge_device))
  = 2 ^ 32 - 1
  /\ exists m',
       readRegister 1 uint16_t (reg_code CONVERSION_REG) (bench edge_device)
       = Some (0x1234, m')
       /\ timeoutFlag (self m') = false.
Proof.
  assert (H1 : fst (readRegister_start uint16_t (reg_code CONVERSION_REG)
                      (bench edge_device)) = 2 ^ 32 - 1) by (vm_compute; reflexivity).
  split; [exact H1 |].
  pose (m' := match readRegister 1 uint16_t (reg_code CONVERSION_REG)
                      (bench edge_device) with
              | Some (_, m) => m
              | None => bench edge_device
              end).
  assert (Hr : readRegister 1 uint16_t (reg_code CONVERSION_REG) (bench edge_device)
               = Some (0x1234, m')) by (vm_compute; reflexivity).
  exists m'. split; [exact Hr |].
  exact (proj1 (readRegister_unbounded_wait 1 uint16_t (reg_code CONVERSION_REG)
                  (bench edge_device) 0x1234 m' H1 Hr)).
Defined.

(** [0xBEEF] written to register 1 and read back. *)
Lemma write_then_read_witness :
  serves uint16_t (sim_device 2 0 1 0 5)
  /\ exists m1 m2,
       writeRegister uint16_t 1 0xBEEF (bench (sim_device 2 0 1 0 5)) = Some (true, m1)
       /\ readRegister 1 uint16_t 1 m1 = Some (0xBEEF, m2).
Proof.
  assert (Hs : serves uint16_t (sim_device 2 0 1 0 5)).
  { unfold serves. repeat split; try reflexivity. vm_compute. lia. }
  split; [exact Hs |].
  destruct (write_then_read 0 uint16_t 1 0xBEEF (engine0 (Some notify) (Some report))
              (sim_device 2 0 1 0 5) [] Hs) as (m1 & m2 & H1 & H2 & _).
  exists m1, m2. split; [exact H1 | exact H2].
Defined.

(** Two words written to the threshold registers and read back. *)
Lemma write_then_read_registers_witness :
  serves uint16_t (sim_device 2 0 0 0 5)
  /\ exists m1 m2,
       writeRegisters uint16_t (reg_code LOW_THRESH_REG) [0x8000; 0x7FFF] 2
         (bench (sim_device 2 0 0 0 5)) = Some (true, m1)
       /\ readRegisters 1 uint16_t (reg_code LOW_THRESH_REG) [1; 2; 3] 2 m1
          = Some ((true, [0x8000; 0x7FFF; 3]), m2).
Proof.
  assert (Hs : serves uint16_t (sim_device 2 0 0 0 5)).
  { unfold serves. repeat split; try reflexivity. vm_compute. lia. }
  split; [exact Hs |].
  assert (H1 : Nat.le 2 (length [0x8000; 0x7FFF])) by (cbn; lia).
  assert (H2 : Nat.le 2 (length [1; 2; 3])) by (cbn; lia).
  assert (H3 : Z.of_nat 2 * sizeof uint16_t < 256) by (vm_compute; reflexivity).
  assert (H4 : Nat.le (2 * width uint16_t) (sim_supply (sim_device 2 0 0 0 5)))
    by (vm_compute; lia).
  destruct (write_then_read_registers 0 uint16_t (reg_code LOW_THRESH_REG)
              [0x8000; 0x7FFF] [1; 2; 3] 2 (engine0 (Some notify) (Some report))
              (sim_device 2 0 0 0 5) [] Hs H1 H2 H3 H4) as (m1 & m2 & Hw & Hr & _).
  exists m1, m2. split; [exact Hw | exact Hr].
Defined.

(** Bit 0 of a register that holds [0x1234] is set. *)
Lemma setRegisterBit_bit_witness :
  serves uint16_t (sim_device 2 0 1 0x1234 5)
  /\ 0 <= 0 < 15
  /\ exists m',
       setRegisterBit 1 uint16_t 1 0 true (bench (sim_device 2 0 1 0x1234 5))
       = Some (true, m')
       /\ sim_regs (wire m') (u8 1) = 0x1235.
Proof.
  assert (Hs : serves uint16_t (sim_device 2 0 1 0x1234 5)).
  { unfold serves. repeat split; try reflexivity. vm_compute. lia. }
  assert (Hb : 0 <= 0 < 15) by lia.
  assert (Hv : 0 <= sim_regs (sim_device 2 0 1 0x1234 5) (u8 1) < 2 ^ (8 * sizeof uint16_t)).
  { vm_compute. split; [discriminate | reflexivity]. }
  split; [exact Hs |]. split; [exact Hb |].
  destruct (setRegisterBit_bit 0 uint16_t 1 0 true (engine0 (Some notify) (Some report))
              (sim_device 2 0 1 0x1234 5) [] Hs Hb Hv) as (m' & Hr & Hq & _).
  exists m'. split; [exact Hr | exact Hq].
Defined.

(** The read of a device that never answers times out, and register 1,
    which held [0x1234], is written with the mask [0x0008]. *)
Lemma setRegisterBit_after_timeout_witness :
  exists n, forall fuel, (n <= fuel)%nat ->
    exists m',
      setRegisterBit fuel uint16_t 1 3 true (bench silent_device) = Some (true, m')
      /\ sim_regs (wire (bench silent_device)) 1 = 0x1234
      /\ sim_regs (wire m') 1 = 0x0008
      /\ timeoutFlag (self m') = true.
Proof.
  destruct (setRegisterBit_after_timeout uint16_t 1 3 true (bench silent_device)
              (sim_answered 1 [] (sim_answered 1 [] (sim_answered 1 [] silent_device))))
    as [n Hn].
  - lia.
  - eapply starved_waiting;
      [reflexivity | reflexivity | reflexivity | vm_compute; discriminate |].
    eapply starved_expired;
      [reflexivity | reflexivity | reflexivity | vm_compute; reflexivity].
  - exists n. intros fuel Hf. rewrite (Hn fuel Hf).
    eexists. split; [vm_compute; reflexivity |].
    split; [reflexivity |]. split; reflexivity.
Defined.

(** The gain of a new ADS1115 set to [GAIN_16]: [0x8583] becomes [0x8B83]. *)
Lemma setting_writes_its_field_witness :
  0 <= configRegister (@ADS1115_new Sim defaultAddress None None 0) < 2 ^ 16
  /\ configRegister (@ADS1115_new Sim defaultAddress None None 0) = 0x8583
  /\ Z.land (configRegister
               (apply_setting (Gain GAIN_16)
                  (@ADS1115_new Sim defaultAddress None None 0)))
       ADS1x15_GAIN_MASK
     = gain_code GAIN_16
  /\ configRegister
       (apply_setting (Gain GAIN_16) (@ADS1115_new Sim defaultAddress None None 0))
     = 0x8B83.
Proof.
  assert (H : 0 <= configRegister (@ADS1115_new Sim defaultAddress None None 0) < 2 ^ 16)
    by (vm_compute; split; [discriminate | reflexivity]).
  split; [exact H |]. split; [reflexivity |].
  split; [| reflexivity].
  exact (proj1 (setting_writes_its_field (Gain GAIN_16)
                  (@ADS1115_new Sim defaultAddress None None 0) H)).
Defined.

(** The gain and the data rate, in both orders. *)
Lemma settings_commute_witness :
  setting_mask (Gain GAIN_4) <> setting_mask (DataRate1115 ADS1115_DR_860)
  /\ setGain GAIN_4
       (setDataRate1115 ADS1115_DR_860 (@ADS1115_new Sim defaultAddress None None 0))
     = setDataRate1115 ADS1115_DR_860
         (setGain GAIN_4 (@ADS1115_new Sim defaultAddress None None 0)).
Proof.
  assert (H : setting_mask (Gain GAIN_4) <> setting_mask (DataRate1115 ADS1115_DR_860))
    by (vm_compute; discriminate).
  split; [exact H |].
  exact (settings_commute (Gain GAIN_4) (DataRate1115 ADS1115_DR_860)
           (@ADS1115_new Sim defaultAddress None None 0) H).
Defined.

(** The gain set twice. *)
Lemma setting_overrides_witness :
  setting_mask (Gain GAIN_4) = setting_mask (Gain GAIN_16)
  /\ setGain GAIN_4 (setGain GAIN_16 (@ADS1115_new Sim defaultAddress None None 0))
     = setGain GAIN_4 (@ADS1115_new Sim defaultAddress None None 0).
Proof.
  assert (H : setting_mask (Gain GAIN_4) = setting_mask (Gain GAIN_16)) by reflexivity.
  split; [exact H |].
  exact (setting_overrides (Gain GAIN_4) (Gain GAIN_16)
           (@ADS1115_new Sim defaultAddress None None 0) H).
Defined.

(** A conversion of input 0 on a new ADS1115: the word [0xC583] goes out. *)
Lemma analogRead_configures_witness :
  exists m',
    analogRead 1 SE0 (adc_bench ADS1115 0x1234) = Some (0x1234, m')
    /\ configRegister (self (adc_bench ADS1115 0x1234)) = 0x8583
    /\ configRegister (self m') = 0xC583
    /\ emitted (log m') = [0x01; 0xC5; 0x83; 0x00].
Proof.
  pose (m' := match analogRead 1 SE0 (adc_bench ADS1115 0x1234) with
              | Some (_, m) => m
              | None => adc_bench ADS1115 0x1234
              end).
  assert (Hr : analogRead 1 SE0 (adc_bench ADS1115 0x1234) = Some (0x1234, m'))
    by (vm_compute; reflexivity).
  assert (Hc : 0 <= configRegister (self (adc_bench ADS1115 0x1234)) < 2 ^ 16)
    by (vm_compute; split; [discriminate | reflexivity]).
  exists m'. split; [exact Hr |]. split; [reflexivity |]. split; [reflexivity |].
  pose proof (analogRead_configures 1 SE0 (adc_bench ADS1115 0x1234) 0x1234 m' Hr Hc)
    as H.
  cbv zeta in H. destruct H as (_ & _ & _ & _ & H).
  exact H.
Defined.

(** An ADC in front of a device that acknowledges its address and never
    answers a request. *)
Lemma analogRead_timeout_witness :
  exists n, forall fuel, (n <= fuel)%nat ->
    exists m',
      analogRead fuel SE0
        (mkMachine (ADS1115_new defaultAddress (Some notify) None 0) silent_device [])
      = Some (0, m')
      /\ timeoutFlag (super (self m')) = true.
Proof.
  destruct (analogRead_timeout SE0
              (mkMachine (ADS1115_new defaultAddress (Some notify) None 0)
                 silent_device [])
              (sim_answered 0 []
                 (sim_answered 0 []
                    (sim_answered 0 []
                       (mkSim (upd 1 0xC583 (fun _ => 0x1234)) 2 1 [] [] 5 600 0 0)))))
    as [n Hn].
  - eapply starved_waiting;
      [reflexivity | reflexivity | reflexivity | vm_compute; discriminate |].
    eapply starved_expired;
      [reflexivity | reflexivity | reflexivity | vm_compute; reflexivity].
  - exists n. intros fuel Hf. destruct (Hn fuel Hf) as (m' & Hr & Hfl & _).
    exists m'. split; [exact Hr | exact Hfl].
Defined.

(** An ADS1015 whose conversion register reads [0x7FF0]: the full-scale
    code 2047. *)
Lemma analogRead_value_witness :
  serves uint16_t (wire (adc_bench ADS1015 0x7FF0))
  /\ exists m', analogRead 1 SE0 (adc_bench ADS1015 0x7FF0) = Some (2047, m').
Proof.
  assert (Hs : serves uint16_t (wire (adc_bench ADS1015 0x7FF0))).
  { unfold serves. repeat split; try reflexivity. vm_compute. lia. }
  assert (Hr : 0 <= sim_regs (wire (adc_bench ADS1015 0x7FF0)) (reg_code CONVERSION_REG)
               < 2 ^ 16) by (vm_compute; split; [discriminate | reflexivity]).
  assert (Hc : chip (self (adc_bench ADS1015 0x7FF0)) = ADS1115
               \/ sim_regs (wire (adc_bench ADS1015 0x7FF0)) (reg_code CONVERSION_REG)
                  < 2 ^ 15) by (right; vm_compute; reflexivity).
  split; [exact Hs |].
  destruct (analogRead_value 0 SE0 (self (adc_bench ADS1015 0x7FF0))
              (wire (adc_bench ADS1015 0x7FF0)) [] Hs Hr Hc) as (m' & H & _).
  exists m'. exact H.
Defined.

(** An ADS1115 whose conversion register reads [0xFFFF], the code of -1. *)
Lemma analogRead_ch_negative_witness :
  serves uint16_t (wire (adc_bench ADS1115 0xFFFF))
  /\ exists m',
       analogRead 1 SE0 (adc_bench ADS1115 0xFFFF) = Some (-1, m')
       /\ analogRead_ch 1 0 (adc_bench ADS1115 0xFFFF) = Some (65535, m').
Proof.
  assert (Hs : serves uint16_t (wire (adc_bench ADS1115 0xFFFF))).
  { unfold serves. repeat split; try reflexivity. vm_compute. lia. }
  assert (Hc : chip (self (adc_bench ADS1115 0xFFFF)) = ADS1115) by reflexivity.
  assert (Hch : 0 <= 0 <= 3) by lia.
  assert (Hr : 2 ^ 15 <= sim_regs (wire (adc_bench ADS1115 0xFFFF))
                           (reg_code CONVERSION_REG) < 2 ^ 16)
    by (vm_compute; split; [discriminate | reflexivity]).
  split; [exact Hs |].
  destruct (analogRead_ch_negative 0 0 (self (adc_bench ADS1115 0xFFFF))
              (wire (adc_bench ADS1115 0xFFFF)) [] Hs Hc Hch Hr)
    as (m' & H1 & H2 & _).
  exists m'. split; [exact H1 | exact H2].
Defined.
